(* ===== verification/_CoqProject ===== *)
-Q . S2P
Prelude.v
JsString.v
Types.v
Entry.v
Api.v
Filter.v
Store.v
AddForm.v
ListView.v
Detail.v
Remote.v
Routing.v
ImageUpload.v
