(* ===== verification/Prelude.v ===== *)
(** * Lost & Found board: a verification development

    This library models the TypeScript/React client of the Lost & Found
    board (repository shakhnozee/lost-found, sources under [src/src/]) and
    proves the properties that make its logic correct.

    ** The program and how its parts interact

    - [types.ts] declares the data: [Item], [CreateItemData], [ItemsState].
    - [services/api.ts] maps four logical operations (list, create, update,
      delete) onto HTTP calls against a remote [/items] collection.
    - [lib/store.ts] is a Redux Toolkit slice over [ItemsState] with six
      reducers ([setItems], [setLoading], [setError], [addItem],
      [updateItem], [removeItem]).
    - [pages/list.tsx] ([ItemList]) fetches the collection through the query
      cache, derives the filtered and paginated view (search with a 300 ms
      debounce, type and status filters, 6 items per page), resets the page
      when a filter changes, and toggles an item's status through
      [updateItem] followed by an invalidation of the ["items"] query.
    - [pages/add.tsx] ([AddItemForm]) validates a creation form, posts it
      with [createItem], invalidates the query, resets the form and shows a
      confirmation for 3000 ms.
    - [pages/detail.tsx] ([ItemDetails]) is a dialog with a view/edit state
      machine: draft buffering, save through [updateItem], delete with
      confirmation through [deleteItem].
    - [pages/img.tsx] ([ImageUploadSection]) validates an uploaded file and
      manages the lifetime of its object URL.
    - [routes/routes.tsx] and [pages/header.tsx] route between [/list] and
      [/add] and highlight the current view.

    ** How the code is modelled

    Every React component is modelled as an explicit state record and a
    handler [S -> E -> option (S * list O)] (see [Handler] below): the
    event type [E] lists what the user or the runtime can do (a click, a
    key stroke, a timer, a network completion), [None] means that the event
    cannot happen in that state (the button is not rendered or is
    disabled), and the list of outputs [O] records what the handler asks of
    the outside world, in order: HTTP requests, query invalidations, timers,
    parent callbacks.  The hooks' state updates ([useState] setters), the
    effects they trigger ([useEffect] with its dependency list, run after
    the render in declaration order) and the mutation callbacks
    ([onSuccess]) are written out in each handler.  [run] folds a handler
    over a list of events; [reachable] is the set of states some event
    sequence reaches, and [reachable_ind] is the rule-induction principle
    every invariant proof uses.

    JavaScript values are kept at the level the code uses them: strings are
    Stdlib [string]s read as Latin-1 code units (JsString.v, which writes
    out [toLowerCase], [trim] and [includes] on that range), numbers used as
    page indices and times are [Z] (every value the code computes is an
    integer far below 2^53, so double arithmetic is exact), arrays are
    lists, [Array.prototype.slice] and [findIndex] are written out with
    their negative-index and [-1] conventions (this file).

    ** Files (in dependency order)

    - Prelude.v: this header, the [lf] notation scope, the handler and
      reachability machinery ([run], [reachable_ind], [run_trace_ind]), JS
      array and number helpers, the [lf] hint database.
    - JsString.v: Latin-1 [toLowerCase], [trim], [includes], prefix
      stripping, with their specifications ([includes] is equivalent to the
      substring relation), and [decodeURIComponent] (percent escapes with
      UTF-8 validation), which the router applies to the pathname.
    - Types.v: [Item], [ItemType], [ItemStatus], [CreateItemData],
      [ItemsState], [PartialItem], with decidable equality instances, and
      [item_of_partial], the check that a [Partial<Item>] is a whole item.
    - Entry.v: [main.tsx] and [heading.tsx]: the element tree the entry
      point renders and the components it mounts (only [Heading]).
    - Api.v: [services/api.ts]: each exported function as the [Request] it
      sends (method, path, body); the round trip of the item paths.
    - Filter.v: the derived view of [pages/list.tsx] (lines 49-65):
      [filteredItems], [paginatedItems], [totalPages], against an abstract
      specification (membership, page bounds, the pages partition the
      filtered list).
    - Store.v: the Redux slice of [lib/store.ts]; the unique-id invariant,
      a refinement of the item list into a finite map, and the equivalence
      of the [findIndex]-based [updateItem] with a recursive reference
      ([replace_first]).
    - AddForm.v: [pages/add.tsx]: validation, submission guard, success
      reset and the 3000 ms confirmation timer.
    - ListView.v: the [ItemList] component of [pages/list.tsx] as a state
      machine: debounce timer, page reset, pagination buttons, status
      toggle, query data, and a view model of its JSX.
    - Detail.v: the [ItemDetails] dialog of [pages/detail.tsx]: props with
      reference identity ([ItemRef]), the reset effect, edit/save/cancel,
      confirmed delete, the mutation callbacks, a view model.
    - Remote.v: the external REST collection as the typeclass contract
      [ItemService]/[ItemServiceLaws] (spec section 4.1) with an executable
      [Mock] instance; the pages' [mutationFn]s ([list_request],
      [detail_request], [add_request]); end-to-end theorems proved against
      the contract, for every service that keeps it.
    - Routing.v: [routes/routes.tsx] resolved with react-router 6 matching
      (the pathname percent-decoded per segment, then matched
      case-insensitively up to trailing slashes), the [Navigate replace] redirects, [pages/header.tsx]'s [currentView]
      and highlighting, and the browser history under navigation.
    - ImageUpload.v: [pages/img.tsx]: [validateFile], the upload and remove
      handlers, the effect on [image] with its cleanup, the browser's
      object-URL store.

    ** What the theorems show (groups)

    - Filtering keeps exactly the items matching all three predicates; a
      page holds at most 6 items for every page number; a page from 1 on is
      non-empty iff it is at most [totalPages]; the pages 1..[totalPages]
      concatenate to the filtered list.
    - The list view keeps [currentPage >= 1], keeps it in range under user
      actions, resets it on every filter change, commits exactly the last
      search text after a 300 ms quiet period and not before, and toggles
      status with one request and one invalidation; it can reach a state
      showing an empty page with no pagination control (a finding).
    - The creation form never sends a request with a blank required field,
      never has two creations in flight, resets after success, shows its
      confirmation for exactly 3000 ms, and drops failures silently.
    - End to end (Remote.v): any interleaving of the three pages' requests
      keeps the service's ids unique; a served "Mark as Done" overwrites the
      stored item with the list's cached copy, so a dialog save followed by
      a stale "Mark as Done" is lost (a finding); an enabled Save sends
      exactly one update, which merges the draft under the displayed id; a
      served delete removes the item; a valid submission sends exactly one
      creation, which appends one item with the form's values under a
      fresh id.
    - The image picker accepts exactly the files of at most 5 MiB with one
      of four image types, never leaks or prematurely revokes an object
      URL, and keeps the parent's value equal to the preview's URL.
    - Routing settles after one redirect, history entries never redirect
      (Back and Forward never bounce), and the header highlights the page
      shown for lower-case paths without percent escapes, but not for
      ["/LIST"] or ["/%6cist"] (a finding): the routes match the decoded,
      case-folded path, the header the raw one; whatever the path, it
      never highlights a page other than the one shown.
    - The dialog's Save sends a complete draft carrying the displayed id;
      delete needs confirmation; after any events other than its own
      result, a save's success ends whatever edit session is open and a
      delete's success reports the item shown by then, and a refetched
      item object overwrites the draft (findings).
    - The Redux reducers preserve unique ids (given fresh ids for
      [addItem]), and on unique-id lists they implement map insertion,
      update and deletion; [updateItem] equals replacing the first item
      with the payload's id, on every list.
    - Every update body any page sends is a whole [Item] (all fields
      present) whose id is the one in the request path.

    ** Bounds and fuel

    No definition needs fuel: every recursion is structural on a string or
    list, and every component is a one-step handler, so [run] terminates on
    every finite event list.  Page size is the code's constant 6; the
    debounce delay is 300 and the confirmation delay 3000 (milliseconds);
    the upload limit is 5 * 1024 * 1024 bytes.  Times and sizes are [Z]:
    every value the code computes is an integer far below 2^53, where
    JavaScript's double arithmetic is exact.

    ** Not modelled

    - [main.tsx] mounts [Heading] only (Entry.v): [MyRouter] and the pages
      are not mounted by the entry point, so the page theorems describe the
      components as written, not a running build.
    - CSS classes, icons, layout, date formatting, [console.log] calls;
      [window.scrollTo] is recorded as an output only.
    - The HTTP transport (axios), React Query's cache and the React
      scheduler: the handlers record the requests and invalidations they
      issue, and the responses are events.  The remote service is not code
      of the repository; Remote.v states what the client assumes of it.
    - Strings outside Latin-1: JavaScript strings are UTF-16; the model's
      strings are byte sequences (the Cyrillic messages of [img.tsx] are
      their UTF-8 encodings, used only for display).
*)

From stdpp Require Export base list strings gmap.
From Stdlib Require Export ZArith Lia.

Declare Scope lf_scope.
Delimit Scope lf_scope with lf.
Open Scope lf_scope.

Create HintDb lf discriminated.
Create Rewrite HintDb lf_rw.

(** ** Event handlers and reachability *)

(** A handler maps a state and an event to the next state and the list of
    outputs (requests, invalidations, timers, callbacks) it issues; [None]
    when the event cannot occur in that state. *)
Definition Handler (S E O : Type) : Type := S -> E -> option (S * list O).

(** Count the outputs satisfying a boolean test. *)
Definition count_outs {O} (p : O -> bool) (os : list O) : nat :=
  length (List.filter p os).

(** [Array.prototype.slice(start, end)] on integer arguments: a negative
    index counts from the end, every index is clamped to [0, length]. *)
Definition js_rel_index (len i : Z) : Z :=
  if (i <? 0)%Z then Z.max (len + i) 0 else Z.min i len.

Definition js_slice {A} (l : list A) (start end_ : Z) : list A :=
  let len := Z.of_nat (length l) in
  let k := js_rel_index len start in
  let fin := js_rel_index len end_ in
  take (Z.to_nat (fin - k)) (drop (Z.to_nat k) l).

(** [Array.prototype.findIndex]: the index of the first element passing the
    test, or -1. *)
Fixpoint js_findIndex {A} (p : A -> bool) (l : list A) : Z :=
  match l with
  | [] => (-1)%Z
  | x :: l' => if p x then 0%Z else
                 let i := js_findIndex p l' in
                 if (i =? -1)%Z then (-1)%Z else (i + 1)%Z
  end.

(** [Math.ceil(a / b)] for integers [a] and a positive integer [b]. *)
Definition js_ceil_div (a b : Z) : Z := (- ((- a) / b))%Z.

Section Run.
Context {S E O : Type} (h : Handler S E O).

(** Run a sequence of events, concatenating the outputs in order. *)
Fixpoint run (s : S) (es : list E) : option (S * list O) :=
  match es with
  | [] => Some (s, [])
  | e :: es' =>
      match h s e with
      | None => None
      | Some (s1, o1) =>
          match run s1 es' with
          | None => None
          | Some (s2, o2) => Some (s2, o1 ++ o2)
          end
      end
  end.

Definition reachable (init s : S) : Prop :=
  exists es outs, run init es = Some (s, outs).

Lemma run_app s es1 es2 :
  run s (es1 ++ es2) =
    match run s es1 with
    | None => None
    | Some (s1, o1) =>
        match run s1 es2 with
        | None => None
        | Some (s2, o2) => Some (s2, o1 ++ o2)
        end
    end.
Proof.
  revert s. induction es1 as [|e es1 IH]; intros s; simpl.
  - destruct (run s es2) as [[??]|]; done.
  - destruct (h s e) as [[s1 o1]|]; [|done]. rewrite IH.
    destruct (run s1 es1) as [[s2 o2]|]; [|done].
    destruct (run s2 es2) as [[s3 o3]|]; [|done]. by rewrite app_assoc.
Qed.

Lemma reachable_refl s : reachable s s.
Proof. exists [], []. done. Qed.

Lemma reachable_step init s e s' o :
  reachable init s -> h s e = Some (s', o) -> reachable init s'.
Proof.
  intros (es & outs & Hrun) Hh. exists (es ++ [e]), (outs ++ o).
  rewrite run_app, Hrun. simpl. rewrite Hh. by rewrite app_nil_r.
Qed.

(** Rule induction on reachability: a property of the initial state that
    every enabled event preserves holds in every reachable state. *)
Lemma reachable_ind (P : S -> Prop) init :
  P init ->
  (forall s e s' o, P s -> h s e = Some (s', o) -> P s') ->
  forall s, reachable init s -> P s.
Proof.
  intros Hinit Hstep s (es & outs & Hrun).
  revert init outs Hinit Hrun. induction es as [|e es IH]; intros init outs Hinit Hrun.
  - simpl in Hrun. by simplify_eq.
  - simpl in Hrun. destruct (h init e) as [[s1 o1]|] eqn:He; [|done].
    destruct (run s1 es) as [[s2 o2]|] eqn:Hr; [|done]. simplify_eq.
    eapply IH; [|exact Hr]. eauto.
Qed.

(** Invariants strengthened by reachability. *)
Lemma reachable_ind_strong (P : S -> Prop) init :
  P init ->
  (forall s e s' o, reachable init s -> P s -> h s e = Some (s', o) -> P s') ->
  forall s, reachable init s -> P s.
Proof.
  intros Hinit Hstep s Hr.
  enough (reachable init s /\ P s) by tauto.
  revert s Hr. apply reachable_ind.
  - split; [apply reachable_refl|done].
  - intros s e s' o [Hr Hp] Hh. split; [eapply reachable_step|eapply Hstep]; eauto.
Qed.
(** Induction along a run, for properties of a state and the outputs
    issued so far. *)
Lemma run_trace_ind (P : S -> list O -> Prop) init :
  P init [] ->
  (forall s o e s' o', P s o -> h s e = Some (s', o') -> P s' (o ++ o')) ->
  forall es s o, run init es = Some (s, o) -> P s o.
Proof.
  intros Hinit Hstep es. induction es as [|e es IH] using rev_ind; intros s o.
  - simpl. by intros [= <- <-].
  - rewrite run_app. destruct (run init es) as [[s1 o1]|] eqn:Hr; [|done].
    simpl. destruct (h s1 e) as [[s2 o2]|] eqn:He; [|done].
    rewrite app_nil_r. intros [= <- <-]. eapply Hstep; [by apply IH|exact He].
Qed.
(** A property that every step by an event of a given kind preserves
    holds after any run of such events. *)
Lemma run_preserves (P : S -> Prop) (ok : E -> Prop) s es s' o :
  (forall s e s' o, ok e -> P s -> h s e = Some (s', o) -> P s') ->
  Forall ok es -> P s -> run s es = Some (s', o) -> P s'.
Proof.
  intros Hstep Hes. revert s o. induction Hes as [|e es He _ IH]; intros s o Hs; simpl.
  - by intros [= <- _].
  - destruct (h s e) as [[s1 o1]|] eqn:Hh; [|done].
    destruct (run s1 es) as [[s2 o2]|] eqn:Hr; [|done]. intros [= <- _].
    eapply IH; [|exact Hr]. eauto.
Qed.
End Run.

Arguments run {_ _ _} _ _ _.

(** [h ⊢ init ⇝* s]: [s] is reachable from [init] under the handler [h]. *)
Notation "h ⊢ init ⇝* s" := (reachable h init s)
  (at level 70, init at next level, s at next level) : lf_scope.

(** Prove a concrete state reachable by running the given events. *)
Ltac solve_reachable es :=
  lazymatch goal with
  | |- reachable ?h ?init _ =>
      exists es, (default [] (snd <$> run h init es)); vm_compute; reflexivity
  end.

Lemma count_outs_app {O} (p : O -> bool) (os1 os2 : list O) :
  count_outs p (os1 ++ os2) = count_outs p os1 + count_outs p os2.
Proof. unfold count_outs. by rewrite List.filter_app, length_app. Qed.

(** ** Lists *)

Lemma list_filter_sublist {A} (p : A -> bool) (l : list A) : List.filter p l `sublist_of` l.
Proof.
  induction l as [|x l IH]; simpl; [done|].
  destruct (p x); [by apply sublist_skip|by apply sublist_cons].
Qed.

Lemma nonempty_length {A} (l : list A) : l <> [] <-> 0 < length l.
Proof. destruct l; simpl; split; (done || lia). Qed.

(** ** JavaScript arrays *)

(** Generic lemmas on these helpers. *)

Lemma js_rel_index_nonneg len i : (0 <= len)%Z -> (0 <= i)%Z -> js_rel_index len i = Z.min i len.
Proof. intros. unfold js_rel_index. destruct (Z.ltb_spec i 0); lia. Qed.

Lemma take_min_length {A} (n : nat) (l : list A) : take n l = take (Nat.min n (length l)) l.
Proof.
  revert l. induction n as [|n IH]; intros [|x l]; simpl; [done..|]. by rewrite IH.
Qed.

Lemma js_slice_nonneg {A} (l : list A) (s e : Z) :
  (0 <= s)%Z -> (s <= e)%Z ->
  js_slice l s e = take (Z.to_nat e - Z.to_nat s) (drop (Z.to_nat s) l).
Proof.
  intros Hs Hse. unfold js_slice.
  rewrite !js_rel_index_nonneg by lia.
  rewrite (take_min_length (Z.to_nat (_ - _))), (take_min_length (_ - _)).
  rewrite !length_drop.
  destruct (decide (Z.to_nat s <= length l)).
  - f_equal; [lia|f_equal; lia].
  - rewrite !drop_ge by lia. by rewrite !take_nil.
Qed.

Lemma length_js_slice_le {A} (l : list A) (s e : Z) :
  (s <= e)%Z -> (0 <= s \/ e <= 0)%Z ->
  (Z.of_nat (length (js_slice l s e)) <= Z.max 0 (e - s))%Z.
Proof.
  intros Hle Hse. unfold js_slice, js_rel_index. rewrite length_take, length_drop.
  destruct (Z.ltb_spec s 0), (Z.ltb_spec e 0); lia.
Qed.

Lemma js_findIndex_spec {A} (p : A -> bool) (l : list A) :
  (js_findIndex p l = -1 /\ Forall (fun x => p x = false) l)%Z \/
  exists i x, js_findIndex p l = Z.of_nat i /\ l !! i = Some x /\ p x = true /\
              forall j y, j < i -> l !! j = Some y -> p y = false.
Proof.
  induction l as [|x l IH]; simpl.
  - left. done.
  - destruct (p x) eqn:Hx.
    + right. exists 0, x. split_and!; [done|done|done|intros; lia].
    + destruct IH as [[-> Hall]|(i & y & -> & Hi & Hy & Hbefore)].
      * left. split; [done|by constructor].
      * right. exists (S i), y. rewrite (proj2 (Z.eqb_neq _ _)) by lia.
        split_and!; [lia|done|done|].
        intros [|j] z Hj Hz; simpl in Hz; [by simplify_eq|].
        eapply (Hbefore j); [lia|done].
Qed.

#[export] Hint Resolve reachable_refl : lf.
#[export] Hint Rewrite @count_outs_app : lf_rw.
