(* ===== verification/JsString.v ===== *)
(** * JavaScript string primitives used by the pages

    [String.prototype.toLowerCase], [trim] and [includes], as the list and
    add pages call them ([pages/list.tsx] line 51, [pages/add.tsx] lines
    48-51).  A JavaScript string is a sequence of UTF-16 code units; this
    file models the strings whose code units are all in the Latin-1 range
    0-255, i.e. Stdlib [string]s with [ascii] read as a byte.  On that range
    the definitions below are exactly the ECMAScript ones:
    - [toLowerCase] maps U+0041-U+005A and U+00C0-U+00DE except U+00D7 to
      the code point 32 above, and leaves every other Latin-1 code unit
      unchanged (U+00B5 and U+00DF lower-case to themselves);
    - [trim] removes leading and trailing WhiteSpace and LineTerminator
      code units, which in Latin-1 are U+0009-U+000D, U+0020 and U+00A0;
    - [includes(s)] is true iff [s] occurs at some position (the empty
      string occurs everywhere). *)

From S2P Require Import Prelude.
From Stdlib Require Import Ascii String.

Module JsString.

(** ** Characters *)

Definition code (c : ascii) : nat := nat_of_ascii c.

Definition is_upper_latin1 (n : nat) : bool :=
  ((65 <=? n) && (n <=? 90)) || ((192 <=? n) && (n <=? 222) && negb (n =? 215)).

Definition lower_char (c : ascii) : ascii :=
  if is_upper_latin1 (code c) then ascii_of_nat (code c + 32) else c.

(** WhiteSpace and LineTerminator code units of ECMAScript in Latin-1. *)
Definition is_js_space (c : ascii) : bool :=
  let n := code c in
  ((9 <=? n) && (n <=? 13)) || (n =? 32) || (n =? 160).

(** ** Operations *)

Fixpoint toLowerCase (s : string) : string :=
  match s with
  | EmptyString => EmptyString
  | String c s' => String (lower_char c) (toLowerCase s')
  end.

Fixpoint trim_start (s : string) : string :=
  match s with
  | EmptyString => EmptyString
  | String c s' => if is_js_space c then trim_start s' else s
  end.

Fixpoint trim_end (s : string) : string :=
  match s with
  | EmptyString => EmptyString
  | String c s' =>
      match trim_end s' with
      | EmptyString => if is_js_space c then EmptyString else String c EmptyString
      | r => String c r
      end
  end.

Definition trim (s : string) : string := trim_end (trim_start s).

Fixpoint starts_with (needle hay : string) : bool :=
  match needle, hay with
  | EmptyString, _ => true
  | String c n', String d h' => Ascii.eqb c d && starts_with n' h'
  | String _ _, EmptyString => false
  end.

(** [hay.includes(needle)]: try every starting position. *)
Fixpoint includes (hay needle : string) : bool :=
  starts_with needle hay ||
  match hay with
  | EmptyString => false
  | String _ hay' => includes hay' needle
  end.

(** JavaScript truthiness of a string: [!s] holds iff [s] is empty. *)
Definition truthy (s : string) : bool :=
  match s with EmptyString => false | _ => true end.

(** Every character of a string satisfies a test. *)
Fixpoint all_chars (p : ascii -> bool) (s : string) : bool :=
  match s with
  | EmptyString => true
  | String c s' => p c && all_chars p s'
  end.

(** The rest of [s] after the prefix [p], if [s] starts with [p]. *)
Fixpoint strip_prefix (p s : string) : option string :=
  match p, s with
  | EmptyString, _ => Some s
  | String c p', String d s' => if Ascii.eqb c d then strip_prefix p' s' else None
  | String _ _, EmptyString => None
  end.

(** Whether the character [c] occurs in [s]. *)
Fixpoint has_char (c : ascii) (s : string) : bool :=
  match s with
  | EmptyString => false
  | String d s' => Ascii.eqb c d || has_char c s'
  end.

(** ** [decodeURIComponent] *)

Section Decode.
Local Open Scope Z_scope.

(** The value of a hexadecimal digit, either case. *)
Definition hex_digit (c : ascii) : option Z :=
  let n := Z.of_nat (code c) in
  if (48 <=? n) && (n <=? 57) then Some (n - 48)
  else if (65 <=? n) && (n <=? 70) then Some (n - 55)
  else if (97 <=? n) && (n <=? 102) then Some (n - 87)
  else None.

(** The argument read as literal code units and escaped octets [%XX]; a
    ['%'] not followed by two hexadecimal digits is a [URIError]
    ([None]). *)
Inductive uri_unit := ULit (c : ascii) | UOctet (b : Z).

Fixpoint uri_units (s : string) : option (list uri_unit) :=
  match s with
  | EmptyString => Some []
  | String c s' =>
      if Ascii.eqb c "%" then
        match s' with
        | String h1 (String h2 s'') =>
            match hex_digit h1, hex_digit h2 with
            | Some d1, Some d2 => cons (UOctet (16 * d1 + d2)) <$> uri_units s''
            | _, _ => None
            end
        | _ => None
        end
      else cons (ULit c) <$> uri_units s'
  end.

(** The length of the UTF-8 sequence an octet starts, from its leading one
    bits: [None] for a continuation octet (one leading one) or five or
    more leading ones, which the algorithm rejects. *)
Definition utf8_length (b : Z) : option nat :=
  if b <? 128 then Some 1%nat
  else if b <? 192 then None
  else if b <? 224 then Some 2%nat
  else if b <? 240 then Some 3%nat
  else if b <? 248 then Some 4%nat
  else None.

Definition is_continuation (b : Z) : bool := Z.land b 192 =? 128.

(** The code point of a well-formed sequence of octets, and whether it
    is the valid UTF-8 encoding of a Unicode code point (not overlong,
    not a surrogate, at most U+10FFFF). *)
Definition utf8_code_point (os : list Z) : Z :=
  match os with
  | [b0; b1] => Z.lor (Z.shiftl (Z.land b0 31) 6) (Z.land b1 63)
  | [b0; b1; b2] => Z.lor (Z.lor (Z.shiftl (Z.land b0 15) 12) (Z.shiftl (Z.land b1 63) 6)) (Z.land b2 63)
  | [b0; b1; b2; b3] =>
      Z.lor (Z.lor (Z.lor (Z.shiftl (Z.land b0 7) 18) (Z.shiftl (Z.land b1 63) 12))
                   (Z.shiftl (Z.land b2 63) 6)) (Z.land b3 63)
  | _ => 0
  end.

Definition utf8_valid (os : list Z) : bool :=
  let v := utf8_code_point os in
  match List.length os with
  | 2%nat => 128 <=? v
  | 3%nat => (2048 <=? v) && negb ((55296 <=? v) && (v <=? 57343))
  | 4%nat => (65536 <=? v) && (v <=? 1114111)
  | _ => false
  end.

Definition octets_string (os : list Z) : string :=
  fold_right (fun b r => String (ascii_of_N (Z.to_N b)) r) EmptyString os.

(** The loop of the ECMAScript [Decode] with an empty reserved set: [need]
    continuation octets are still expected after the octets [acc] of the
    current sequence.  A multi-octet sequence is kept as its octets (the
    model's strings hold non-Latin-1 text as its UTF-8 encoding). *)
Fixpoint decode_units (need : nat) (acc : list Z) (us : list uri_unit) : option string :=
  match us with
  | [] => match need with O => Some EmptyString | S _ => None end
  | u :: us' =>
      match need, u with
      | O, ULit c => String c <$> decode_units O [] us'
      | O, UOctet b =>
          match utf8_length b with
          | Some 1%nat => String (ascii_of_N (Z.to_N b)) <$> decode_units O [] us'
          | Some (S k) => decode_units k [b] us'
          | _ => None
          end
      | S k, UOctet b =>
          if is_continuation b then
            match k with
            | O => if utf8_valid (acc ++ [b])
                   then String.append (octets_string (acc ++ [b])) <$> decode_units O [] us'
                   else None
            | S _ => decode_units k (acc ++ [b]) us'
            end
          else None
      | S _, ULit _ => None
      end
  end.

(** [decodeURIComponent(s)]; [None] where it throws [URIError]. *)
Definition decodeURIComponent (s : string) : option string :=
  uri_units s ≫= decode_units O [].

End Decode.

(** stdpp declares [String.append] [simpl never]; its two equations. *)
Lemma append_nil_l s : (EmptyString ++ s)%string = s.
Proof. reflexivity. Qed.

Lemma append_cons c s t : (String c s ++ t)%string = String c (s ++ t).
Proof. reflexivity. Qed.

Lemma append_nil_r s : (s ++ EmptyString)%string = s.
Proof. induction s as [|c s IH]; [done|]. rewrite append_cons. by f_equal. Qed.

#[export] Hint Rewrite append_nil_l append_cons : lf_rw.


(** ** Specification of [includes]: the substring relation *)

Lemma starts_with_spec needle hay :
  starts_with needle hay = true <-> exists rest, hay = (needle ++ rest)%string.
Proof.
  revert hay. induction needle as [|c n IH]; intros [|d h]; simpl.
  - split; [by exists EmptyString|done].
  - split; [by exists (String d h)|done].
  - split; [done|]. by intros [? ?].
  - rewrite andb_true_iff, Ascii.eqb_eq, IH. split.
    + intros [-> [r ->]]. by exists r.
    + intros [r Hr]. injection Hr as <- ->. split; [done|by eexists].
Qed.

Lemma includes_spec hay needle :
  includes hay needle = true <->
  exists pre post, hay = (pre ++ needle ++ post)%string.
Proof.
  induction hay as [|c h IH]; simpl; rewrite orb_true_iff, starts_with_spec.
  - split.
    + intros [[r Hr]|H]; [exists EmptyString, r; exact Hr|discriminate].
    + intros ([|c' pre] & post & Hp); [left; by exists post|discriminate].
  - rewrite IH. split.
    + intros [[r Hr]|(pre & post & ->)].
      * exists EmptyString, r. exact Hr.
      * by exists (String c pre), post.
    + intros ([|c' pre] & post & Hp).
      * left. by exists post.
      * right. injection Hp as <- ->. eauto.
Qed.

Lemma includes_empty hay : includes hay EmptyString = true.
Proof. apply includes_spec. by exists EmptyString, hay. Qed.

Lemma strip_prefix_app p s : strip_prefix p (p ++ s) = Some s.
Proof. induction p as [|c p IH]; [done|]. rewrite append_cons. simpl. by rewrite Ascii.eqb_refl. Qed.

Lemma strip_prefix_Some p s r : strip_prefix p s = Some r -> s = (p ++ r)%string.
Proof.
  revert s. induction p as [|c p IH]; intros [|d s]; simpl.
  - by intros [= <-].
  - by intros [= <-].
  - discriminate.
  - destruct (Ascii.eqb_spec c d); [subst|done]. intros H. rewrite append_cons. f_equal. by apply IH.
Qed.

(** ** [toLowerCase] *)

Lemma toLowerCase_length s : String.length (toLowerCase s) = String.length s.
Proof. induction s; simpl; congruence. Qed.

Lemma toLowerCase_append s t :
  toLowerCase (s ++ t) = (toLowerCase s ++ toLowerCase t)%string.
Proof. induction s; autorewrite with lf_rw; simpl; autorewrite with lf_rw; congruence. Qed.

(** Lower-casing keeps ['/'] and never makes one. *)
Lemma lower_char_slash c : Ascii.eqb "/" (lower_char c) = Ascii.eqb "/" c.
Proof. destruct c as [[] [] [] [] [] [] [] []]; reflexivity. Qed.

Lemma toLowerCase_empty s : toLowerCase s = EmptyString <-> s = EmptyString.
Proof. destruct s; simpl; split; done. Qed.

(** ** [trim] *)

Lemma trim_end_empty_iff s : trim_end s = EmptyString <-> all_chars is_js_space s = true.
Proof.
  induction s as [|c s IH]; simpl; [done|].
  rewrite andb_true_iff, <-IH.
  destruct (trim_end s) eqn:E; destruct (is_js_space c); naive_solver.
Qed.

Lemma trim_start_empty_iff s : trim_start s = EmptyString <-> all_chars is_js_space s = true.
Proof.
  induction s as [|c s IH]; simpl; [done|].
  destruct (is_js_space c); simpl; [done|]. split; discriminate.
Qed.

Lemma trim_start_first s c r :
  trim_start s = String c r -> is_js_space c = false.
Proof.
  induction s as [|d s IH]; simpl; [done|].
  destruct (is_js_space d) eqn:E; [done|]. intros; by simplify_eq.
Qed.

(** [!s.trim()] holds exactly when [s] consists of white space only (the
    empty string included). *)
Lemma trim_empty_iff s : trim s = EmptyString <-> all_chars is_js_space s = true.
Proof.
  unfold trim. rewrite trim_end_empty_iff.
  induction s as [|c s IH]; simpl; [done|].
  destruct (is_js_space c) eqn:E; simpl; [done|]. rewrite E. naive_solver.
Qed.

Lemma truthy_false_iff s : truthy s = false <-> s = EmptyString.
Proof. destruct s; naive_solver. Qed.

(** ** [decodeURIComponent] on strings without escapes *)

Lemma uri_units_no_escape c s :
  has_char "%" (String c s) = false -> Ascii.eqb c "%" = false /\ has_char "%" s = false.
Proof. cbn -[Ascii.eqb]. rewrite Ascii.eqb_sym. by intros [-> ->]%orb_false_iff. Qed.

Lemma decode_units_empty n acc us : decode_units n acc us = Some EmptyString -> us = [].
Proof.
  revert n acc. induction us as [|u us IH]; intros n acc; [done|]. simpl. intros H.
  destruct n as [|k], u as [c|b]; try done.
  - by destruct (decode_units _ _ us).
  - destruct (utf8_length b) as [[|[|k]]|]; try done.
    + by destruct (decode_units _ _ us).
    + pose proof (IH _ _ H) as ->. done.
  - destruct (is_continuation b); [|done]. destruct k as [|k].
    + destruct (utf8_valid _); [|done]. destruct (acc ++ [b]) as [|o os] eqn:E;
        [by destruct acc|]. by destruct (decode_units _ _ us).
    + pose proof (IH _ _ H) as ->. done.
Qed.

(** Only the empty string decodes to the empty string. *)
Lemma decodeURIComponent_empty s : decodeURIComponent s = Some EmptyString -> s = EmptyString.
Proof.
  unfold decodeURIComponent. destruct s as [|c s]; [done|]. intros H.
  destruct (uri_units (String c s)) as [us|] eqn:E; [|done]. simpl in H.
  apply decode_units_empty in H as ->. revert E. cbn -[Ascii.eqb].
  destruct (Ascii.eqb c "%"); [|by destruct (uri_units s)].
  destruct s as [|h1 [|h2 s']]; try done.
  destruct (hex_digit h1), (hex_digit h2); try done. by destruct (uri_units s').
Qed.

(** A string with no ['%'] decodes to itself. *)
Lemma decodeURIComponent_no_escape s :
  has_char "%" s = false -> decodeURIComponent s = Some s.
Proof.
  unfold decodeURIComponent. induction s as [|c s IH]; [done|].
  intros [Hc Hs]%uri_units_no_escape. cbn -[Ascii.eqb]. rewrite Hc.
  specialize (IH Hs). destruct (uri_units s) as [us|]; simpl in *; [|done].
  by rewrite IH.
Qed.

End JsString.

#[export] Hint Rewrite JsString.toLowerCase_length JsString.toLowerCase_append : lf_rw.
#[export] Hint Resolve JsString.includes_empty : lf.
