(* ===== verification/Types.v ===== *)
(** * The data of [src/src/types.ts]

    [Item] and [CreateItemData] as records with the source's fields; the
    string-literal unions ["Lost" | "Found"] and ["Active" | "Done"] as
    inductive types; [ItemsState] as the Redux slice state; and
    [PartialItem], the [Partial<Item>] objects the pages send as update
    bodies, as a record of optional fields (an absent key is [None]), with
    [item_of_partial], which reads a whole [Item] back from one. *)

From S2P Require Import Prelude.
From Stdlib Require Import String.

Inductive ItemType := Lost | Found.
Inductive ItemStatus := Active | Done.

#[export] Instance ItemType_eq_dec : EqDecision ItemType.
Proof. solve_decision. Defined.
#[export] Instance ItemStatus_eq_dec : EqDecision ItemStatus.
Proof. solve_decision. Defined.

Record Item := mkItem {
  id : string;
  imageUrl : string;
  name : string;
  location : string;
  date : string;
  type : ItemType;
  status : ItemStatus;
  createdAt : option string
}.

#[export] Instance Item_eq_dec : EqDecision Item.
Proof. solve_decision. Defined.

Record CreateItemData := mkCreateItemData {
  cd_imageUrl : string;
  cd_name : string;
  cd_location : string;
  cd_date : string;
  cd_type : ItemType;
  cd_status : ItemStatus
}.

#[export] Instance CreateItemData_eq_dec : EqDecision CreateItemData.
Proof. solve_decision. Defined.

Record ItemsState := mkItemsState {
  items : list Item;
  loading : bool;
  error : option string
}.

(** [Partial<Item>]: every key may be absent. *)
Record PartialItem := mkPartialItem {
  p_id : option string;
  p_imageUrl : option string;
  p_name : option string;
  p_location : option string;
  p_date : option string;
  p_type : option ItemType;
  p_status : option ItemStatus;
  p_createdAt : option string
}.

#[export] Instance PartialItem_eq_dec : EqDecision PartialItem.
Proof. solve_decision. Defined.

(** The empty object [{}]. *)
Definition empty_partial : PartialItem :=
  mkPartialItem None None None None None None None None.

(** [{ ...item }]: every key of the item, [createdAt] only when present. *)
Definition partial_of_item (it : Item) : PartialItem :=
  mkPartialItem (Some (id it)) (Some (imageUrl it)) (Some (name it))
    (Some (location it)) (Some (date it)) (Some (type it)) (Some (status it))
    (createdAt it).

(** A partial object carrying every required key of an [Item]: what the
    remote store's full-replace [PUT] needs. *)
Definition present {A} (o : option A) : bool :=
  match o with Some _ => true | None => false end.

Definition complete (p : PartialItem) : bool :=
  present (p_id p) && present (p_imageUrl p) && present (p_name p) &&
  present (p_location p) && present (p_date p) &&
  present (p_type p) && present (p_status p).

(** The object read at type [Item]: defined when every required key is
    present. *)
Definition item_of_partial (p : PartialItem) : option Item :=
  match p with
  | mkPartialItem (Some i) (Some u) (Some n) (Some l) (Some d) (Some t) (Some st) c =>
      Some (mkItem i u n l d t st c)
  | _ => None
  end.

Lemma complete_partial_of_item it : complete (partial_of_item it) = true.
Proof. reflexivity. Qed.

Lemma item_of_partial_of_item it : item_of_partial (partial_of_item it) = Some it.
Proof. by destruct it. Qed.

Lemma complete_item_of_partial p :
  complete p = true -> exists it, item_of_partial p = Some it /\ partial_of_item it = p.
Proof.
  destruct p as [[] [] [] [] [] [] [] ?]; try discriminate. intros _. by eexists.
Qed.

#[export] Hint Resolve complete_partial_of_item : lf.
#[export] Hint Rewrite item_of_partial_of_item : lf_rw.
