(* ===== verification/Entry.v ===== *)
(** * The entry point [main.tsx] and the [Heading] of [heading.tsx]

    [main.tsx] looks up the DOM node [#root] (with a non-null assertion:
    [createRoot] throws on a missing node) and renders, under
    [StrictMode], a full-screen [div] holding [<Heading />]; [Heading] is a
    single [Button] reading "Hello world".  The element tree is a value of
    [Element]; user components appear as [EComponent] nodes and [mounted]
    lists the ones a tree mounts.

    The lemma [entry_mounts_only_heading] records what this means for the
    rest of the program: the entry point mounts neither [MyRouter] nor any
    page, so no handler of the other files receives an event in the
    application as it is built. *)

From S2P Require Import Prelude.

Module Entry.

(** The components of the repository that render something. *)
Inductive Component :=
  | CHeading | CMyRouter | CHeader | CItemList | CAddItemForm | CItemDetails
  | CImageUploadSection.

#[export] Instance Component_eq_dec : EqDecision Component.
Proof. solve_decision. Defined.

Inductive Element :=
  | EStrictMode (children : list Element)
  | EDiv (className : string) (children : list Element)
  | EButton (className : string) (label : string)
  | EComponent (c : Component).

(** [const Heading = () => <Button className="text-4xl font-bold">Hello world</Button>] *)
Definition Heading : Element := EButton "text-4xl font-bold" "Hello world".

(** The tree passed to [createRoot(...).render]. *)
Definition root_element : Element :=
  EStrictMode [EDiv "h-screen grid place-items-center" [EComponent CHeading]].

(** [createRoot(document.getElementById('root')!).render(...)]: nothing is
    rendered (the call throws) when the page has no [#root] node. *)
Definition main (root_present : bool) : option Element :=
  if root_present then Some root_element else None.

(** The user components a tree mounts, [Heading] expanded. *)
Fixpoint mounted (e : Element) : list Component :=
  match e with
  | EStrictMode cs | EDiv _ cs => flat_map mounted cs
  | EButton _ _ => []
  | EComponent c => [c]
  end.

(** The labels of the buttons a component shows; a component other than
    [Heading] is not expanded here. *)
Definition expand (c : Component) : option Element :=
  match c with CHeading => Some Heading | _ => None end.

(** ** What the entry point mounts *)

(** The application as built mounts exactly [Heading], which renders one
    button and no further component: [MyRouter], the header and the pages
    are never mounted. *)
Lemma entry_mounts_only_heading :
  main true = Some root_element /\ mounted root_element = [CHeading] /\
  (forall e, expand CHeading = Some e -> mounted e = []) /\ main false = None.
Proof. split_and!; [done|done| |done]. by intros e [= <-]. Qed.

End Entry.
