(* ===== verification/Api.v ===== *)
(** * The HTTP client of [services/api.ts]

    Each of the four exported functions issues one request through the
    axios instance [http], whose [baseURL] is the mockapi collection:
    [getItems] is [GET /items], [createItem(data)] is [POST /items] with
    the creation data, [updateItem(id, data)] is [PUT /items/${id}] with the
    partial item, [deleteItem(id)] is [DELETE /items/${id}].  The id is
    spliced into the path as it is, without URL encoding.  A [Request] is
    what axios sends; the responses are handled by the store model of
    Remote.v.

    [path_item_id] is not code of the repository: it is how the service
    model of Remote.v reads an id back from a path (everything after
    ["/items/"], when it holds no further ['/']); its lemmas serve the
    [Mock] service.  [updateItem_inj] records that an update request
    determines its id and body. *)

From S2P Require Import Prelude JsString Types.
From Stdlib Require Import Ascii.

Module Api.

Inductive Method := GET | POST | PUT | DELETE.

#[export] Instance Method_eq_dec : EqDecision Method.
Proof. solve_decision. Defined.

Inductive Body :=
  | NoBody
  | CreateBody (d : CreateItemData)
  | PatchBody (d : PartialItem).

Record Request := mkRequest { method : Method; path : string; body : Body }.

(** [http = axios.create({ baseURL })] *)
Definition baseURL : string := "https://6888b4f0adf0e59551bb0dbe.mockapi.io/api/v1".

(** The URL axios requests for a path that starts with a slash. *)
Definition full_url (r : Request) : string := (baseURL ++ path r)%string.

(** [`/items/${id}`] *)
Definition item_path (id : string) : string := ("/items/" ++ id)%string.

Definition getItems : Request := mkRequest GET "/items" NoBody.
Definition createItem (data : CreateItemData) : Request := mkRequest POST "/items" (CreateBody data).
Definition updateItem (id : string) (data : PartialItem) : Request :=
  mkRequest PUT (item_path id) (PatchBody data).
Definition deleteItem (id : string) : Request := mkRequest DELETE (item_path id) NoBody.

(** How a server routes a path of the collection: the segment after
    [/items/], when it is a single segment. *)
Definition path_item_id (p : string) : option string :=
  match JsString.strip_prefix "/items/" p with
  | Some rest => if JsString.has_char "/" rest then None else Some rest
  | None => None
  end.

(** ** Routing of the item paths *)

Lemma path_item_id_item_path i :
  path_item_id (item_path i) = if JsString.has_char "/" i then None else Some i.
Proof. unfold path_item_id, item_path. by rewrite JsString.strip_prefix_app. Qed.

Lemma item_path_inj i j : item_path i = item_path j -> i = j.
Proof.
  unfold item_path. intros H. apply (f_equal (JsString.strip_prefix "/items/")) in H.
  rewrite !JsString.strip_prefix_app in H. by injection H.
Qed.

Lemma updateItem_inj i d j e : updateItem i d = updateItem j e -> i = j /\ d = e.
Proof.
  intros H. split; [apply item_path_inj, (f_equal path H)|].
  apply (f_equal body) in H. by injection H.
Qed.

End Api.
