(* ===== verification/Filter.v ===== *)
(** * Filtering and pagination of [pages/list.tsx]

    The derived view of [ItemList] (lines 49-65): [filteredItems] keeps an
    item when its lower-cased name contains the lower-cased debounced search
    text and it passes the type and status filters; [paginatedItems] slices
    page [currentPage] of [itemsPerPage = 6] items with
    [Array.prototype.slice]; [totalPages] is [Math.ceil(length / 6)].

    The filter selections ["All" | "Lost" | "Found"] and
    ["All" | "Active" | "Done"] are written [AllTypes | OnlyType t] and
    [AllStatus | OnlyStatus s]: the comparison [typeFilter === "All" ||
    item.type === typeFilter] becomes a match on the selection.

    The theorems relate these definitions to the abstract specification of
    the view: an item is shown iff it occurs in the collection and satisfies
    the three predicates (with [includes] read as the substring relation),
    the survivors keep their relative order, every page has at most six
    items, the pages 1..[totalPages] concatenate to the filtered list, and a
    page from 1 on is non-empty iff it is at most [totalPages]. *)

From S2P Require Import Prelude JsString Types.

Module Filter.

Inductive TypeFilter := AllTypes | OnlyType (t : ItemType).
Inductive StatusFilter := AllStatus | OnlyStatus (s : ItemStatus).

#[export] Instance TypeFilter_eq_dec : EqDecision TypeFilter.
Proof. solve_decision. Defined.
#[export] Instance StatusFilter_eq_dec : EqDecision StatusFilter.
Proof. solve_decision. Defined.

(** [const itemsPerPage = 6] *)
Definition itemsPerPage : Z := 6.

(** [item.name.toLowerCase().includes(debouncedSearch.toLowerCase())] *)
Definition matchesSearch (debouncedSearch : string) (it : Item) : bool :=
  JsString.includes (JsString.toLowerCase (name it)) (JsString.toLowerCase debouncedSearch).

(** [typeFilter === "All" || item.type === typeFilter] *)
Definition matchesType (typeFilter : TypeFilter) (it : Item) : bool :=
  match typeFilter with
  | AllTypes => true
  | OnlyType t => bool_decide (type it = t)
  end.

(** [statusFilter === "All" || item.status === statusFilter] *)
Definition matchesStatus (statusFilter : StatusFilter) (it : Item) : bool :=
  match statusFilter with
  | AllStatus => true
  | OnlyStatus s => bool_decide (status it = s)
  end.

Definition item_matches (debouncedSearch : string) (typeFilter : TypeFilter)
    (statusFilter : StatusFilter) (it : Item) : bool :=
  matchesSearch debouncedSearch it && matchesType typeFilter it &&
  matchesStatus statusFilter it.

(** [items.filter(...)] *)
Definition filteredItems (items : list Item) (debouncedSearch : string)
    (typeFilter : TypeFilter) (statusFilter : StatusFilter) : list Item :=
  List.filter (item_matches debouncedSearch typeFilter statusFilter) items.

(** [filteredItems.slice(startIndex, endIndex)] *)
Definition paginatedItems (filtered : list Item) (currentPage : Z) : list Item :=
  let startIndex := ((currentPage - 1) * itemsPerPage)%Z in
  let endIndex := (startIndex + itemsPerPage)%Z in
  js_slice filtered startIndex endIndex.

(** [Math.ceil(filteredItems.length / itemsPerPage)] *)
Definition totalPages (filtered : list Item) : Z :=
  js_ceil_div (Z.of_nat (length filtered)) itemsPerPage.

(** ** Abstract specification of the view *)

Module Spec.
(** The search predicate read as a substring relation. *)
Definition name_contains (q : string) (it : Item) : Prop :=
  exists pre post,
    JsString.toLowerCase (name it) = (pre ++ JsString.toLowerCase q ++ post)%string.

Definition type_ok (tf : TypeFilter) (it : Item) : Prop :=
  tf = AllTypes \/ tf = OnlyType (type it).

Definition status_ok (sf : StatusFilter) (it : Item) : Prop :=
  sf = AllStatus \/ sf = OnlyStatus (status it).

Definition shown (q : string) (tf : TypeFilter) (sf : StatusFilter) (it : Item) : Prop :=
  name_contains q it /\ type_ok tf it /\ status_ok sf it.

(** Page [p] (from 1) of a list, by positions. *)
Definition page_of (l : list Item) (p : nat) : list Item :=
  take (Z.to_nat itemsPerPage) (drop ((p - 1) * Z.to_nat itemsPerPage) l).
End Spec.

(** ** Lemmas *)

Lemma item_matches_spec q tf sf it :
  item_matches q tf sf it = true <-> Spec.shown q tf sf it.
Proof.
  unfold item_matches, Spec.shown, matchesSearch, Spec.name_contains,
    Spec.type_ok, Spec.status_ok.
  rewrite !andb_true_iff, JsString.includes_spec.
  destruct tf as [|t], sf as [|s]; simpl; rewrite ?bool_decide_eq_true;
    naive_solver.
Qed.

Lemma totalPages_bounds (l : list Item) :
  (0 <= totalPages l /\
   Z.of_nat (length l) <= totalPages l * itemsPerPage /\
   totalPages l * itemsPerPage < Z.of_nat (length l) + itemsPerPage)%Z.
Proof.
  unfold totalPages, js_ceil_div, itemsPerPage.
  pose proof (Z.div_mod (- Z.of_nat (length l)) 6 ltac:(lia)).
  pose proof (Z.mod_pos_bound (- Z.of_nat (length l)) 6 ltac:(lia)). lia.
Qed.

Lemma paginatedItems_pos (l : list Item) (p : Z) :
  (1 <= p)%Z ->
  paginatedItems l p = Spec.page_of l (Z.to_nat p).
Proof.
  intros Hp. unfold paginatedItems, Spec.page_of, itemsPerPage.
  rewrite js_slice_nonneg by lia. f_equal; [lia|f_equal; lia].
Qed.

(** Pages 1..m concatenate to the first [6 m] elements. *)
Lemma concat_pages (l : list Item) (m : nat) :
  concat (map (Spec.page_of l) (seq 1 m)) = take (m * 6) l.
Proof.
  induction m as [|m IH]; [done|].
  rewrite seq_S, map_app, concat_app, IH. simpl. rewrite app_nil_r.
  unfold Spec.page_of, itemsPerPage.
  replace ((S m - 1) * Z.to_nat 6) with (m * 6) by lia.
  change (Z.to_nat 6) with 6. rewrite take_take_drop. f_equal. lia.
Qed.

(** ** Properties of the view *)

(** C1. An item is displayed (before pagination) iff it belongs to the
    fetched collection, its lower-cased name contains the lower-cased
    search text as a substring, and it passes the type and status
    filters. *)
Theorem filteredItems_spec (items : list Item) q tf sf (x : Item) :
  x ∈ filteredItems items q tf sf <-> x ∈ items /\ Spec.shown q tf sf x.
Proof.
  unfold filteredItems. rewrite !list_elem_of_In, filter_In, item_matches_spec. done.
Qed.

(** C4. Whatever the value of [currentPage] (zero and negative pages
    included, where [slice] counts from the end), a page never shows more
    than [itemsPerPage] items. *)
Theorem paginatedItems_length (filtered : list Item) (currentPage : Z) :
  (Z.of_nat (length (paginatedItems filtered currentPage)) <= itemsPerPage)%Z.
Proof.
  unfold paginatedItems, itemsPerPage.
  pose proof (length_js_slice_le filtered ((currentPage - 1) * 6) ((currentPage - 1) * 6 + 6)).
  lia.
Qed.

(** [totalPages] is zero exactly when no item matches. *)
Theorem totalPages_zero_iff (filtered : list Item) :
  totalPages filtered = 0%Z <-> filtered = [].
Proof.
  pose proof (totalPages_bounds filtered) as (H0 & Hle & Hlt).
  unfold itemsPerPage in *. split.
  - intros Ht. rewrite Ht in Hle. destruct filtered; simpl in *; [done|lia].
  - intros ->. simpl in *. lia.
Qed.

(** C3. The pages [1 .. totalPages] cover the filtered list exactly once,
    in order: concatenating them gives back the filtered list. *)
Theorem pages_partition (filtered : list Item) :
  concat (map (fun i => paginatedItems filtered (Z.of_nat i))
              (seq 1 (Z.to_nat (totalPages filtered)))) = filtered.
Proof.
  rewrite (map_ext_in _ (Spec.page_of filtered)).
  - rewrite concat_pages. apply take_ge.
    pose proof (totalPages_bounds filtered) as (? & ? & ?). unfold itemsPerPage in *. lia.
  - intros i Hi%in_seq. rewrite paginatedItems_pos by lia. f_equal. lia.
Qed.

(** C2. From page 1 on, a page is non-empty exactly when it is at most
    [totalPages]; pages beyond it are empty (the view does not clamp). *)
Theorem paginatedItems_nonempty_iff (filtered : list Item) (currentPage : Z) :
  (1 <= currentPage)%Z ->
  paginatedItems filtered currentPage <> [] <-> (currentPage <= totalPages filtered)%Z.
Proof.
  intros Hp. rewrite paginatedItems_pos by done. unfold Spec.page_of.
  rewrite nonempty_length, length_take, length_drop.
  pose proof (totalPages_bounds filtered) as (? & ? & ?). unfold itemsPerPage in *.
  change (Z.to_nat 6) with 6. lia.
Qed.

(** Witness of [paginatedItems_nonempty_iff]: the third page of a 13-item list holds its last item. *)
Lemma paginatedItems_nonempty_iff_witness :
  exists l : list Item,
    (paginatedItems l 3 <> [] <-> (3 <= totalPages l)%Z) /\ length (paginatedItems l 3) = 1.
Proof.
  exists (replicate 13 (mkItem "1" "" "Keys" "Hall" "2024-01-01" Lost Active None)).
  split; [apply (paginatedItems_nonempty_iff _ 3); lia|reflexivity].
Defined.

End Filter.
