(* ===== verification/AddForm.v ===== *)
(** * The creation form of [pages/add.tsx]

    [AddItemForm] keeps four pieces of state: [formData] (a
    [CreateItemData]), [errors] (a [Partial<CreateItemData>] object, here a
    finite map from the field key to [Some message] or [None] for a key set
    to [undefined]), [isSubmitted], and the mutation's [isPending] flag.
    The handler [step] lists what can happen:
    - [AInput i]: [handleInputChange] (lines 64-69) writes the field and
      clears a truthy error of that field (the key stays, set to undefined);
    - [ASubmit]: [handleSubmit] (lines 57-62) runs [validateForm] (lines
      45-55) and, when it finds no error, calls [mutation.mutate(formData)],
      i.e. issues [POST /items]; the submit button (lines 204-210) is
      disabled while the mutation is pending and is not rendered after a
      success, so the event is impossible then;
    - [ACreateResult ok]: the mutation settles; on success [onSuccess]
      (lines 30-42) invalidates the ["items"] query, sets [isSubmitted],
      resets [formData] and schedules [setIsSubmitted(false)] after 3000 ms;
      on failure nothing but [isPending] changes (there is no [onError]);
    - [ATick dt]: time advances by [dt] ms and every due timer fires.
    [render] is the view of lines 71-214: the success card, or the form with
    its inline error messages and the submit button's label. *)

From S2P Require Import Prelude JsString Types.

Module AddForm.

(** [keyof CreateItemData] *)
Inductive FormField := F_imageUrl | F_name | F_location | F_date | F_type | F_status.

#[export] Instance FormField_eq_dec : EqDecision FormField.
Proof. solve_decision. Defined.

#[export] Instance FormField_countable : Countable FormField.
Proof.
  refine (inj_countable'
    (fun f => match f with F_imageUrl => 0 | F_name => 1 | F_location => 2
                      | F_date => 3 | F_type => 4 | F_status => 5 end)
    (fun n => match n with 0 => F_imageUrl | 1 => F_name | 2 => F_location
                      | 3 => F_date | 4 => F_type | _ => F_status end) _).
  by intros [].
Defined.

(** [Partial<CreateItemData>] used as an error object: a present key maps
    to its message, or to [None] once reset to [undefined]. *)
Notation Errors := (gmap FormField (option string)).

(** A value passed to [handleInputChange]: text inputs give strings, the two
    selects give one of their literals. *)
Inductive FieldInput :=
  | InImageUrl (v : string) | InName (v : string) | InLocation (v : string)
  | InDate (v : string) | InType (v : ItemType) | InStatus (v : ItemStatus).

Definition field_of (i : FieldInput) : FormField :=
  match i with
  | InImageUrl _ => F_imageUrl | InName _ => F_name | InLocation _ => F_location
  | InDate _ => F_date | InType _ => F_type | InStatus _ => F_status
  end.

(** The initial and reset value of [formData] (lines 15-22 and 33-40). *)
Definition defaultFormData : CreateItemData := mkCreateItemData "" "" "" "" Lost Active.

(** [{ ...prev, [field]: value }] *)
Definition set_field (fd : CreateItemData) (i : FieldInput) : CreateItemData :=
  match i with
  | InImageUrl v => mkCreateItemData v (cd_name fd) (cd_location fd) (cd_date fd) (cd_type fd) (cd_status fd)
  | InName v => mkCreateItemData (cd_imageUrl fd) v (cd_location fd) (cd_date fd) (cd_type fd) (cd_status fd)
  | InLocation v => mkCreateItemData (cd_imageUrl fd) (cd_name fd) v (cd_date fd) (cd_type fd) (cd_status fd)
  | InDate v => mkCreateItemData (cd_imageUrl fd) (cd_name fd) (cd_location fd) v (cd_type fd) (cd_status fd)
  | InType v => mkCreateItemData (cd_imageUrl fd) (cd_name fd) (cd_location fd) (cd_date fd) v (cd_status fd)
  | InStatus v => mkCreateItemData (cd_imageUrl fd) (cd_name fd) (cd_location fd) (cd_date fd) (cd_type fd) v
  end.

(** The [newErrors] object built by [validateForm] (lines 46-51). *)
Definition newErrors (fd : CreateItemData) : Errors :=
  let e1 : Errors := if negb (JsString.truthy (JsString.trim (cd_name fd)))
                     then <[F_name := Some "Item name is required"]> ∅ else ∅ in
  let e2 := if negb (JsString.truthy (JsString.trim (cd_location fd)))
            then <[F_location := Some "Location is required"]> e1 else e1 in
  let e3 := if negb (JsString.truthy (cd_date fd))
            then <[F_date := Some "Date is required"]> e2 else e2 in
  if negb (JsString.truthy (JsString.trim (cd_imageUrl fd)))
  then <[F_imageUrl := Some "Image URL is required"]> e3 else e3.

(** [validateForm]: the errors it stores and its verdict
    [Object.keys(newErrors).length === 0]. *)
Definition validateForm (fd : CreateItemData) : Errors * bool :=
  let e := newErrors fd in (e, bool_decide (size e = 0)).

(** [errors[field]] is truthy *)
Definition error_set (errors : Errors) (f : FormField) : bool :=
  match errors !! f with Some (Some msg) => JsString.truthy msg | _ => false end.

Record AddState := mkAddState {
  formData : CreateItemData;
  errors : Errors;
  isSubmitted : bool;
  isPending : bool;
  now : Z;
  timers : list Z   (** deadlines of pending [setIsSubmitted(false)] *)
}.

Definition initState : AddState := mkAddState defaultFormData ∅ false false 0 [].

Inductive AddEvent :=
  | AInput (i : FieldInput)
  | ASubmit
  | ACreateResult (ok : bool)
  | ATick (dt : Z).

Inductive AddOut :=
  | OCreate (data : CreateItemData)   (** [createItem(data)]: POST /items *)
  | OInvalidate                       (** [invalidateQueries(["items"])] *)
  | OSetTimeout (delay : Z).

(** [handleInputChange] *)
Definition handleInputChange (s : AddState) (i : FieldInput) : AddState :=
  let f := field_of i in
  mkAddState (set_field (formData s) i)
    (if error_set (errors s) f then <[f := None]> (errors s) else errors s)
    (isSubmitted s) (isPending s) (now s) (timers s).

(** [handleSubmit] *)
Definition handleSubmit (s : AddState) : AddState * list AddOut :=
  let '(errs, ok) := validateForm (formData s) in
  if ok then (mkAddState (formData s) errs (isSubmitted s) true (now s) (timers s),
              [OCreate (formData s)])
  else (mkAddState (formData s) errs (isSubmitted s) (isPending s) (now s) (timers s), []).

(** [mutation.onSuccess] *)
Definition onSuccess (s : AddState) : AddState * list AddOut :=
  (mkAddState defaultFormData (errors s) true false (now s) (timers s ++ [(now s + 3000)%Z]),
   [OInvalidate; OSetTimeout 3000]).

(** Advancing the clock: every due [setIsSubmitted(false)] fires. *)
Definition tick (s : AddState) (dt : Z) : AddState :=
  let t := (now s + dt)%Z in
  let due := List.filter (fun d => (d <=? t)%Z) (timers s) in
  mkAddState (formData s) (errors s)
    (if bool_decide (due = []) then isSubmitted s else false)
    (isPending s) t (List.filter (fun d => negb (d <=? t)%Z) (timers s)).

Definition step : Handler AddState AddEvent AddOut := fun s e =>
  match e with
  | AInput i => if isSubmitted s then None else Some (handleInputChange s i, [])
  | ASubmit => if isSubmitted s || isPending s then None else Some (handleSubmit s)
  | ACreateResult ok =>
      if isPending s then
        let s1 := mkAddState (formData s) (errors s) (isSubmitted s) false (now s) (timers s) in
        if ok then Some (onSuccess s1) else Some (s1, [])
      else None
  | ATick dt => if (0 <=? dt)%Z then Some (tick s dt, []) else None
  end.

(** ** The rendered view (lines 71-214) *)

Inductive AddView :=
  | SuccessCard
  | FormView (values : CreateItemData)
             (fieldErrors : list (FormField * string))  (** the red messages shown *)
             (submitLabel : string) (submitDisabled : bool).

(** [{errors.x && <p>{errors.x}</p>}] for the four inputs, in page order. *)
Definition shown_errors (errors : Errors) : list (FormField * string) :=
  omap (fun f => match errors !! f with
                 | Some (Some msg) => if JsString.truthy msg then Some (f, msg) else None
                 | _ => None end)
       [F_imageUrl; F_name; F_location; F_date].

Definition render (s : AddState) : AddView :=
  if isSubmitted s then SuccessCard
  else FormView (formData s) (shown_errors (errors s))
         (if isPending s then "Adding Item..." else "Add Item") (isPending s).

(** ** Specification of the validation *)

(** A required field is missing when it is empty after trimming (name,
    location, image URL) or empty (date), as the spec states it. *)
Definition missing (fd : CreateItemData) (f : FormField) : bool :=
  match f with
  | F_name => JsString.all_chars JsString.is_js_space (cd_name fd)
  | F_location => JsString.all_chars JsString.is_js_space (cd_location fd)
  | F_date => bool_decide (cd_date fd = EmptyString)
  | F_imageUrl => JsString.all_chars JsString.is_js_space (cd_imageUrl fd)
  | F_type | F_status => false
  end.

Definition is_create (o : AddOut) : bool := match o with OCreate _ => true | _ => false end.
Definition is_result (e : AddEvent) : bool := match e with ACreateResult _ => true | _ => false end.

(** The state invariant: the confirmation is shown iff one timer is pending,
    due within 3000 ms; a pending creation has no error recorded. *)
Definition inv (s : AddState) : Prop :=
  ((isSubmitted s = false /\ timers s = []) \/
   (isSubmitted s = true /\ isPending s = false /\
    exists d, timers s = [d] /\ (now s < d <= now s + 3000)%Z)) /\
  (isPending s = true -> errors s = ∅).

(** The message [validateForm] records for a missing field. *)
Definition required_message (f : FormField) : string :=
  match f with
  | F_name => "Item name is required"
  | F_location => "Location is required"
  | F_date => "Date is required"
  | F_imageUrl => "Image URL is required"
  | F_type | F_status => ""
  end.

(** A session: fill in the four required fields and submit. *)
Definition sample_inputs : list AddEvent :=
  [AInput (InName "Keys"); AInput (InLocation "Hall"); AInput (InDate "2024-01-01");
   AInput (InImageUrl "https://example.com/keys.jpg"); ASubmit].

Definition sample_data : CreateItemData :=
  mkCreateItemData "https://example.com/keys.jpg" "Keys" "Hall" "2024-01-01" Lost Active.

(** The form filled in, before submitting; and right after submitting. *)
Definition filled_state : AddState := mkAddState sample_data ∅ false false 0 [].
Definition pending_state : AddState := mkAddState sample_data ∅ false true 0 [].

(** ** Lemmas *)

Lemma blank_trim_iff (v : string) :
  negb (JsString.truthy (JsString.trim v)) = JsString.all_chars JsString.is_js_space v.
Proof.
  destruct (JsString.trim v) eqn:E; simpl; symmetry.
  - by apply JsString.trim_empty_iff.
  - apply not_true_iff_false. rewrite <-JsString.trim_empty_iff, E. discriminate.
Qed.

Lemma blank_date_iff (v : string) :
  negb (JsString.truthy v) = bool_decide (v = EmptyString).
Proof. destruct v; done. Qed.

Lemma newErrors_lookup_eq fd f :
  newErrors fd !! f = if missing fd f then Some (Some (required_message f)) else None.
Proof.
  unfold newErrors. rewrite !blank_trim_iff, blank_date_iff.
  destruct f; simpl;
    repeat match goal with |- context [if ?b then _ else _] => destruct b eqn:? end;
    by simplify_map_eq.
Qed.

Lemma newErrors_lookup fd f :
  is_Some (newErrors fd !! f) <-> missing fd f = true.
Proof.
  rewrite newErrors_lookup_eq. destruct (missing fd f); split; (done || by intros [? ?]).
Qed.

Lemma validateForm_ok fd :
  snd (validateForm fd) = true <-> forall f, missing fd f = false.
Proof.
  unfold validateForm. simpl. rewrite bool_decide_eq_true, map_size_empty_iff. split.
  - intros He f. apply not_true_iff_false. rewrite <-newErrors_lookup, He. by intros [? ?].
  - intros Hf. apply map_empty. intros f. apply eq_None_not_Some.
    rewrite newErrors_lookup, Hf. done.
Qed.

(** Submitting a complete form sends its data; the button is enabled
    unless the form is submitted or pending. *)
Lemma step_submit_valid s :
  isSubmitted s = false -> isPending s = false -> (forall f, missing (formData s) f = false) ->
  exists s', step s ASubmit = Some (s', [OCreate (formData s)]).
Proof.
  intros Hs Hp Hf. simpl. rewrite Hs, Hp. simpl. unfold handleSubmit.
  pose proof (proj2 (validateForm_ok (formData s)) Hf) as Hok.
  destruct (validateForm (formData s)) as [errs ok]. simpl in Hok. subst ok. by eexists.
Qed.

Lemma step_accounting s e s' o :
  step s e = Some (s', o) ->
  count_outs is_create o + Nat.b2n (isPending s) = Nat.b2n (is_result e) + Nat.b2n (isPending s').
Proof.
  destruct e as [i| |ok|dt]; simpl.
  - destruct (isSubmitted s); intros; simplify_eq; done.
  - destruct (isSubmitted s || isPending s) eqn:E; [done|]. intros [= Hh].
    apply orb_false_iff in E as [_ Hp]. unfold handleSubmit in Hh.
    destruct (validateForm (formData s)) as [errs []]; simplify_eq; by rewrite Hp.
  - destruct (isPending s); [|done]. unfold onSuccess. destruct ok; intros [=<- <-]; reflexivity.
  - destruct (0 <=? dt)%Z; intros; simplify_eq; done.
Qed.

Lemma add_step_inv s e s' o : inv s -> step s e = Some (s', o) -> inv s'.
Proof.
  intros [Hsub Hpend]. destruct e as [i| |ok|dt]; simpl.
  - destruct (isSubmitted s) eqn:Hs; [done|]. intros [=<- <-]. split.
    + left. destruct Hsub as [[_ ?]|[? _]]; [done|congruence].
    + simpl. intros Hp. rewrite (Hpend Hp). unfold error_set. rewrite lookup_empty. done.
  - destruct (isSubmitted s || isPending s) eqn:E; [done|]. intros [= Hh].
    apply orb_false_iff in E as [Hs Hp].
    assert (timers s = []) by (destruct Hsub as [[_ ?]|[? _]]; [done|congruence]).
    unfold handleSubmit, validateForm in Hh.
    destruct (bool_decide (size (newErrors (formData s)) = 0)) eqn:Hok; simplify_eq;
      split; simpl; auto; [|by rewrite Hp].
    intros _. apply bool_decide_eq_true, map_size_empty_iff in Hok. done.
  - destruct (isPending s) eqn:Hp; [|done].
    destruct Hsub as [[Hs Ht]|[_ [? _]]]; [|congruence].
    unfold onSuccess. destruct ok; intros [=<- <-]; split; simpl; try done.
    + right. rewrite Ht. split_and!; [done|done|]. exists (now s + 3000)%Z. split; [done|lia].
    + left. done.
  - destruct (0 <=? dt)%Z eqn:Hdt; [|done]. apply Z.leb_le in Hdt. intros [=<- <-].
    unfold tick. split; [|done]. simpl.
    destruct Hsub as [[Hs ->]|(Hs & Hp & d & -> & Hd)]; simpl; [left; by rewrite Hs|].
    destruct (Z.leb_spec d (now s + dt)); simpl.
    + left. done.
    + right. split_and!; [done|done|]. exists d. split; [done|lia].
Qed.

Lemma add_reachable_inv s : reachable step initState s -> inv s.
Proof.
  apply reachable_ind.
  - split; [by left|done].
  - intros. by eapply add_step_inv.
Qed.

(** ** Properties of the creation form *)

(** C12. Submitting a form whose name, location or image URL is blank after
    trimming, or whose date is empty, records an error for that field and
    sends no request. *)
Theorem submit_missing_field_blocked s s' o f :
  step s ASubmit = Some (s', o) -> missing (formData s) f = true ->
  o = [] /\ is_Some (errors s' !! f) /\ isPending s' = false.
Proof.
  simpl. destruct (isSubmitted s || isPending s) eqn:E; [done|].
  apply orb_false_iff in E as [_ Hp]. intros [= Hh] Hf.
  unfold handleSubmit in Hh. pose proof (proj2 (newErrors_lookup (formData s) f) Hf) as Hsome.
  destruct (validateForm (formData s)) as [errs ok] eqn:Hv.
  assert (ok = false) as ->.
  { apply not_true_iff_false. intros Hok. pose proof (proj1 (validateForm_ok (formData s))) as Hval.
    rewrite Hv in Hval. specialize (Hval Hok f). congruence. }
  unfold validateForm in Hv. simplify_eq. done.
Qed.

(** C13. Submitting a form with every required field filled sends exactly
    one creation request carrying the form data, clears the errors and
    marks the mutation pending. *)
Theorem submit_valid_sends_once s s' o :
  step s ASubmit = Some (s', o) -> (forall f, missing (formData s) f = false) ->
  o = [OCreate (formData s)] /\ errors s' = ∅ /\ isPending s' = true.
Proof.
  simpl. destruct (isSubmitted s || isPending s) eqn:E; [done|]. intros [= Hh] Hf.
  unfold handleSubmit in Hh. pose proof (proj2 (validateForm_ok (formData s)) Hf) as Hok.
  destruct (validateForm (formData s)) as [errs ok] eqn:Hv. simpl in Hok. subst ok.
  unfold validateForm in Hv. injection Hv as <- Hsz. simplify_eq. split_and!; [done| |done].
  simpl. apply map_size_empty_iff. by apply bool_decide_eq_true in Hsz.
Qed.

(** C14. No duplicate submissions: along any run from the initial form,
    the creation requests issued equal the creation results received plus
    one if a creation is still pending, so at most one is ever in flight. *)
Theorem create_requests_accounted (es : list AddEvent) s outs :
  run step initState es = Some (s, outs) ->
  count_outs is_create outs = count_outs is_result es + Nat.b2n (isPending s).
Proof.
  cut (forall s0, run step s0 es = Some (s, outs) ->
       count_outs is_create outs + Nat.b2n (isPending s0) =
       count_outs is_result es + Nat.b2n (isPending s)).
  { intros H Hrun. specialize (H _ Hrun). simpl in H. lia. }
  revert outs. induction es as [|e es IH]; intros outs s0 Hrun; simpl in Hrun.
  - by simplify_eq.
  - destruct (step s0 e) as [[s1 o1]|] eqn:He; [|done].
    destruct (run step s1 es) as [[s2 o2]|] eqn:Hr; simplify_eq.
    pose proof (step_accounting _ _ _ _ He). specialize (IH _ _ Hr).
    unfold count_outs in *. rewrite List.filter_app, length_app. simpl.
    destruct (is_result e); simpl in *; lia.
Qed.

(** C15. A successful creation invalidates the ["items"] query exactly
    once, schedules one 3000 ms timer, resets every field to its default and
    shows the success card. *)
Theorem create_success_resets s s' o :
  step s (ACreateResult true) = Some (s', o) ->
  o = [OInvalidate; OSetTimeout 3000] /\ formData s' = defaultFormData /\
  isPending s' = false /\ render s' = SuccessCard.
Proof. simpl. destruct (isPending s); [|done]. unfold onSuccess. by intros [=<- <-]. Qed.

(** C16. The confirmation is shown for exactly 3000 ms: after a successful
    creation, letting less than 3000 ms pass keeps the success card, and
    letting 3000 ms or more pass brings back the empty form with no error
    and an enabled "Add Item" button. *)
Theorem confirmation_lasts_3000ms s s1 o :
  reachable step initState s -> step s (ACreateResult true) = Some (s1, o) ->
  (forall dt, (0 <= dt < 3000)%Z ->
     exists s2, step s1 (ATick dt) = Some (s2, []) /\ render s2 = SuccessCard) /\
  (forall dt, (3000 <= dt)%Z ->
     exists s2, step s1 (ATick dt) = Some (s2, []) /\
       render s2 = FormView defaultFormData [] "Add Item" false).
Proof.
  intros Hr. pose proof (add_reachable_inv _ Hr) as [Hsub Hpend].
  simpl. destruct (isPending s) eqn:Hp; [|done]. unfold onSuccess. intros [=<- <-].
  destruct Hsub as [[_ Ht]|[_ [? _]]]; [|congruence].
  rewrite (Hpend eq_refl). simpl. rewrite Ht. simpl.
  split; intros dt Hdt; (rewrite (proj2 (Z.leb_le 0 dt)) by lia); eexists; (split; [reflexivity|]);
    unfold render, tick; simpl.
  - destruct (Z.leb_spec (now s + 3000) (now s + dt)); [lia|]. done.
  - destruct (Z.leb_spec (now s + 3000) (now s + dt)); [|lia]. done.
Qed.

(** C17. A failed creation is not reported: the handler issues nothing,
    keeps the typed data and the field errors, and only re-enables the
    submit button (there is no [onError] and no error display). *)
Theorem create_failure_silent s s' o :
  step s (ACreateResult false) = Some (s', o) ->
  o = [] /\ formData s' = formData s /\ errors s' = errors s /\
  isSubmitted s' = isSubmitted s /\ isPending s' = false.
Proof. simpl. destruct (isPending s); [|done]. by intros [=<- <-]. Qed.

(** ** Witnesses *)

Lemma pending_state_reachable :
  run step initState sample_inputs = Some (pending_state, [OCreate sample_data]).
Proof. vm_compute. reflexivity. Qed.

Lemma submit_missing_field_blocked_witness :
  step initState ASubmit = Some (fst (handleSubmit initState), []) /\
  missing (formData initState) F_name = true /\
  ([] = @nil AddOut /\ is_Some (errors (fst (handleSubmit initState)) !! F_name) /\
   isPending (fst (handleSubmit initState)) = false).
Proof.
  split; [reflexivity|]. split; [reflexivity|].
  apply (submit_missing_field_blocked initState); reflexivity.
Defined.

Lemma submit_valid_sends_once_witness :
  step filled_state ASubmit = Some (pending_state, [OCreate sample_data]) /\
  ([OCreate sample_data] = [OCreate (formData filled_state)] /\
   errors pending_state = ∅ /\ isPending pending_state = true).
Proof.
  split; [vm_compute; reflexivity|].
  apply (submit_valid_sends_once filled_state); [vm_compute; reflexivity|].
  intros []; vm_compute; reflexivity.
Defined.

Lemma create_requests_accounted_witness :
  run step initState (sample_inputs ++ [ACreateResult false; ASubmit]) =
    Some (pending_state, [OCreate sample_data; OCreate sample_data]) /\
  count_outs is_create [OCreate sample_data; OCreate sample_data] =
    count_outs is_result (sample_inputs ++ [ACreateResult false; ASubmit]) +
    Nat.b2n (isPending pending_state).
Proof.
  split; [vm_compute; reflexivity|].
  apply create_requests_accounted. vm_compute. reflexivity.
Defined.

Lemma create_success_resets_witness :
  step pending_state (ACreateResult true) = Some (fst (onSuccess (mkAddState sample_data ∅ false false 0 [])),
                                                [OInvalidate; OSetTimeout 3000]) /\
  ([OInvalidate; OSetTimeout 3000] = [OInvalidate; OSetTimeout 3000] /\
   formData (fst (onSuccess (mkAddState sample_data ∅ false false 0 []))) = defaultFormData /\
   isPending (fst (onSuccess (mkAddState sample_data ∅ false false 0 []))) = false /\
   render (fst (onSuccess (mkAddState sample_data ∅ false false 0 []))) = SuccessCard).
Proof.
  split; [reflexivity|]. apply (create_success_resets pending_state). reflexivity.
Defined.

Lemma confirmation_lasts_3000ms_witness :
  reachable step initState pending_state /\
  ((forall dt, (0 <= dt < 3000)%Z ->
     exists s2, step (fst (onSuccess filled_state)) (ATick dt) = Some (s2, []) /\
                render s2 = SuccessCard) /\
   (forall dt, (3000 <= dt)%Z ->
     exists s2, step (fst (onSuccess filled_state)) (ATick dt) = Some (s2, []) /\
       render s2 = FormView defaultFormData [] "Add Item" false)).
Proof.
  assert (Hr : reachable step initState pending_state).
  { exists sample_inputs, [OCreate sample_data]. apply pending_state_reachable. }
  split; [exact Hr|].
  apply (confirmation_lasts_3000ms pending_state _ [OInvalidate; OSetTimeout 3000] Hr).
  reflexivity.
Defined.

Lemma create_failure_silent_witness :
  step pending_state (ACreateResult false) = Some (filled_state, []) /\
  ([] = @nil AddOut /\ formData filled_state = formData pending_state /\
   errors filled_state = errors pending_state /\
   isSubmitted filled_state = isSubmitted pending_state /\ isPending filled_state = false).
Proof.
  split; [reflexivity|]. apply (create_failure_silent pending_state). reflexivity.
Defined.

End AddForm.
