(* ===== verification/ListView.v ===== *)
(** * The list page of [pages/list.tsx] as a state machine

    [ItemList] (lines 12-88) holds the search box text [searchQuery], the
    debounced text [debouncedSearch], the two filter selections, the view
    mode, [currentPage], the pending debounce timer, the query's data and
    loading flag, and the status-update mutation's pending flag.  [step]
    lists what can happen to it:
    - [LSearch q]: typing; the effect on [searchQuery] (lines 25-30) clears
      the pending timer and starts a new 300 ms one capturing [q];
    - [LTick dt]: time passes; a due timer commits its value to
      [debouncedSearch], and the effect on the filters (lines 33-35) then
      resets [currentPage] to 1 if the value changed;
    - [LType tf], [LStatus sf]: the two selects; a changed selection resets
      the page through the same effect;
    - [LViewMode m]: the grid/list toggle;
    - [LPrev], [LNext], [LGoto p]: the pagination buttons (lines 355-398),
      rendered only when [totalPages > 1], with their [disabled] guards;
      [handlePageChange] (lines 74-77) sets the page and scrolls to the top;
    - [LMarkDone it]: a card's button (lines 241-261, 324-344), disabled
      while the update is pending; [handleMarkAsDone] (lines 67-72) sends
      the whole item with its status toggled;
    - [LUpdateResult ok]: the update settles; [onSuccess] (lines 44-46)
      invalidates the ["items"] query;
    - [LQueryData l], [LQueryError]: the query (lines 37-40) delivers data
      or fails (its error is ignored; [data] keeps its value, [] at first).
    While [isLoading] the component renders only a spinner (lines 79-85),
    so no user event is possible.  [render] is the view model of lines
    90-413. *)

From S2P Require Import Prelude JsString Types Filter.

Module ListView.
Import Filter.

Inductive ViewMode := Grid | ListMode.

#[export] Instance ViewMode_eq_dec : EqDecision ViewMode.
Proof. solve_decision. Defined.

Record ListState := mkListState {
  searchQuery : string;
  debouncedSearch : string;
  typeFilter : TypeFilter;
  statusFilter : StatusFilter;
  viewMode : ViewMode;
  currentPage : Z;
  timer : option (Z * string);   (** the pending [setTimeout]: deadline, captured text *)
  now : Z;
  data : list Item;              (** [useQuery] data, [= []] by default *)
  isLoading : bool;
  updatePending : bool
}.

(** The component as mounted at time 0: both effects have run once. *)
Definition initState : ListState :=
  mkListState "" "" AllTypes AllStatus Grid 1 (Some (300%Z, "")) 0 [] true false.

Inductive ListEvent :=
  | LSearch (q : string)
  | LTick (dt : Z)
  | LType (tf : TypeFilter)
  | LStatus (sf : StatusFilter)
  | LViewMode (m : ViewMode)
  | LPrev | LNext | LGoto (p : Z)
  | LMarkDone (it : Item)
  | LUpdateResult (ok : bool)
  | LQueryData (l : list Item)
  | LQueryError.

Inductive ListOut :=
  | OUpdate (id : string) (data : PartialItem)   (** [updateItem(id, data)]: PUT /items/{id} *)
  | OInvalidate                                  (** [invalidateQueries(["items"])] *)
  | OScrollTop.                                  (** [window.scrollTo({ top: 0 })] *)

(** Record updates, one field at a time. *)
Definition with_page (s : ListState) (p : Z) : ListState :=
  mkListState (searchQuery s) (debouncedSearch s) (typeFilter s) (statusFilter s)
    (viewMode s) p (timer s) (now s) (data s) (isLoading s) (updatePending s).

Definition with_updatePending (s : ListState) (b : bool) : ListState :=
  mkListState (searchQuery s) (debouncedSearch s) (typeFilter s) (statusFilter s)
    (viewMode s) (currentPage s) (timer s) (now s) (data s) (isLoading s) b.

(** The derived values of lines 49-65. *)
Definition filtered (s : ListState) : list Item :=
  filteredItems (data s) (debouncedSearch s) (typeFilter s) (statusFilter s).

Definition pages (s : ListState) : Z := totalPages (filtered s).

Definition paginated (s : ListState) : list Item := paginatedItems (filtered s) (currentPage s).

(** [{ ...item, status: item.status === "Active" ? "Done" : "Active" }] *)
Definition toggle_status (st : ItemStatus) : ItemStatus :=
  match st with Active => Done | Done => Active end.

Definition markAsDone_body (it : Item) : PartialItem :=
  let p := partial_of_item it in
  mkPartialItem (p_id p) (p_imageUrl p) (p_name p) (p_location p) (p_date p) (p_type p)
    (Some (toggle_status (status it))) (p_createdAt p).

(** [{ ...item, status }] as a full item *)
Definition with_status (it : Item) (st : ItemStatus) : Item :=
  mkItem (id it) (imageUrl it) (name it) (location it) (date it) (type it) st (createdAt it).

(** The search effect: [setSearchQuery(q)] re-runs the effect when the value
    changed, which clears the old timer and starts a new one. *)
Definition setSearchQuery (s : ListState) (q : string) : ListState :=
  if bool_decide (q = searchQuery s) then s
  else mkListState q (debouncedSearch s) (typeFilter s) (statusFilter s) (viewMode s)
         (currentPage s) (Some ((now s + 300)%Z, q)) (now s) (data s) (isLoading s) (updatePending s).

(** [setDebouncedSearch(v)] followed by the filter effect. *)
Definition setDebouncedSearch (s : ListState) (v : string) : ListState :=
  if bool_decide (v = debouncedSearch s) then s
  else mkListState (searchQuery s) v (typeFilter s) (statusFilter s) (viewMode s)
         1 (timer s) (now s) (data s) (isLoading s) (updatePending s).

Definition tick (s : ListState) (dt : Z) : ListState :=
  let t := (now s + dt)%Z in
  let s1 := mkListState (searchQuery s) (debouncedSearch s) (typeFilter s) (statusFilter s)
              (viewMode s) (currentPage s) (timer s) t (data s) (isLoading s) (updatePending s) in
  match timer s with
  | Some (d, v) =>
      if (d <=? t)%Z then
        setDebouncedSearch
          (mkListState (searchQuery s1) (debouncedSearch s1) (typeFilter s1) (statusFilter s1)
             (viewMode s1) (currentPage s1) None t (data s1) (isLoading s1) (updatePending s1)) v
      else s1
  | None => s1
  end.

(** [setTypeFilter(tf)] followed by the filter effect. *)
Definition setTypeFilter (s : ListState) (tf : TypeFilter) : ListState :=
  if bool_decide (tf = typeFilter s) then s
  else mkListState (searchQuery s) (debouncedSearch s) tf (statusFilter s) (viewMode s)
         1 (timer s) (now s) (data s) (isLoading s) (updatePending s).

Definition setStatusFilter (s : ListState) (sf : StatusFilter) : ListState :=
  if bool_decide (sf = statusFilter s) then s
  else mkListState (searchQuery s) (debouncedSearch s) (typeFilter s) sf (viewMode s)
         1 (timer s) (now s) (data s) (isLoading s) (updatePending s).

Definition setViewMode (s : ListState) (m : ViewMode) : ListState :=
  mkListState (searchQuery s) (debouncedSearch s) (typeFilter s) (statusFilter s) m
    (currentPage s) (timer s) (now s) (data s) (isLoading s) (updatePending s).

(** [handlePageChange] *)
Definition handlePageChange (s : ListState) (page : Z) : ListState * list ListOut :=
  (with_page s page, [OScrollTop]).

(** [handleMarkAsDone] *)
Definition handleMarkAsDone (s : ListState) (it : Item) : ListState * list ListOut :=
  (with_updatePending s true, [OUpdate (id it) (markAsDone_body it)]).

Definition setData (s : ListState) (l : list Item) : ListState :=
  mkListState (searchQuery s) (debouncedSearch s) (typeFilter s) (statusFilter s)
    (viewMode s) (currentPage s) (timer s) (now s) l false (updatePending s).

Definition settleLoading (s : ListState) : ListState :=
  mkListState (searchQuery s) (debouncedSearch s) (typeFilter s) (statusFilter s)
    (viewMode s) (currentPage s) (timer s) (now s) (data s) false (updatePending s).

Definition pagination_shown (s : ListState) : bool := (1 <? pages s)%Z.

Definition step : Handler ListState ListEvent ListOut := fun s e =>
  match e with
  | LTick dt => if (0 <=? dt)%Z then Some (tick s dt, []) else None
  | LUpdateResult ok =>
      if updatePending s then
        Some (with_updatePending s false, if ok then [OInvalidate] else [])
      else None
  | LQueryData l => Some (setData s l, [])
  | LQueryError => Some (settleLoading s, [])
  | _ =>
    if isLoading s then None else
    match e with
    | LSearch q => Some (setSearchQuery s q, [])
    | LType tf => Some (setTypeFilter s tf, [])
    | LStatus sf => Some (setStatusFilter s sf, [])
    | LViewMode m => Some (setViewMode s m, [])
    | LPrev =>
        if pagination_shown s && negb (currentPage s =? 1)%Z
        then Some (handlePageChange s (currentPage s - 1)) else None
    | LNext =>
        if pagination_shown s && negb (currentPage s =? pages s)%Z
        then Some (handlePageChange s (currentPage s + 1)) else None
    | LGoto p =>
        if pagination_shown s && (1 <=? p)%Z && (p <=? pages s)%Z
        then Some (handlePageChange s p) else None
    | LMarkDone it =>
        if bool_decide (it ∈ paginated s) && negb (updatePending s)
        then Some (handleMarkAsDone s it) else None
    | _ => None
    end
  end.

(** ** The rendered view (lines 79-413) *)

Definition fallbackImage : string :=
  "https://daprint.ru/upload/iblock/f01/6j6q3imqo9csrtj08j642hdmzl4dzapv.jpg".

Record CardView := mkCardView {
  card_image : string;          (** [item.imageUrl || fallback] *)
  card_name : string;
  card_location : string;
  card_date : string;           (** shown through [toLocaleDateString] *)
  card_type : ItemType;
  card_status : ItemStatus;
  card_button : string;         (** "Mark as Done" or "Mark as Active" *)
  card_disabled : bool
}.

(** A card of the grid (lines 188-263). *)
Definition cardView (s : ListState) (it : Item) : CardView :=
  mkCardView (if JsString.truthy (imageUrl it) then imageUrl it else fallbackImage)
    (name it) (location it) (date it) (type it) (status it)
    (match status it with Active => "Mark as Done" | Done => "Mark as Active" end)
    (updatePending s).

(** A row of the list mode (lines 268-352): the same content laid out
    horizontally. *)
Definition listRowView (s : ListState) (it : Item) : CardView :=
  mkCardView (if JsString.truthy (imageUrl it) then imageUrl it else fallbackImage)
    (name it) (location it) (date it) (type it) (status it)
    (match status it with Active => "Mark as Done" | Done => "Mark as Active" end)
    (updatePending s).

(** [(Page {currentPage} of {totalPages})] when [totalPages > 1] (lines 176-180). *)
Definition pageOfText (s : ListState) : option (Z * Z) :=
  if pagination_shown s then Some (currentPage s, pages s) else None.

(** The "No items found" card (lines 400-411). *)
Definition noItemsShown (s : ListState) : bool :=
  bool_decide (length (filtered s) = 0).

Record PaginationView := mkPaginationView {
  prev_disabled : bool;
  page_buttons : list (Z * bool);   (** page number, is current *)
  next_disabled : bool
}.

Definition paginationView (s : ListState) : option PaginationView :=
  if pagination_shown s then
    Some (mkPaginationView (currentPage s =? 1)%Z
            (map (fun i => (Z.of_nat i, (currentPage s =? Z.of_nat i)%Z))
                 (seq 1 (Z.to_nat (pages s))))
            (currentPage s =? pages s)%Z)
  else None.

Inductive ListView :=
  | Spinner
  | Page (mode : ViewMode)
         (showing : nat) (of_ : nat)        (** "Showing {paginated} of {filtered} items" *)
         (page_of : option (Z * Z))         (** "(Page c of T)" when T > 1 *)
         (cards : list CardView)
         (pagination : option PaginationView)
         (noItemsMessage : bool).

Definition render (s : ListState) : ListView :=
  if isLoading s then Spinner
  else Page (viewMode s) (length (paginated s)) (length (filtered s))
         (pageOfText s)
         (map (match viewMode s with Grid => cardView s | ListMode => listRowView s end) (paginated s))
         (paginationView s)
         (noItemsShown s).

(** ** Invariant *)

(** The page is at least 1; a pending debounce timer carries the current
    search text and is due within 300 ms; without one the applied search
    equals the typed text. *)
(** The data of the stale-page scenario: seven active items, then the same
    collection after the seventh was marked done. *)
Definition scenario_item (i : string) (st : ItemStatus) : Item :=
  mkItem i "" ("Item " ++ i) "Hall" "2024-01-01" Lost st None.

Definition seven_active : list Item :=
  map (fun i => scenario_item i Active) ["1"; "2"; "3"; "4"; "5"; "6"; "7"].

Definition seventh_done : list Item :=
  map (fun i => scenario_item i Active) ["1"; "2"; "3"; "4"; "5"; "6"] ++ [scenario_item "7" Done].

(** Filter on "Active", go to page 2, mark its only item done, refetch. *)
Definition stale_events : list ListEvent :=
  [LQueryData seven_active; LStatus (OnlyStatus Active); LNext;
   LMarkDone (scenario_item "7" Active); LUpdateResult true; LQueryData seventh_done].

Definition stale_state : ListState :=
  mkListState "" "" AllTypes (OnlyStatus Active) Grid 2 (Some (300%Z, "")) 0 seventh_done false false.

(** The spec's scenario: item "2" is done; marking it active sends
    [update("2", {...status: "Active"})] and then invalidates the query. *)
Definition two_items : list Item :=
  [mkItem "1" "" "Keys" "Hall" "2024-01-01" Lost Active None;
   mkItem "2" "" "Bag" "Gym" "2024-01-02" Found Done None].

Definition loaded : ListState :=
  mkListState "" "" AllTypes AllStatus Grid 1 None 300 two_items false false.

(** Seven items on two pages, the second one shown. *)
Definition second_page : ListState :=
  mkListState "" "" AllTypes AllStatus Grid 2 None 300 seven_active false false.

Definition inv (s : ListState) : Prop :=
  (1 <= currentPage s)%Z /\
  match timer s with
  | Some (d, v) => v = searchQuery s /\ (now s < d <= now s + 300)%Z
  | None => debouncedSearch s = searchQuery s
  end.

(** The page lies within the pages the pagination offers. *)
Definition in_range (s : ListState) : Prop :=
  (1 <= currentPage s <= Z.max 1 (pages s))%Z.

Lemma pages_nonneg s : (0 <= pages s)%Z.
Proof. unfold pages. apply totalPages_bounds. Qed.

(** The events that do not touch the filters, the search or the page. *)
Lemma step_cases s e s' o :
  step s e = Some (s', o) ->
  (typeFilter s' = typeFilter s /\ statusFilter s' = statusFilter s /\
   debouncedSearch s' = debouncedSearch s /\ data s' = data s /\ currentPage s' = currentPage s) \/
  currentPage s' = 1%Z \/
  (exists l, e = LQueryData l /\ s' = setData s l) \/
  (exists p, s' = with_page s p /\ o = [OScrollTop] /\ pagination_shown s = true /\
             ((e = LPrev /\ p = currentPage s - 1 /\ currentPage s <> 1) \/
              (e = LNext /\ p = currentPage s + 1 /\ currentPage s <> pages s) \/
              (e = LGoto p /\ 1 <= p <= pages s))%Z).
Proof.
  destruct e; simpl; try (destruct (isLoading s); [done|]).
  - intros [=<- <-]. unfold setSearchQuery. case_bool_decide; [left; done|left; done].
  - destruct (0 <=? dt)%Z; [|done]. intros [=<- <-]. unfold tick.
    destruct (timer s) as [[d v]|]; [|by left].
    destruct (d <=? now s + dt)%Z; [|by left]. unfold setDebouncedSearch. simpl.
    case_bool_decide; [by left|by right; left].
  - intros [=<- <-]. unfold setTypeFilter. case_bool_decide; [by left|by right; left].
  - intros [=<- <-]. unfold setStatusFilter. case_bool_decide; [by left|by right; left].
  - intros [=<- <-]. by left.
  - destruct (pagination_shown s) eqn:Hp, (currentPage s =? 1)%Z eqn:H1; simpl; try done.
    intros [=<- <-]. right; right; right. eexists. split_and!; [done|done|done|].
    left. split_and!; [done|done|]. by apply Z.eqb_neq.
  - destruct (pagination_shown s) eqn:Hp, (currentPage s =? pages s)%Z eqn:H1; simpl; try done.
    intros [=<- <-]. right; right; right. eexists. split_and!; [done|done|done|].
    right; left. split_and!; [done|done|]. by apply Z.eqb_neq.
  - destruct (pagination_shown s) eqn:Hp, (1 <=? p)%Z eqn:H1, (p <=? pages s)%Z eqn:H2;
      simpl; try done.
    intros [=<- <-]. right; right; right. eexists. split_and!; [done|done|done|].
    right; right. split; [done|lia].
  - destruct (bool_decide _ && _); [|done]. intros [=<- <-]. by left.
  - destruct (updatePending s); [|done]. intros [=<- <-]. by left.
  - intros [=<- <-]. right; right; left. by eexists.
  - intros [=<- <-]. by left.
Qed.

Lemma list_step_inv s e s' o : inv s -> step s e = Some (s', o) -> inv s'.
Proof.
  intros [Hp Ht] Hs. split.
  - destruct (step_cases _ _ _ _ Hs) as [(_ & _ & _ & _ & ->)|[->|[(l & -> & ->)|(q & -> & _ & Hsh & Hq)]]];
      simpl; lia.
  - destruct e; simpl in Hs; try (destruct (isLoading s); [done|]).
    + injection Hs as <- <-. unfold setSearchQuery. case_bool_decide; simpl; [done|].
      split; [done|lia].
    + destruct (0 <=? dt)%Z eqn:Hdt; [|done]. apply Z.leb_le in Hdt. injection Hs as <- <-.
      unfold tick. destruct (timer s) as [[d v]|] eqn:Et; simpl; [|done].
      destruct Ht as [-> Hd]. destruct (Z.leb_spec d (now s + dt)); simpl.
      * unfold setDebouncedSearch. simpl. case_bool_decide; done.
      * split; [done|lia].
    + injection Hs as <- <-. unfold setTypeFilter. case_bool_decide; done.
    + injection Hs as <- <-. unfold setStatusFilter. case_bool_decide; done.
    + by injection Hs as <- <-.
    + destruct (_ && _); [|done]. by injection Hs as <- <-.
    + destruct (_ && _); [|done]. by injection Hs as <- <-.
    + destruct (_ && _); [|done]. by injection Hs as <- <-.
    + destruct (_ && _); [|done]. by injection Hs as <- <-.
    + destruct (updatePending s); [|done]. by injection Hs as <- <-.
    + by injection Hs as <- <-.
    + by injection Hs as <- <-.
Qed.

Lemma list_reachable_inv s : reachable step initState s -> inv s.
Proof.
  apply reachable_ind; [|intros; by eapply list_step_inv].
  split; simpl; [lia|split; [done|lia]].
Qed.

(** ** Properties of the list page *)

(** C10. In every reachable state the current page is at least 1, so the
    slice [(currentPage - 1) * 6] never starts at a negative index. *)
Theorem currentPage_positive s :
  reachable step initState s -> (1 <= currentPage s)%Z.
Proof. intros Hr. apply (list_reachable_inv _ Hr). Qed.

(** C5. Any event that changes the type filter, the status filter or the
    applied (debounced) search text leaves the list on page 1. *)
Theorem filter_change_resets_page s e s' o :
  step s e = Some (s', o) ->
  typeFilter s' <> typeFilter s \/ statusFilter s' <> statusFilter s \/
  debouncedSearch s' <> debouncedSearch s ->
  currentPage s' = 1%Z.
Proof.
  intros Hs Hch.
  destruct (step_cases _ _ _ _ Hs) as [(H1 & H2 & H3 & _)|[?|[(l & -> & ->)|(q & -> & _)]]];
    naive_solver.
Qed.

(** C7. After a quiet period of 300 ms the applied search text equals
    the text in the search box, from every reachable state. *)
Theorem debounce_settles s :
  reachable step initState s ->
  exists s', step s (LTick 300) = Some (s', []) /\ debouncedSearch s' = searchQuery s.
Proof.
  intros Hr. destruct (list_reachable_inv _ Hr) as [_ Ht].
  eexists. split; [reflexivity|]. unfold tick.
  destruct (timer s) as [[d v]|]; simpl; [|done].
  destruct Ht as [-> Hd]. rewrite (proj2 (Z.leb_le _ _)) by lia.
  unfold setDebouncedSearch. simpl. case_bool_decide; done.
Qed.

(** C8. A keystroke restarts the debounce: for less than 300 ms after it
    the applied search text does not change, and the only pending timer is
    the one carrying the new text. *)
Theorem debounce_waits s q s1 o dt s2 o2 :
  step s (LSearch q) = Some (s1, o) -> q <> searchQuery s -> (0 <= dt < 300)%Z ->
  step s1 (LTick dt) = Some (s2, o2) ->
  debouncedSearch s2 = debouncedSearch s /\ timer s2 = Some ((now s + 300)%Z, q).
Proof.
  simpl. destruct (isLoading s); [done|]. intros [=<- <-] Hq Hdt.
  unfold setSearchQuery. rewrite bool_decide_false by done. simpl.
  rewrite (proj2 (Z.leb_le 0 dt)) by lia. intros [=<- <-]. unfold tick. simpl.
  destruct (Z.leb_spec (now s + 300) (now s + dt)); [lia|]. done.
Qed.

(** C9. Marking an item done (or active) sends one update for that item's
    id whose body is the whole item with only the status toggled, and once
    the update succeeds the ["items"] query is invalidated exactly once. *)
Theorem markAsDone_roundtrip s it s1 o1 s2 o2 :
  step s (LMarkDone it) = Some (s1, o1) -> step s1 (LUpdateResult true) = Some (s2, o2) ->
  o1 ++ o2 = [OUpdate (id it) (partial_of_item (with_status it (toggle_status (status it))));
              OInvalidate] /\
  updatePending s2 = false.
Proof.
  simpl. destruct (isLoading s); [done|]. destruct (_ && _); [|done].
  intros [=<- <-]. simpl. intros [=<- <-]. done.
Qed.

(** C11. User actions keep the page within the pages offered: if
    [1 <= currentPage <= max 1 totalPages] holds, it still holds after any
    event other than new query data (typing, ticks, filter changes, the
    pagination buttons, status toggles, mutation and query failures). *)
Theorem user_events_keep_page_in_range s e s' o :
  step s e = Some (s', o) -> (forall l, e <> LQueryData l) -> in_range s -> in_range s'.
Proof.
  unfold in_range. intros Hs He Hr.
  destruct (step_cases _ _ _ _ Hs) as [(H1 & H2 & H3 & H4 & H5)|[H|[(l & -> & _)|(q & -> & _ & Hsh & Hq)]]].
  - unfold pages, filtered. rewrite H1, H2, H3, H4, H5. done.
  - rewrite H. pose proof (pages_nonneg s'). lia.
  - by destruct (He l).
  - unfold pagination_shown in Hsh. apply Z.ltb_lt in Hsh.
    change (pages (with_page s q)) with (pages s). simpl. lia.
Qed.

Lemma stale_state_reachable : step ⊢ initState ⇝* stale_state.
Proof. solve_reachable stale_events. Qed.

(** C6. The page is not clamped when the data shrinks: from the initial
    state, filtering on "Active", moving to page 2 and marking its only item
    done leads, after the refetch, to a page that shows "0 of 6 items" with
    no item, no pagination control and no "No items found" message; only a
    filter change gets the user back to page 1. *)
Theorem stale_page_reachable :
  reachable step initState stale_state /\
  render stale_state = Page Grid 0 6 None [] None false /\
  ~ in_range stale_state.
Proof.
  split; [apply stale_state_reachable|split].
  - vm_compute. reflexivity.
  - unfold in_range. vm_compute. intros [_ H]. apply H. reflexivity.
Qed.

(** ** Witnesses *)

Lemma currentPage_positive_witness : (1 <= currentPage stale_state)%Z.
Proof. apply currentPage_positive. apply stale_state_reachable. Defined.

Lemma filter_change_resets_page_witness :
  step stale_state (LType (OnlyType Found)) =
    Some (mkListState "" "" (OnlyType Found) (OnlyStatus Active) Grid 1 (Some (300%Z, "")) 0
            seventh_done false false, []) /\ currentPage (mkListState "" "" (OnlyType Found)
            (OnlyStatus Active) Grid 1 (Some (300%Z, "")) 0 seventh_done false false) = 1%Z.
Proof.
  split; [reflexivity|]. eapply (filter_change_resets_page stale_state (LType (OnlyType Found)));
    [reflexivity|left; discriminate].
Defined.

Lemma debounce_settles_witness :
  exists s', step stale_state (LTick 300) = Some (s', []) /\ debouncedSearch s' = searchQuery stale_state.
Proof. apply debounce_settles. apply stale_state_reachable. Defined.

Lemma debounce_waits_witness :
  debouncedSearch (tick (setSearchQuery loaded "Bag") 299) = debouncedSearch loaded /\
  timer (tick (setSearchQuery loaded "Bag") 299) = Some ((now loaded + 300)%Z, "Bag").
Proof.
  apply (debounce_waits loaded "Bag" (setSearchQuery loaded "Bag") [] 299
           (tick (setSearchQuery loaded "Bag") 299) []); (reflexivity || discriminate || lia).
Defined.

Lemma markAsDone_roundtrip_witness :
  let it := mkItem "2" "" "Bag" "Gym" "2024-01-02" Found Done None in
  [OUpdate "2" (partial_of_item (mkItem "2" "" "Bag" "Gym" "2024-01-02" Found Active None))] ++ [OInvalidate] =
    [OUpdate (id it) (partial_of_item (with_status it (toggle_status (status it)))); OInvalidate] /\
  updatePending loaded = false.
Proof.
  intros it.
  apply (markAsDone_roundtrip loaded it (with_updatePending loaded true)
           [OUpdate "2" (partial_of_item (mkItem "2" "" "Bag" "Gym" "2024-01-02" Found Active None))]
           loaded [OInvalidate]); vm_compute; reflexivity.
Defined.

Lemma user_events_keep_page_in_range_witness :
  step second_page LPrev = Some (with_page second_page 1, [OScrollTop]) /\
  in_range (with_page second_page 1).
Proof.
  split; [reflexivity|].
  apply (user_events_keep_page_in_range second_page LPrev (with_page second_page 1) [OScrollTop]).
  - reflexivity.
  - discriminate.
  - unfold in_range. vm_compute. split; discriminate.
Defined.

End ListView.
