(* ===== verification/Detail.v ===== *)
(** * The item dialog of [pages/detail.tsx]

    [ItemDetails] receives the props [item : Item | null] and [isOpen] with
    the callbacks [onClose] and [onDelete], and keeps [isEditing], the draft
    [editForm : Partial<Item>] and the pending flags of its two mutations.
    The [item] prop is compared by reference by the effect of lines 29-36,
    so the model tags it with a reference number ([ItemRef]): a parent that
    passes a new object (say after a refetch) passes a new tag.  [step]
    lists what can happen:
    - [DProps o r]: the parent re-renders with new props; the effect runs
      when [isOpen] or the item reference changed, and either resets the
      dialog ([!isOpen || !item]) or reseeds the draft from the item;
    - [DEdit], [DField i], [DSave], [DCancel]: [handleEdit],
      [handleInputChange], [handleSave], [handleCancel] (lines 58-88),
      enabled only where their buttons or inputs are rendered (the dialog is
      open, an item is given, the right mode) and, for Save, not pending;
    - [DDelete confirmed]: [handleDelete] (lines 77-81) with the answer to
      [window.confirm];
    - [DClose]: [handleClose] (lines 90-94), Radix's [onOpenChange];
    - [DUpdateResult ok], [DDeleteResult ok]: the mutations settle; their
      [onSuccess] callbacks (lines 40-54) run whatever the dialog shows by
      then, reading the current [item] prop.
    [render] is the view model of lines 96-319, one definition per part
    of the dialog. *)

From S2P Require Import Prelude JsString Types.

Module Detail.

(** An [Item] object passed as a prop, with its identity. *)
Record ItemRef := mkItemRef { ref : nat; obj : Item }.

#[export] Instance ItemRef_eq_dec : EqDecision ItemRef.
Proof. solve_decision. Defined.

Record DState := mkDState {
  isOpen : bool;                 (** prop *)
  item : option ItemRef;         (** prop *)
  isEditing : bool;
  editForm : PartialItem;
  updatePending : bool;
  deletePending : bool
}.

(** A value passed to [handleInputChange(field, value)] by the inputs and
    selects of the edit mode (lines 105-110, 119-142, 228-234, 248-253,
    264-269). *)
Inductive DraftInput :=
  | DName (v : string) | DType (v : ItemType) | DStatus (v : ItemStatus)
  | DImageUrl (v : string) | DLocation (v : string) | DDate (v : string).

Inductive DEvent :=
  | DProps (open_ : bool) (it : option ItemRef)
  | DEdit
  | DField (i : DraftInput)
  | DSave
  | DCancel
  | DDelete (confirmed : bool)
  | DClose
  | DUpdateResult (ok : bool)
  | DDeleteResult (ok : bool).

Inductive DOut :=
  | OUpdate (id : string) (data : PartialItem)   (** PUT /items/{id} *)
  | ODelete (id : string)                        (** DELETE /items/{id} *)
  | OInvalidate                                  (** [invalidateQueries(["items"])] *)
  | OOnDelete (id : string)                      (** [onDelete?.(id)] *)
  | OOnClose.                                    (** [onClose()] *)

Definition initState : DState := mkDState false None false empty_partial false false.

(** [{ ...prev, [field]: value }] *)
Definition set_draft (p : PartialItem) (i : DraftInput) : PartialItem :=
  match i with
  | DName v => mkPartialItem (p_id p) (p_imageUrl p) (Some v) (p_location p) (p_date p) (p_type p) (p_status p) (p_createdAt p)
  | DType v => mkPartialItem (p_id p) (p_imageUrl p) (p_name p) (p_location p) (p_date p) (Some v) (p_status p) (p_createdAt p)
  | DStatus v => mkPartialItem (p_id p) (p_imageUrl p) (p_name p) (p_location p) (p_date p) (p_type p) (Some v) (p_createdAt p)
  | DImageUrl v => mkPartialItem (p_id p) (Some v) (p_name p) (p_location p) (p_date p) (p_type p) (p_status p) (p_createdAt p)
  | DLocation v => mkPartialItem (p_id p) (p_imageUrl p) (p_name p) (Some v) (p_date p) (p_type p) (p_status p) (p_createdAt p)
  | DDate v => mkPartialItem (p_id p) (p_imageUrl p) (p_name p) (p_location p) (Some v) (p_type p) (p_status p) (p_createdAt p)
  end.

Definition with_edit (s : DState) (editing : bool) (form : PartialItem) : DState :=
  mkDState (isOpen s) (item s) editing form (updatePending s) (deletePending s).

(** The effect of lines 29-36, run after the props changed. *)
Definition reset_effect (s : DState) : DState :=
  match isOpen s, item s with
  | true, Some r => with_edit s (isEditing s) (partial_of_item (obj r))
  | _, _ => with_edit s false empty_partial
  end.

Definition ref_of (o : option ItemRef) : option nat := ref <$> o.

(** The parent passes new props; the effect re-runs when a dependency
    changed ([Object.is] on the boolean and on the object reference).  The
    same reference always denotes the same object. *)
Definition setProps (s : DState) (o : bool) (r : option ItemRef) : option DState :=
  if bool_decide (ref_of r = ref_of (item s)) && negb (bool_decide (r = item s)) then None
  else
    let s1 := mkDState o r (isEditing s) (editForm s) (updatePending s) (deletePending s) in
    if bool_decide (o = isOpen s) && bool_decide (ref_of r = ref_of (item s)) then Some s1
    else Some (reset_effect s1).

(** The buttons and inputs exist only while the dialog shows an item. *)
Definition shown_item (s : DState) : option Item :=
  if isOpen s then obj <$> item s else None.

(** [handleEdit] *)
Definition handleEdit (s : DState) (it : Item) : DState := with_edit s true (partial_of_item it).

(** [handleSave]: [editForm] is an object, hence truthy; [item.id] must be a
    non-empty string. *)
Definition handleSave (s : DState) (it : Item) : DState * list DOut :=
  if JsString.truthy (id it) then
    (mkDState (isOpen s) (item s) (isEditing s) (editForm s) true (deletePending s),
     [OUpdate (id it) (editForm s)])
  else (s, []).

(** [handleCancel] *)
Definition handleCancel (s : DState) (it : Item) : DState := with_edit s false (partial_of_item it).

(** [handleDelete] *)
Definition handleDelete (s : DState) (it : Item) (confirmed : bool) : DState * list DOut :=
  if confirmed then
    (mkDState (isOpen s) (item s) (isEditing s) (editForm s) (updatePending s) true, [ODelete (id it)])
  else (s, []).

(** [handleClose] *)
Definition handleClose (s : DState) : DState * list DOut := (with_edit s false empty_partial, [OOnClose]).

(** [updateMutation.onSuccess] *)
Definition onUpdateSuccess (s : DState) : DState * list DOut :=
  (with_edit s false empty_partial, [OInvalidate]).

(** [item?.id || ""] *)
Definition current_id (s : DState) : string :=
  let i := match item s with Some r => id (obj r) | None => EmptyString end in
  if JsString.truthy i then i else EmptyString.

(** [deleteMutation.onSuccess]: [onDelete?.(item?.id || "")] then [onClose()],
    with the [item] prop of the latest render. *)
Definition onDeleteSuccess (s : DState) : DState * list DOut :=
  (s, [OInvalidate; OOnDelete (current_id s); OOnClose]).

Definition step : Handler DState DEvent DOut := fun s e =>
  match e with
  | DProps o r => (fun s' => (s', [])) <$> setProps s o r
  | DUpdateResult ok =>
      if updatePending s then
        let s1 := mkDState (isOpen s) (item s) (isEditing s) (editForm s) false (deletePending s) in
        if ok then Some (onUpdateSuccess s1) else Some (s1, [])
      else None
  | DDeleteResult ok =>
      if deletePending s then
        let s1 := mkDState (isOpen s) (item s) (isEditing s) (editForm s) (updatePending s) false in
        if ok then Some (onDeleteSuccess s1) else Some (s1, [])
      else None
  | _ =>
    match shown_item s with
    | None => None
    | Some it =>
      match e with
      | DEdit => if isEditing s then None else Some (handleEdit s it, [])
      | DField i => if isEditing s then Some (with_edit s true (set_draft (editForm s) i), []) else None
      | DSave => if isEditing s && negb (updatePending s) then Some (handleSave s it) else None
      | DCancel => if isEditing s then Some (handleCancel s it, []) else None
      | DDelete c => if isEditing s || deletePending s then None else Some (handleDelete s it c)
      | DClose => Some (handleClose s)
      | _ => None
      end
    end
  end.

(** ** The rendered view (lines 96-319) *)

Definition fallbackImage : string :=
  "https://daprint.ru/upload/iblock/f01/6j6q3imqo9csrtj08j642hdmzl4dzapv.jpg".

Definition or_empty (o : option string) : string :=
  match o with Some v => if JsString.truthy v then v else EmptyString | None => EmptyString end.

(** The title (lines 103-114): the name input while editing, the name. *)
Inductive TitleView := NameInput (value : string) | TitleText (name : string).

Definition title_view (s : DState) (it : Item) : TitleView :=
  if isEditing s then NameInput (or_empty (p_name (editForm s))) else TitleText (name it).

(** The type and status (lines 115-160): two selects while editing, two
    badges otherwise ([variant] "destructive" for a lost item, "default"
    for an active one). *)
Inductive BadgeView :=
  | Selects (typeValue : ItemType) (statusValue : ItemStatus)
  | Badges (typeBadge : ItemType) (lostVariant : bool) (statusBadge : ItemStatus) (activeVariant : bool).

Definition badges_view (s : DState) (it : Item) : BadgeView :=
  if isEditing s then
    Selects (default (type it) (p_type (editForm s))) (default (status it) (p_status (editForm s)))
  else Badges (type it) (bool_decide (type it = Lost)) (status it) (bool_decide (status it = Active)).

(** A row of action buttons: Save and Cancel while editing (Save disabled
    while the update is pending), Edit and Delete otherwise (Delete disabled
    while the delete is pending). *)
Inductive Actions := SaveCancel (saveDisabled : bool) | EditDelete (deleteDisabled : bool).

(** The desktop buttons (lines 164-203). *)
Definition desktop_actions (s : DState) : Actions :=
  if isEditing s then SaveCancel (updatePending s) else EditDelete (deletePending s).

(** The mobile buttons (lines 280-314), the same handlers and guards. *)
Definition mobile_actions (s : DState) : Actions :=
  if isEditing s then SaveCancel (updatePending s) else EditDelete (deletePending s).

(** The image (lines 210-234): [item.imageUrl] or the placeholder (the
    [onError] handler also falls back to it), and the URL input while
    editing. *)
Record ImageView := mkImageView { img_src : string; img_alt : string; url_input : option string }.

Definition image_view (s : DState) (it : Item) : ImageView :=
  mkImageView (if JsString.truthy (imageUrl it) then imageUrl it else fallbackImage) (name it)
    (if isEditing s then Some (or_empty (p_imageUrl (editForm s))) else None).

(** The location and date card (lines 238-276): inputs while editing, the
    item's values otherwise ([toLocaleDateString] not modelled). *)
Inductive DetailsView :=
  | DetailsInputs (location date : string)
  | DetailsText (location date : string).

Definition details_view (s : DState) (it : Item) : DetailsView :=
  if isEditing s then DetailsInputs (or_empty (p_location (editForm s))) (or_empty (p_date (editForm s)))
  else DetailsText (location it) (date it).

Inductive DView :=
  | NoDialog                                           (** [if (!item) return null] *)
  | DialogView (open_ : bool) (title : TitleView) (badges : BadgeView) (desktop : Actions)
               (image : ImageView) (details : DetailsView) (mobile : Actions).

(** The [Dialog] (lines 96-319). *)
Definition render (s : DState) : DView :=
  match item s with
  | None => NoDialog
  | Some r =>
      let it := obj r in
      DialogView (isOpen s) (title_view s it) (badges_view s it) (desktop_actions s)
        (image_view s it) (details_view s it) (mobile_actions s)
  end.

Definition keys : Item := mkItem "1" "" "Keys" "Hall" "2024-01-01" Lost Active None.
Definition bag : Item := mkItem "2" "" "Bag" "Gym" "2024-01-02" Found Done None.

(** The dialog open on [keys], and the same with the draft being edited. *)
Definition open_keys : DState :=
  mkDState true (Some (mkItemRef 1 keys)) false (partial_of_item keys) false false.
Definition editing_keys : DState := with_edit open_keys true (partial_of_item keys).

(** After the save of "X": cancel, edit again and type "Y", the save still
    in flight. *)
Definition second_session_state : DState :=
  mkDState true (Some (mkItemRef 1 keys)) true (set_draft (partial_of_item keys) (DName "Y")) true false.

(** The first session: open [keys], edit, type "X"; the dialog then saves. *)
Definition first_draft : DState :=
  mkDState true (Some (mkItemRef 1 keys)) true (set_draft (partial_of_item keys) (DName "X")) false false.

(** The events that settle the update and the delete mutation. *)
Definition settles_update (e : DEvent) : bool :=
  match e with DUpdateResult _ => true | _ => false end.

Definition settles_delete (e : DEvent) : bool :=
  match e with DDeleteResult _ => true | _ => false end.

(** ** Invariant: while editing, the draft carries every field and the
    id of the item on display *)

Definition inv (s : DState) : Prop :=
  isEditing s = true ->
  complete (editForm s) = true /\ (forall r, item s = Some r -> p_id (editForm s) = Some (id (obj r))).

Lemma set_draft_complete p i : complete p = true -> complete (set_draft p i) = true.
Proof.
  destruct p as [[] [] [] [] [] [] [] ?]; destruct i; done.
Qed.

Lemma set_draft_id p i : p_id (set_draft p i) = p_id p.
Proof. by destruct i. Qed.

Lemma shown_item_Some s it : shown_item s = Some it -> exists r, item s = Some r /\ obj r = it.
Proof.
  unfold shown_item. destruct (isOpen s), (item s) as [r|]; simpl; try done.
  intros [= <-]. by exists r.
Qed.

Lemma reset_effect_inv s : inv (reset_effect s).
Proof.
  unfold reset_effect, inv, with_edit. destruct (isOpen s), (item s) as [r|]; simpl; try done.
  intros _. split; [done|]. intros r' Hr. by simplify_eq.
Qed.

Lemma setProps_inv s o r s' : inv s -> setProps s o r = Some s' -> inv s'.
Proof.
  unfold setProps. intros Hinv.
  case_bool_decide as Href; case_bool_decide as Heq; simpl; try done.
  - subst r. destruct (bool_decide (o = isOpen s)); simpl; intros [= <-]; [exact Hinv|].
    apply reset_effect_inv.
  - rewrite andb_false_r. intros [= <-]. apply reset_effect_inv.
  - rewrite andb_false_r. intros [= <-]. apply reset_effect_inv.
Qed.

Lemma detail_step_inv s e s' o : inv s -> step s e = Some (s', o) -> inv s'.
Proof.
  intros Hinv. destruct e; simpl.
  - destruct (setProps s open_ it) as [s1|] eqn:E; [|done]. intros [= <- <-].
    by eapply setProps_inv.
  - destruct (shown_item s) as [it|] eqn:Hsh; [|done]. destruct (isEditing s); [done|].
    intros [= <- <-]. intros _. split; [done|]. simpl.
    destruct (shown_item_Some _ _ Hsh) as (r & Hr & <-). rewrite Hr. intros r' Hr'. by simplify_eq.
  - destruct (shown_item s); [|done]. destruct (isEditing s) eqn:He; [|done].
    intros [= <- <-]. intros _. destruct (Hinv He) as [Hc Hid]. simpl.
    rewrite set_draft_id. split; [by apply set_draft_complete|exact Hid].
  - destruct (shown_item s) as [it|]; [|done]. destruct (_ && _); [|done]. intros [= Hs].
    unfold handleSave in Hs. destruct (JsString.truthy (id it)); simplify_eq; done.
  - destruct (shown_item s); [|done]. destruct (isEditing s); [|done]. intros [= <- <-]. done.
  - destruct (shown_item s) as [it|]; [|done]. destruct (_ || _); [done|]. intros [= Hs].
    unfold handleDelete in Hs. destruct confirmed; simplify_eq; done.
  - destruct (shown_item s); [|done]. intros [= <- <-]. done.
  - destruct (updatePending s); [|done]. destruct ok; intros [= <- <-]; done.
  - destruct (deletePending s); [|done]. destruct ok; intros [= <- <-]; done.
Qed.

(** A pending mutation stays pending until its own result arrives: no
    other event clears the flag. *)
Ltac detail_step_cases :=
  unfold setProps, reset_effect, handleEdit, handleSave, handleCancel, handleDelete,
    handleClose, onUpdateSuccess, onDeleteSuccess, with_edit in *;
  repeat case_match; simplify_eq/=; done.

Lemma step_keeps_updatePending s e s' o :
  settles_update e = false -> updatePending s = true -> step s e = Some (s', o) ->
  updatePending s' = true.
Proof. intros He Hp Hs. destruct e; simpl in *; try done; detail_step_cases. Qed.

Lemma step_keeps_deletePending s e s' o :
  settles_delete e = false -> deletePending s = true -> step s e = Some (s', o) ->
  deletePending s' = true.
Proof. intros He Hp Hs. destruct e; simpl in *; try done; detail_step_cases. Qed.

(** [handleSave] either sends the draft under the item's id or does nothing. *)
Lemma handleSave_cases s it :
  handleSave s it = (s, []) \/
  (JsString.truthy (id it) = true /\
   handleSave s it = (mkDState (isOpen s) (item s) (isEditing s) (editForm s) true (deletePending s),
                      [OUpdate (id it) (editForm s)])).
Proof. unfold handleSave. destruct (JsString.truthy (id it)); auto. Qed.

Lemma detail_reachable_inv s : reachable step initState s -> inv s.
Proof. apply reachable_ind; [done|]. intros; by eapply detail_step_inv. Qed.

(** ** Properties of the dialog *)

(** Entering edit mode seeds the draft with a copy of every field of
    the displayed item and issues nothing. *)
Theorem edit_seeds_draft s s' o :
  step s DEdit = Some (s', o) ->
  exists it, shown_item s = Some it /\ o = [] /\ isEditing s' = true /\
             editForm s' = partial_of_item it /\ item s' = item s.
Proof.
  simpl. destruct (shown_item s) as [it|]; [|done]. destruct (isEditing s); [done|].
  intros [= <- <-]. by exists it.
Qed.

(** C32. In every reachable state, Save sends one update of the displayed
    item's id whose body is the current draft, and that draft holds every
    field of an item (the store's full replacement is safe); for an item
    with an empty id nothing is sent. *)
Theorem save_sends_complete_draft s s' o :
  reachable step initState s -> step s DSave = Some (s', o) ->
  exists it, shown_item s = Some it /\
    ((JsString.truthy (id it) = true /\ o = [OUpdate (id it) (editForm s)] /\
      complete (editForm s) = true /\ updatePending s' = true) \/
     (id it = EmptyString /\ o = [])).
Proof.
  intros Hr. pose proof (detail_reachable_inv _ Hr) as Hinv.
  simpl. destruct (shown_item s) as [it|]; [|done].
  destruct (isEditing s) eqn:He; simpl; [|done]. destruct (updatePending s); [done|].
  intros [= Hs]. exists it. split; [done|]. unfold handleSave in Hs.
  destruct (JsString.truthy (id it)) eqn:Ht; simplify_eq.
  - left. split_and!; [done|done|by apply Hinv|done].
  - right. split; [by apply JsString.truthy_false_iff|done].
Qed.

(** Cancelling an edit leaves the item untouched, issues nothing, and
    replaces the draft by the displayed item's own values. *)
Theorem cancel_discards_draft s s' o :
  step s DCancel = Some (s', o) ->
  exists it, shown_item s = Some it /\ o = [] /\ isEditing s' = false /\
             item s' = item s /\ editForm s' = partial_of_item it.
Proof.
  simpl. destruct (shown_item s) as [it|]; [|done]. destruct (isEditing s); [|done].
  intros [= <- <-]. by exists it.
Qed.

(** A failed save keeps the dialog in edit mode with the draft intact
    and issues nothing; no error is displayed. *)
Theorem update_failure_keeps_draft s s' o :
  step s (DUpdateResult false) = Some (s', o) ->
  o = [] /\ isEditing s' = isEditing s /\ editForm s' = editForm s /\
  updatePending s' = false /\ render s' = render (mkDState (isOpen s) (item s) (isEditing s)
                                                  (editForm s) false (deletePending s)).
Proof. simpl. destruct (updatePending s); [|done]. by intros [= <- <-]. Qed.

(** C34. Deleting needs the confirmation: a declined prompt changes nothing
    and sends nothing, an accepted one sends exactly one delete of the
    displayed item. *)
Theorem delete_requires_confirmation s c s' o :
  step s (DDelete c) = Some (s', o) ->
  exists it, shown_item s = Some it /\
    (c = false -> o = [] /\ s' = s) /\ (c = true -> o = [ODelete (id it)]).
Proof.
  simpl. destruct (shown_item s) as [it|]; [|done]. destruct (_ || _); [done|].
  intros [= Hs]. exists it. unfold handleDelete in Hs. split; [done|].
  destruct c; simplify_eq; split; done.
Qed.

(** Closing the dialog discards the draft unconditionally, leaves edit
    mode and calls [onClose] once. *)
Theorem close_discards_draft s s' o :
  step s DClose = Some (s', o) ->
  o = [OOnClose] /\ isEditing s' = false /\ editForm s' = empty_partial.
Proof. simpl. destruct (shown_item s); [|done]. by intros [= <- <-]. Qed.

(** ** Interleavings of in-flight requests with later events *)

(** C33. A save that completes after later events ends whatever edit
    session is open by then: after [DSave] sent its update, any events
    other than the update's own result (a cancel, a new edit, more typing)
    leave the mutation pending, and its success leaves edit mode and
    empties the draft without sending it, so a draft typed since the save
    is discarded although it was never saved. *)
Theorem stale_update_discards_new_draft s i d s1 es s2 o2 :
  step s DSave = Some (s1, [OUpdate i d]) ->
  Forall (fun e => settles_update e = false) es -> run step s1 es = Some (s2, o2) ->
  exists s3, step s2 (DUpdateResult true) = Some (s3, [OInvalidate]) /\
    isEditing s3 = false /\ editForm s3 = empty_partial /\ item s3 = item s2 /\ isOpen s3 = isOpen s2.
Proof.
  intros Hs Hes Hrun.
  assert (Hp1 : updatePending s1 = true) by (revert Hs; simpl; intros; detail_step_cases).
  pose proof (run_preserves step (fun s => updatePending s = true) _ s1 es s2 o2
                (fun s e s' o He Hp Hst => step_keeps_updatePending s e s' o He Hp Hst) Hes Hp1 Hrun) as Hp2.
  simpl. rewrite Hp2. by eexists.
Qed.

(** C35. [onDelete] reports the item displayed when the deletion
    completes, not the deleted one: after a confirmed delete of the shown
    item, any events other than the delete's own result keep it pending,
    and its success calls [onDelete] with the id of the [item] prop of
    that moment ([item?.id || ""]), then [onClose]. *)
Theorem delete_reports_current_item s i s1 es s2 o2 :
  step s (DDelete true) = Some (s1, [ODelete i]) ->
  Forall (fun e => settles_delete e = false) es -> run step s1 es = Some (s2, o2) ->
  (exists it, shown_item s = Some it /\ id it = i) /\
  exists s3, step s2 (DDeleteResult true) =
               Some (s3, [OInvalidate; OOnDelete (current_id s2); OOnClose]) /\ item s3 = item s2.
Proof.
  intros Hs Hes Hrun.
  assert (Hp1 : deletePending s1 = true) by (revert Hs; simpl; intros; detail_step_cases).
  pose proof (run_preserves step (fun s => deletePending s = true) _ s1 es s2 o2
                (fun s e s' o He Hp Hst => step_keeps_deletePending s e s' o He Hp Hst) Hes Hp1 Hrun) as Hp2.
  split.
  - revert Hs. simpl. destruct (shown_item s) as [it|]; [|done]. case_match; [done|].
    intros [= _ <-]. by exists it.
  - simpl. rewrite Hp2. by eexists.
Qed.

(** C36. While editing, a parent re-render that passes the same item as a
    new object (a refetch) reseeds the draft: the typed changes are lost
    although the dialog stays in edit mode. *)
Theorem new_item_object_overwrites_draft s s' o r :
  isOpen s = true -> isEditing s = true -> item s = Some r ->
  step s (DProps true (Some (mkItemRef (S (ref r)) (obj r)))) = Some (s', o) ->
  isEditing s' = true /\ editForm s' = partial_of_item (obj r) /\ o = [].
Proof.
  intros Ho He Hi. simpl. unfold setProps. rewrite Hi, Ho. simpl.
  rewrite !(bool_decide_eq_false_2 (Some (S (ref r)) = Some (ref r))) by (intros [=]; lia).
  simpl. intros [= <- <-]. simpl. by rewrite He.
Qed.

(** ** Witnesses *)

Lemma stale_update_discards_new_draft_witness :
  step first_draft DSave =
    Some (with_edit (mkDState true (Some (mkItemRef 1 keys)) true (editForm first_draft) true false)
            true (editForm first_draft),
          [OUpdate "1" (editForm first_draft)]) /\
  p_name (editForm second_session_state) = Some "Y" /\
  exists s3, step second_session_state (DUpdateResult true) = Some (s3, [OInvalidate]) /\
    isEditing s3 = false /\ editForm s3 = empty_partial /\
    item s3 = item second_session_state /\ isOpen s3 = isOpen second_session_state.
Proof.
  assert (Hs : step first_draft DSave =
    Some (with_edit (mkDState true (Some (mkItemRef 1 keys)) true (editForm first_draft) true false)
            true (editForm first_draft),
          [OUpdate "1" (editForm first_draft)])) by reflexivity.
  split_and!; [exact Hs|reflexivity|].
  apply (stale_update_discards_new_draft _ _ _ _ [DCancel; DEdit; DField (DName "Y")] _ [] Hs).
  - repeat constructor.
  - vm_compute. reflexivity.
Defined.

Lemma delete_reports_current_item_witness :
  step open_keys (DDelete true) =
    Some (mkDState true (Some (mkItemRef 1 keys)) false (partial_of_item keys) false true, [ODelete "1"]) /\
  current_id (mkDState true (Some (mkItemRef 2 bag)) false (partial_of_item bag) false true) = "2"%string /\
  ((exists it, shown_item open_keys = Some it /\ id it = "1"%string) /\
   exists s3, step (mkDState true (Some (mkItemRef 2 bag)) false (partial_of_item bag) false true)
                   (DDeleteResult true) =
                Some (s3, [OInvalidate; OOnDelete "2"; OOnClose]) /\
              item s3 = Some (mkItemRef 2 bag)).
Proof.
  assert (Hs : step open_keys (DDelete true) =
    Some (mkDState true (Some (mkItemRef 1 keys)) false (partial_of_item keys) false true, [ODelete "1"]))
    by reflexivity.
  split; [exact Hs|split; [reflexivity|]].
  exact (delete_reports_current_item _ _ _ [DProps true (Some (mkItemRef 2 bag))] _ [] Hs
           ltac:(repeat constructor) ltac:(vm_compute; reflexivity)).
Defined.

Lemma editing_keys_reachable : reachable step initState editing_keys.
Proof. solve_reachable [DProps true (Some (mkItemRef 1 keys)); DEdit]. Qed.

Lemma edit_seeds_draft_witness :
  step open_keys DEdit = Some (editing_keys, []) /\
  exists it, shown_item open_keys = Some it /\ @nil DOut = [] /\ isEditing editing_keys = true /\
             editForm editing_keys = partial_of_item it /\ item editing_keys = item open_keys.
Proof. split; [reflexivity|]. apply (edit_seeds_draft open_keys editing_keys []). reflexivity. Defined.

Lemma save_sends_complete_draft_witness :
  exists it, shown_item editing_keys = Some it /\
    ((JsString.truthy (id it) = true /\
      [OUpdate "1" (partial_of_item keys)] = [OUpdate (id it) (editForm editing_keys)] /\
      complete (editForm editing_keys) = true /\
      updatePending (mkDState true (Some (mkItemRef 1 keys)) true (partial_of_item keys) true false) = true) \/
     (id it = EmptyString /\ [OUpdate "1" (partial_of_item keys)] = [])).
Proof.
  apply (save_sends_complete_draft editing_keys
           (mkDState true (Some (mkItemRef 1 keys)) true (partial_of_item keys) true false)).
  - apply editing_keys_reachable.
  - reflexivity.
Defined.

Lemma cancel_discards_draft_witness :
  exists it, shown_item editing_keys = Some it /\ @nil DOut = [] /\
    isEditing open_keys = false /\ item open_keys = item editing_keys /\
    editForm open_keys = partial_of_item it.
Proof. apply (cancel_discards_draft editing_keys open_keys []). reflexivity. Defined.

Lemma update_failure_keeps_draft_witness :
  let pending := mkDState true (Some (mkItemRef 1 keys)) true (partial_of_item keys) true false in
  let after := mkDState true (Some (mkItemRef 1 keys)) true (partial_of_item keys) false false in
  @nil DOut = [] /\ isEditing after = isEditing pending /\ editForm after = editForm pending /\
  updatePending after = false /\
  render after = render (mkDState (isOpen pending) (item pending) (isEditing pending)
                                  (editForm pending) false (deletePending pending)).
Proof. intros pending after. apply (update_failure_keeps_draft pending after []). reflexivity. Defined.

Lemma delete_requires_confirmation_witness :
  exists it, shown_item open_keys = Some it /\
    (true = false -> [ODelete "1"] = [] /\
       mkDState true (Some (mkItemRef 1 keys)) false (partial_of_item keys) false true = open_keys) /\
    (true = true -> [ODelete "1"] = [ODelete (id it)]).
Proof.
  apply (delete_requires_confirmation open_keys true
           (mkDState true (Some (mkItemRef 1 keys)) false (partial_of_item keys) false true)).
  reflexivity.
Defined.

Lemma close_discards_draft_witness :
  [OOnClose] = [OOnClose] /\ isEditing (with_edit editing_keys false empty_partial) = false /\
  editForm (with_edit editing_keys false empty_partial) = empty_partial.
Proof. apply (close_discards_draft editing_keys). reflexivity. Defined.

Lemma new_item_object_overwrites_draft_witness :
  let s := with_edit editing_keys true (set_draft (partial_of_item keys) (DName "X")) in
  let s' := mkDState true (Some (mkItemRef 2 keys)) true (partial_of_item keys) false false in
  step s (DProps true (Some (mkItemRef 2 keys))) = Some (s', []) /\
  (isEditing s' = true /\ editForm s' = partial_of_item keys /\ @nil DOut = []).
Proof.
  intros s s'. split; [reflexivity|].
  apply (new_item_object_overwrites_draft s s' [] (mkItemRef 1 keys)); reflexivity.
Defined.

End Detail.
