(* ===== verification/Remote.v ===== *)
(** * The remote collection and the requests the pages send

    The item collection lives on an external REST service (spec, sections
    2 and 4.1); the repository holds only its client, [services/api.ts]
    (Api.v).  This file states what the client relies on as a typeclass,
    [ItemService] with its laws [ItemServiceLaws]: [GET /items] returns the
    collection unchanged, [PUT /items/{id}] merges the body into the stored
    item of that id, [DELETE /items/{id}] removes it, [POST /items] appends
    one item built from the data under a fresh id.  [Mock] is an
    executable implementation of the contract, routing paths with
    [Api.path_item_id]; it discharges the laws.

    The [mutationFn]s of the pages turn their outputs into requests
    ([list_request], [detail_request], [add_request]); the theorems run
    these requests against any service that satisfies the laws, so they
    hold of the real service as far as it keeps the contract.  Every
    update body a page sends is a whole [Item] carrying the path's id
    ([update_bodies_are_items]). *)

From S2P Require Import Prelude JsString Types Api Filter Store AddForm ListView Detail.
From stdpp Require Import pretty.

Module Remote.

(** ** The contract of the service *)

(** A [PUT] body merged into the stored item: the keys present in the body
    replace the stored values. *)
Definition merge_patch (it : Item) (d : PartialItem) : Item :=
  mkItem (default (id it) (p_id d)) (default (imageUrl it) (p_imageUrl d))
    (default (name it) (p_name d)) (default (location it) (p_location d))
    (default (date it) (p_date d)) (default (type it) (p_type d))
    (default (status it) (p_status d))
    (match p_createdAt d with Some c => Some c | None => createdAt it end).

Definition put_result (i : string) (d : PartialItem) (l : list Item) : list Item :=
  map (fun x => if bool_decide (id x = i) then merge_patch x d else x) l.

Definition delete_result (i : string) (l : list Item) : list Item :=
  List.filter (fun x => negb (bool_decide (id x = i))) l.

(** The item the service stores for [POST /items] with [data]. *)
Definition created_from (data : CreateItemData) (it : Item) : Prop :=
  imageUrl it = cd_imageUrl data /\ name it = cd_name data /\
  location it = cd_location data /\ date it = cd_date data /\
  type it = cd_type data /\ status it = cd_status data.

Class ItemService (Srv : Type) := {
  collection : Srv -> list Item;
  serve : Api.Request -> Srv -> option Srv   (** [None]: a non-2xx answer *)
}.

Class ItemServiceLaws (Srv : Type) `{!ItemService Srv} := {
  serve_getItems s : serve Api.getItems s = Some s;
  serve_updateItem s s' i d :
    serve (Api.updateItem i d) s = Some s' -> collection s' = put_result i d (collection s);
  serve_deleteItem s s' i :
    serve (Api.deleteItem i) s = Some s' -> collection s' = delete_result i (collection s);
  serve_createItem s s' data :
    serve (Api.createItem data) s = Some s' ->
    exists it, collection s' = collection s ++ [it] /\ created_from data it /\
               id it ∉ Store.ids (collection s)
}.

(** Requests served one after the other; the first failure stops. *)
Fixpoint serve_all `{ItemService Srv} (rs : list Api.Request) (s : Srv) : option Srv :=
  match rs with
  | [] => Some s
  | r :: rs => serve r s ≫= serve_all rs
  end.

(** ** The requests of the pages *)

(** [pages/list.tsx]: [mutationFn: ({ id, data }) => updateItem(id, data)] *)
Definition list_request (o : ListView.ListOut) : option Api.Request :=
  match o with
  | ListView.OUpdate i d => Some (Api.updateItem i d)
  | _ => None
  end.

(** [pages/detail.tsx]: the update and delete [mutationFn]s *)
Definition detail_request (o : Detail.DOut) : option Api.Request :=
  match o with
  | Detail.OUpdate i d => Some (Api.updateItem i d)
  | Detail.ODelete i => Some (Api.deleteItem i)
  | _ => None
  end.

(** [pages/add.tsx]: [mutationFn: createItem] *)
Definition add_request (o : AddForm.AddOut) : option Api.Request :=
  match o with
  | AddForm.OCreate d => Some (Api.createItem d)
  | _ => None
  end.

(** ** An executable service *)

Record Mock := mkMock { mock_items : list Item; mock_clock : N }.

Definition mock_new_item (m : Mock) (data : CreateItemData) : Item :=
  mkItem (infinite_fresh (Store.ids (mock_items m))) (cd_imageUrl data) (cd_name data)
    (cd_location data) (cd_date data) (cd_type data) (cd_status data)
    (Some (pretty (mock_clock m))).

Definition mock_serve (r : Api.Request) (m : Mock) : option Mock :=
  match Api.method r, Api.body r with
  | Api.GET, Api.NoBody => if bool_decide (Api.path r = "/items") then Some m else None
  | Api.POST, Api.CreateBody data =>
      if bool_decide (Api.path r = "/items")
      then Some (mkMock (mock_items m ++ [mock_new_item m data]) (N.succ (mock_clock m)))
      else None
  | Api.PUT, Api.PatchBody d =>
      match Api.path_item_id (Api.path r) with
      | Some i => if bool_decide (i ∈ Store.ids (mock_items m))
                  then Some (mkMock (put_result i d (mock_items m)) (mock_clock m)) else None
      | None => None
      end
  | Api.DELETE, Api.NoBody =>
      match Api.path_item_id (Api.path r) with
      | Some i => if bool_decide (i ∈ Store.ids (mock_items m))
                  then Some (mkMock (delete_result i (mock_items m)) (mock_clock m)) else None
      | None => None
      end
  | _, _ => None
  end.

#[export] Instance Mock_service : ItemService Mock := {
  collection := mock_items;
  serve := mock_serve
}.

(** ** Requests of the application *)

(** A request some page sends: the list page from any state, the dialog
    from a reachable state, the creation form from any state. *)
Inductive page_request : Api.Request -> Prop :=
  | list_sends s e s' o r :
      ListView.step s e = Some (s', o) -> r ∈ omap list_request o -> page_request r
  | detail_sends s e s' o r :
      reachable Detail.step Detail.initState s -> Detail.step s e = Some (s', o) ->
      r ∈ omap detail_request o -> page_request r
  | add_sends s e s' o r :
      AddForm.step s e = Some (s', o) -> r ∈ omap add_request o -> page_request r.

(** ** Sample data *)

Definition stamped (i n : string) (st : ItemStatus) : Item :=
  mkItem i "" n "Hall" "2024-01-01" Lost st (Some "1722000000").

Definition keys_s : Item := stamped "1" "Keys" Active.
Definition bag_s : Item := stamped "2" "Bag" Done.
Definition stamped_items : list Item := [keys_s; bag_s].

Definition mock0 : Mock := mkMock stamped_items 2.

(** The service after a sequence of requests from [mock0]. *)
Definition mock_after (rs : list Api.Request) : Mock := default mock0 (serve_all rs mock0).

Definition list_loaded : ListView.ListState :=
  ListView.mkListState "" "" Filter.Filter.AllTypes Filter.Filter.AllStatus ListView.Grid 1 None 300
    stamped_items false false.

Definition wallet_draft : PartialItem := Detail.set_draft (partial_of_item keys_s) (Detail.DName "Wallet").

Definition dialog_state (editing : bool) (form : PartialItem) (up del : bool) : Detail.DState :=
  Detail.mkDState true (Some (Detail.mkItemRef 1 keys_s)) editing form up del.

Definition dialog_keys : Detail.DState := dialog_state true wallet_draft false false.
Definition dialog_view : Detail.DState := dialog_state false (partial_of_item keys_s) false false.

Definition app_requests : list Api.Request :=
  [Api.updateItem "1" wallet_draft; Api.createItem AddForm.sample_data;
   Api.updateItem "2" (ListView.markAsDone_body bag_s)].

(** ** Lemmas *)

Lemma mock_serve_item_path i (m m' : Mock) (F : string -> list Item -> list Item) :
  Api.path_item_id (Api.item_path i) ≫= (fun j =>
    if bool_decide (j ∈ Store.ids (mock_items m)) then Some (mkMock (F j (mock_items m)) (mock_clock m)) else None)
    = Some m' -> mock_items m' = F i (mock_items m).
Proof.
  rewrite Api.path_item_id_item_path. destruct (JsString.has_char _ _); simpl; [done|].
  case_bool_decide; [|done]. by intros [= <-].
Qed.

#[export] Instance Mock_laws : ItemServiceLaws Mock.
Proof.
  split.
  - done.
  - intros m m' i d. simpl. unfold mock_serve. simpl.
    intros H. apply (mock_serve_item_path i m m' (fun j l => put_result j d l)).
    by destruct (Api.path_item_id _).
  - intros m m' i. simpl. unfold mock_serve. simpl.
    intros H. apply (mock_serve_item_path i m m' delete_result).
    by destruct (Api.path_item_id _).
  - intros m m' data. simpl. unfold mock_serve. simpl. intros [= <-].
    exists (mock_new_item m data). split_and!; [done|by repeat split|].
    apply infinite_is_fresh.
Qed.

(** ** Lemmas on the contract *)

Lemma ids_put_result i d l : p_id d = Some i -> Store.ids (put_result i d l) = Store.ids l.
Proof.
  intros Hd. induction l as [|x l IH]; [done|]. simpl. f_equal; [|done].
  case_bool_decide; [|done]. simpl. by rewrite Hd.
Qed.

Lemma merge_patch_full x y c : createdAt y = Some c -> merge_patch x (partial_of_item y) = y.
Proof. destruct y; simpl. by intros ->. Qed.

Lemma delete_result_spec i l x : x ∈ delete_result i l <-> x ∈ l /\ id x <> i.
Proof.
  unfold delete_result. rewrite !list_elem_of_In, filter_In, negb_true_iff, bool_decide_eq_false.
  done.
Qed.

Lemma delete_result_ids i l : i ∉ Store.ids (delete_result i l).
Proof.
  unfold Store.ids. rewrite list_elem_of_fmap. intros (x & -> & Hx).
  by apply delete_result_spec in Hx as [_ ?].
Qed.

Lemma unique_delete_result i l : Store.unique_ids l -> Store.unique_ids (delete_result i l).
Proof. intros Hu. eapply sublist_NoDup; [exact Hu|apply Store.ids_filter_sublist]. Qed.

Lemma unique_snoc_fresh l it : Store.unique_ids l -> id it ∉ Store.ids l -> Store.unique_ids (l ++ [it]).
Proof.
  unfold Store.unique_ids, Store.ids. rewrite fmap_app. intros. apply NoDup_app.
  split_and!; [done| |by apply NoDup_singleton]. set_solver.
Qed.

Lemma serve_all_one `{ItemService Srv} r s s' : serve_all [r] s = Some s' <-> serve r s = Some s'.
Proof. simpl. destruct (serve r s); simpl; naive_solver. Qed.

#[export] Hint Resolve unique_delete_result unique_snoc_fresh : lf.

(** ** What each page sends *)

Lemma list_step_requests s e s' o :
  ListView.step s e = Some (s', o) ->
  omap list_request o = [] \/
  exists it, e = ListView.LMarkDone it /\
             omap list_request o = [Api.updateItem (id it) (ListView.markAsDone_body it)].
Proof.
  destruct e; simpl; repeat case_match; try done; intros [= <- <-];
    unfold ListView.handlePageChange, ListView.handleMarkAsDone; simpl; eauto.
Qed.

Lemma detail_step_requests s e s' o :
  Detail.inv s -> Detail.step s e = Some (s', o) ->
  omap detail_request o = [] \/
  (exists it, Detail.shown_item s = Some it /\ e = Detail.DSave /\
     p_id (Detail.editForm s) = Some (id it) /\ complete (Detail.editForm s) = true /\
     omap detail_request o = [Api.updateItem (id it) (Detail.editForm s)]) \/
  (exists it, Detail.shown_item s = Some it /\ e = Detail.DDelete true /\
     omap detail_request o = [Api.deleteItem (id it)]).
Proof.
  intros Hinv. destruct e; simpl.
  - destruct (Detail.setProps _ _ _); [|done]. intros [= _ <-]. by left.
  - destruct (Detail.shown_item s); [|done]. case_match; [done|]. intros [= _ <-]. by left.
  - destruct (Detail.shown_item s); [|done]. case_match; [|done]. intros [= _ <-]. by left.
  - destruct (Detail.shown_item s) as [it|] eqn:Hsh; [|done].
    destruct (Detail.isEditing s) eqn:He; simpl; [|done]. destruct (Detail.updatePending s); simpl; [done|].
    destruct (Detail.handleSave_cases s it) as [->|[_ ->]]; intros [= _ <-]; [by left|].
    right; left. exists it. destruct (Hinv He) as [Hc Hid].
    destruct (Detail.shown_item_Some _ _ Hsh) as (r & Hr & <-). rewrite (Hid r Hr). done.
  - destruct (Detail.shown_item s); [|done]. case_match; [|done]. intros [= _ <-]. by left.
  - destruct (Detail.shown_item s) as [it|] eqn:Hsh; [|done]. case_match; [done|].
    unfold Detail.handleDelete. destruct confirmed; intros [= _ <-]; [|by left].
    right; right. by exists it.
  - destruct (Detail.shown_item s); [|done]. intros [= _ <-]. by left.
  - case_match; [|done]. destruct ok; intros [= _ <-]; by left.
  - case_match; [|done]. destruct ok; intros [= _ <-]; by left.
Qed.

Lemma add_step_requests s e s' o :
  AddForm.step s e = Some (s', o) ->
  omap add_request o = [] \/
  (e = AddForm.ASubmit /\ (forall f, AddForm.missing (AddForm.formData s) f = false) /\
   omap add_request o = [Api.createItem (AddForm.formData s)]).
Proof.
  destruct e; simpl.
  - case_match; [done|]. intros [= _ <-]. by left.
  - case_match; [done|]. intros [= Hs]. unfold AddForm.handleSubmit in Hs.
    destruct (AddForm.validateForm _) as [errs ok] eqn:Hv.
    destruct ok; simplify_eq; [|by left]. right. split_and!; [done| |done].
    apply AddForm.validateForm_ok. by rewrite Hv.
  - case_match; [|done]. unfold AddForm.onSuccess. destruct ok; intros [= _ <-]; by left.
  - case_match; [|done]. intros [= _ <-]. by left.
Qed.

Lemma serve_all_app `{ItemService Srv} rs1 rs2 s :
  serve_all (rs1 ++ rs2) s = serve_all rs1 s ≫= serve_all rs2.
Proof.
  revert s. induction rs1 as [|r rs1 IH]; intros s; simpl; [done|].
  destruct (serve r s); simpl; [apply IH|done].
Qed.

(** A full body for an id overrides whatever an earlier [PUT] to it wrote. *)
Lemma put_result_full_absorbs i d y c l :
  p_id d = Some i -> createdAt y = Some c ->
  put_result i (partial_of_item y) (put_result i d l) = put_result i (partial_of_item y) l.
Proof.
  intros Hd Hc. unfold put_result. rewrite map_map. apply map_ext. intros x.
  destruct (decide (id x = i)) as [Hx|Hx].
  - rewrite (bool_decide_true (id x = i)) by done.
    rewrite bool_decide_true by (unfold merge_patch; simpl; by rewrite Hd).
    by rewrite !(merge_patch_full _ _ c).
  - rewrite (bool_decide_false (id x = i)) by done. simpl.
    by rewrite (bool_decide_false (id x = i)) by done.
Qed.

Lemma put_full i y c l :
  id y = i -> createdAt y = Some c ->
  put_result i (partial_of_item y) l = map (fun x => if bool_decide (id x = i) then y else x) l.
Proof.
  intros _ Hc. unfold put_result. apply map_ext. intros x.
  case_bool_decide; [by apply (merge_patch_full _ _ c)|done].
Qed.

Lemma markAsDone_step s it s' o :
  ListView.step s (ListView.LMarkDone it) = Some (s', o) ->
  o = [ListView.OUpdate (id it) (partial_of_item (ListView.with_status it (ListView.toggle_status (status it))))].
Proof. simpl. destruct (ListView.isLoading s); [done|]. destruct (_ && _); [|done]. by intros [= <- <-]. Qed.

(** C19. Every update a page sends is well typed: its body read as an
    [Item] has every required key, and its [id] is the id of the path; the
    list sends the item with its status toggled, the dialog its draft (in
    a reachable state). *)
Theorem update_bodies_are_items r i d :
  page_request r -> r = Api.updateItem i d ->
  exists it, item_of_partial d = Some it /\ id it = i.
Proof.
  intros Hr ->. inversion Hr as [s e s' o r Hs Hin|s e s' o r Hreach Hs Hin|s e s' o r Hs Hin]; subst.
  - destruct (list_step_requests _ _ _ _ Hs) as [Ho|(it & _ & Ho)]; rewrite Ho in Hin;
      [set_solver|apply list_elem_of_singleton in Hin; apply Api.updateItem_inj in Hin as [-> ->]].
    by eexists.
  - destruct (detail_step_requests _ _ _ _ (Detail.detail_reachable_inv _ Hreach) Hs)
      as [Ho|[(it & _ & _ & Hid & Hc & Ho)|(it & _ & _ & Ho)]]; rewrite Ho in Hin;
      [set_solver| |]; apply list_elem_of_singleton in Hin; [|done].
    apply Api.updateItem_inj in Hin as [-> ->]. destruct (complete_item_of_partial _ Hc) as (it' & Hit & Hp).
    exists it'. split; [exact Hit|]. rewrite <-Hp in Hid. simpl in Hid. by injection Hid.
  - destruct (add_step_requests _ _ _ _ Hs) as [Ho|(_ & _ & Ho)]; rewrite Ho in Hin;
      [set_solver|by apply list_elem_of_singleton in Hin].
Qed.

Section Contract.
Context {Srv : Type} `{!ItemService Srv, !ItemServiceLaws Srv}.

Lemma page_request_unique r srv srv' :
  page_request r -> serve r srv = Some srv' ->
  Store.unique_ids (collection srv) -> Store.unique_ids (collection srv').
Proof.
  unfold Store.unique_ids. destruct 1 as [s e s' o r Hs Hr|s e s' o r Hreach Hs Hr|s e s' o r Hs Hr].
  - destruct (list_step_requests _ _ _ _ Hs) as [Ho|(it & _ & Ho)]; rewrite Ho in Hr;
      [set_solver|apply list_elem_of_singleton in Hr as ->].
    intros Hserve%serve_updateItem. by rewrite Hserve, ids_put_result.
  - destruct (detail_step_requests _ _ _ _ (Detail.detail_reachable_inv _ Hreach) Hs)
      as [Ho|[(it & _ & _ & Hid & _ & Ho)|(it & _ & _ & Ho)]]; rewrite Ho in Hr;
      [set_solver|apply list_elem_of_singleton in Hr as ->..].
    + intros Hserve%serve_updateItem. by rewrite Hserve, ids_put_result.
    + intros Hserve%serve_deleteItem. rewrite Hserve. apply unique_delete_result.
  - destruct (add_step_requests _ _ _ _ Hs) as [Ho|(_ & _ & Ho)]; rewrite Ho in Hr;
      [set_solver|apply list_elem_of_singleton in Hr as ->].
    intros (it & -> & _ & Hf)%serve_createItem Hu. by apply unique_snoc_fresh.
Qed.

(** C18. Whatever the interleaving of the three pages' requests, a service
    that keeps the contract keeps the ids of its collection unique: the
    list and the dialog only [PUT] bodies whose [id] is the id of the path,
    the dialog only deletes, the form only creates under a fresh id. *)
Theorem requests_preserve_unique_ids rs srv srv' :
  Forall page_request rs -> serve_all rs srv = Some srv' ->
  Store.unique_ids (collection srv) -> Store.unique_ids (collection srv').
Proof.
  intros Hrs. revert srv. induction Hrs as [|r rs Hr _ IH]; intros srv; simpl; [by intros [= <-]|].
  destruct (serve r srv) as [srv1|] eqn:E; simpl; [|done].
  intros Hall Hu. apply (IH srv1 Hall). by eapply page_request_unique.
Qed.

(** C21. Marking an item done from the list replaces, on the service, the
    stored item of that id by the list's copy with the status toggled:
    every other field the service held for it (an edit saved since the
    list was fetched included) is overwritten by the cached values. *)
Theorem markAsDone_overwrites_stored_item s it s' o c srv srv' :
  ListView.step s (ListView.LMarkDone it) = Some (s', o) -> createdAt it = Some c ->
  serve_all (omap list_request o) srv = Some srv' ->
  collection srv' =
    map (fun x => if bool_decide (id x = id it)
                  then ListView.with_status it (ListView.toggle_status (status it)) else x)
        (collection srv).
Proof.
  intros ->%markAsDone_step Hc Hs%serve_all_one%serve_updateItem. rewrite Hs.
  by apply (put_full _ _ c).
Qed.

(** C22. A Save from a reachable dialog in edit mode with no save
    pending, for an item with a non-empty id, sends exactly one update of
    that id carrying the draft; once the service accepted it, the stored
    item of the displayed id is the draft merged into it, and the ids of
    the collection are those it had. *)
Theorem detail_save_updates_shown_item s it srv srv' :
  reachable Detail.step Detail.initState s -> Detail.shown_item s = Some it ->
  Detail.isEditing s = true -> Detail.updatePending s = false -> JsString.truthy (id it) = true ->
  serve (Api.updateItem (id it) (Detail.editForm s)) srv = Some srv' ->
  exists s' o, Detail.step s Detail.DSave = Some (s', o) /\
    omap detail_request o = [Api.updateItem (id it) (Detail.editForm s)] /\
    collection srv' = put_result (id it) (Detail.editForm s) (collection srv) /\
    Store.ids (collection srv') = Store.ids (collection srv).
Proof.
  intros Hr Hsh He Hp Ht Hserve%serve_updateItem.
  destruct (Detail.shown_item_Some _ _ Hsh) as (r & Hir & Hobj).
  pose proof (proj2 (Detail.detail_reachable_inv _ Hr He) r Hir) as Hid. rewrite Hobj in Hid.
  simpl. rewrite Hsh, He, Hp. simpl. unfold Detail.handleSave. rewrite Ht.
  eexists _, _. split_and!; [reflexivity|reflexivity|exact Hserve|]. rewrite Hserve. by apply ids_put_result.
Qed.

(** C23. A confirmed delete, once the service accepted it, removes from the
    collection every item of the displayed id and keeps every other item. *)
Theorem detail_delete_removes_item s s' o srv srv' :
  Detail.step s (Detail.DDelete true) = Some (s', o) ->
  serve_all (omap detail_request o) srv = Some srv' ->
  exists it, Detail.shown_item s = Some it /\ id it ∉ Store.ids (collection srv') /\
    (forall x, x ∈ collection srv' <-> x ∈ collection srv /\ id x <> id it).
Proof.
  simpl. destruct (Detail.shown_item s) as [it|]; [|done]. case_match; [done|].
  intros [= _ <-]. intros Hserve%serve_all_one%serve_deleteItem.
  exists it. rewrite Hserve. split_and!; [done|apply delete_result_ids|apply delete_result_spec].
Qed.

(** C24. Submitting the form with every required field filled (the
    button enabled: not submitted, not pending) sends exactly one creation
    of the form's data; once the service accepted it, the collection is
    the old one with one item appended, carrying the form's values under
    an id the collection did not hold, and its ids stay unique. *)
Theorem add_submit_creates_item s srv srv' :
  AddForm.isSubmitted s = false -> AddForm.isPending s = false ->
  (forall f, AddForm.missing (AddForm.formData s) f = false) ->
  serve (Api.createItem (AddForm.formData s)) srv = Some srv' -> Store.unique_ids (collection srv) ->
  exists s' o, AddForm.step s AddForm.ASubmit = Some (s', o) /\
    omap add_request o = [Api.createItem (AddForm.formData s)] /\
    Store.unique_ids (collection srv') /\
    exists it, collection srv' = collection srv ++ [it] /\ created_from (AddForm.formData s) it /\
               id it ∉ Store.ids (collection srv).
Proof.
  intros Hs Hp Hf (it & Hc & Hfrom & Hfresh)%serve_createItem Hu.
  destruct (AddForm.step_submit_valid s Hs Hp Hf) as [s' Hstep].
  exists s', [AddForm.OCreate (AddForm.formData s)]. split_and!; [exact Hstep|reflexivity| |eauto]. rewrite Hc. auto with lf.
Qed.

(** C20. A save from the dialog followed by a mark-as-done of the list's
    cached copy of the same item loses the save: the collection ends as if
    only the mark-as-done had been sent. *)
Theorem stale_markAsDone_loses_saved_edit ds ds' od ls it ls' ol c srv srv' :
  reachable Detail.step Detail.initState ds -> Detail.step ds Detail.DSave = Some (ds', od) ->
  Detail.shown_item ds = Some it ->
  ListView.step ls (ListView.LMarkDone it) = Some (ls', ol) -> createdAt it = Some c ->
  serve_all (omap detail_request od ++ omap list_request ol) srv = Some srv' ->
  collection srv' =
    map (fun x => if bool_decide (id x = id it)
                  then ListView.with_status it (ListView.toggle_status (status it)) else x)
        (collection srv).
Proof.
  intros Hr Hs Hsh Hl%markAsDone_step Hc. rewrite serve_all_app, Hl. simpl omap.
  destruct (detail_step_requests _ _ _ _ (Detail.detail_reachable_inv _ Hr) Hs)
    as [->|[(it' & Hsh' & _ & Hid & _ & ->)|(it' & _ & [=] & _)]].
  - intros ->%serve_all_one%serve_updateItem. by apply (put_full _ _ c).
  - rewrite Hsh in Hsh'. injection Hsh' as <-. simpl.
    destruct (serve _ srv) as [srv1|] eqn:E1; simpl; [|done].
    intros ->%serve_all_one%serve_updateItem. rewrite (serve_updateItem _ _ _ _ E1).
    rewrite (put_result_full_absorbs _ _ _ c) by done. by apply (put_full _ _ c).
Qed.

End Contract.

(** ** Witnesses, against [Mock] *)

Lemma dialog_keys_reachable : Detail.step ⊢ Detail.initState ⇝* dialog_keys.
Proof.
  solve_reachable [Detail.DProps true (Some (Detail.mkItemRef 1 keys_s)); Detail.DEdit;
                   Detail.DField (Detail.DName "Wallet")].
Qed.

Lemma wallet_request_sent : page_request (Api.updateItem "1" wallet_draft).
Proof.
  apply (detail_sends dialog_keys Detail.DSave (dialog_state true wallet_draft true false)
           [Detail.OUpdate "1" wallet_draft]); [apply dialog_keys_reachable|vm_compute; reflexivity|by left].
Qed.

Lemma update_bodies_are_items_witness :
  page_request (Api.updateItem "1" wallet_draft) /\
  exists it, item_of_partial wallet_draft = Some it /\ id it = "1"%string.
Proof.
  split; [exact wallet_request_sent|].
  exact (update_bodies_are_items _ _ _ wallet_request_sent eq_refl).
Defined.

Lemma stamped_items_unique : Store.unique_ids stamped_items.
Proof. unfold Store.unique_ids. apply (bool_decide_unpack _). vm_compute. reflexivity. Qed.

Lemma requests_preserve_unique_ids_witness :
  Forall page_request app_requests /\ serve_all app_requests mock0 = Some (mock_after app_requests) /\
  Store.unique_ids (collection mock0) /\ Store.unique_ids (collection (mock_after app_requests)).
Proof.
  assert (Hf : Forall page_request app_requests).
  { repeat constructor.
    - apply wallet_request_sent.
    - apply (add_sends AddForm.filled_state AddForm.ASubmit AddForm.pending_state
               [AddForm.OCreate AddForm.sample_data]); [vm_compute; reflexivity|by left].
    - apply (list_sends list_loaded (ListView.LMarkDone bag_s) (ListView.with_updatePending list_loaded true)
               [ListView.OUpdate "2" (ListView.markAsDone_body bag_s)]); [vm_compute; reflexivity|by left]. }
  assert (Hs : serve_all app_requests mock0 = Some (mock_after app_requests)) by (vm_compute; reflexivity).
  split_and!; [exact Hf|exact Hs|exact stamped_items_unique|].
  exact (requests_preserve_unique_ids _ _ _ Hf Hs stamped_items_unique).
Defined.


Lemma markAsDone_overwrites_stored_item_witness :
  let o := [ListView.OUpdate "2" (ListView.markAsDone_body bag_s)] in
  ListView.step list_loaded (ListView.LMarkDone bag_s) = Some (ListView.with_updatePending list_loaded true, o) /\
  collection (mock_after (omap list_request o)) =
    map (fun x => if bool_decide (id x = id bag_s)
                  then ListView.with_status bag_s (ListView.toggle_status (status bag_s)) else x)
        (collection mock0).
Proof.
  intros o. assert (Hs : ListView.step list_loaded (ListView.LMarkDone bag_s) =
                          Some (ListView.with_updatePending list_loaded true, o)) by (vm_compute; reflexivity).
  split; [exact Hs|].
  apply (markAsDone_overwrites_stored_item _ _ _ _ "1722000000" _ _ Hs); vm_compute; reflexivity.
Defined.

Lemma detail_save_updates_shown_item_witness :
  let r := Api.updateItem (id keys_s) (Detail.editForm dialog_keys) in
  Detail.shown_item dialog_keys = Some keys_s /\ Detail.isEditing dialog_keys = true /\
  Detail.updatePending dialog_keys = false /\ JsString.truthy (id keys_s) = true /\
  serve r mock0 = Some (mock_after [r]) /\
  exists s' o, Detail.step dialog_keys Detail.DSave = Some (s', o) /\
    omap detail_request o = [r] /\
    collection (mock_after [r]) = put_result (id keys_s) (Detail.editForm dialog_keys) (collection mock0) /\
    Store.ids (collection (mock_after [r])) = Store.ids (collection mock0).
Proof.
  intros r.
  assert (H1 : Detail.shown_item dialog_keys = Some keys_s) by reflexivity.
  assert (H2 : Detail.isEditing dialog_keys = true) by reflexivity.
  assert (H3 : Detail.updatePending dialog_keys = false) by reflexivity.
  assert (H4 : JsString.truthy (id keys_s) = true) by reflexivity.
  assert (H5 : serve r mock0 = Some (mock_after [r])) by (vm_compute; reflexivity).
  split_and!; [exact H1|exact H2|exact H3|exact H4|exact H5|].
  exact (detail_save_updates_shown_item _ _ _ _ dialog_keys_reachable H1 H2 H3 H4 H5).
Defined.

Lemma detail_delete_removes_item_witness :
  let o := [Detail.ODelete "1"] in
  Detail.step dialog_view (Detail.DDelete true) = Some (dialog_state false (partial_of_item keys_s) false true, o) /\
  exists it, Detail.shown_item dialog_view = Some it /\
    id it ∉ Store.ids (collection (mock_after (omap detail_request o))) /\
    (forall x, x ∈ collection (mock_after (omap detail_request o)) <-> x ∈ collection mock0 /\ id x <> id it).
Proof.
  intros o. assert (Hs : Detail.step dialog_view (Detail.DDelete true) =
                          Some (dialog_state false (partial_of_item keys_s) false true, o)) by (vm_compute; reflexivity).
  split; [exact Hs|].
  apply (detail_delete_removes_item _ _ _ _ _ Hs). vm_compute. reflexivity.
Defined.

Lemma add_submit_creates_item_witness :
  let r := Api.createItem (AddForm.formData AddForm.filled_state) in
  AddForm.isSubmitted AddForm.filled_state = false /\ AddForm.isPending AddForm.filled_state = false /\
  (forall f, AddForm.missing (AddForm.formData AddForm.filled_state) f = false) /\
  serve r mock0 = Some (mock_after [r]) /\
  exists s' o, AddForm.step AddForm.filled_state AddForm.ASubmit = Some (s', o) /\
    omap add_request o = [r] /\ Store.unique_ids (collection (mock_after [r])) /\
    exists it, collection (mock_after [r]) = collection mock0 ++ [it] /\
      created_from (AddForm.formData AddForm.filled_state) it /\ id it ∉ Store.ids (collection mock0).
Proof.
  intros r.
  assert (H1 : AddForm.isSubmitted AddForm.filled_state = false) by reflexivity.
  assert (H2 : AddForm.isPending AddForm.filled_state = false) by reflexivity.
  assert (H3 : forall f, AddForm.missing (AddForm.formData AddForm.filled_state) f = false)
    by (intros []; vm_compute; reflexivity).
  assert (H4 : serve r mock0 = Some (mock_after [r])) by (vm_compute; reflexivity).
  split_and!; [exact H1|exact H2|exact H3|exact H4|].
  exact (add_submit_creates_item _ _ _ H1 H2 H3 H4 stamped_items_unique).
Defined.

Lemma stale_markAsDone_loses_saved_edit_witness :
  let od := [Detail.OUpdate "1" wallet_draft] in
  let ol := [ListView.OUpdate "1" (ListView.markAsDone_body keys_s)] in
  Detail.step dialog_keys Detail.DSave = Some (dialog_state true wallet_draft true false, od) /\
  ListView.step list_loaded (ListView.LMarkDone keys_s) = Some (ListView.with_updatePending list_loaded true, ol) /\
  map name (collection (mock_after (omap detail_request od ++ omap list_request ol))) = ["Keys"; "Bag"] /\
  collection (mock_after (omap detail_request od ++ omap list_request ol)) =
    map (fun x => if bool_decide (id x = id keys_s)
                  then ListView.with_status keys_s (ListView.toggle_status (status keys_s)) else x)
        (collection mock0).
Proof.
  intros od ol.
  assert (Hd : Detail.step dialog_keys Detail.DSave = Some (dialog_state true wallet_draft true false, od))
    by (vm_compute; reflexivity).
  assert (Hl : ListView.step list_loaded (ListView.LMarkDone keys_s) =
               Some (ListView.with_updatePending list_loaded true, ol)) by (vm_compute; reflexivity).
  split_and!; [exact Hd|exact Hl|vm_compute; reflexivity|].
  apply (stale_markAsDone_loses_saved_edit dialog_keys _ od list_loaded keys_s
           (ListView.with_updatePending list_loaded true) ol "1722000000"
           mock0 _ dialog_keys_reachable Hd); [reflexivity|exact Hl|reflexivity|vm_compute; reflexivity].
Defined.

End Remote.
