(* ===== verification/Routing.v ===== *)
(** * Routes of [routes/routes.tsx] and the navigation bar of [pages/header.tsx]

    [MyRouter] renders [Header] above a [Routes] table of four entries:
    ["/"] and ["*"] render [<Navigate to="/list" replace />], ["/list"]
    renders [ItemList], ["/add"] renders [AddItemForm].  The table is
    resolved the way react-router 6 resolves it: a static path [P] matches
    a pathname that is [P] followed by any number of slashes, compared
    case-insensitively (the routes set no [caseSensitive]); static entries
    outrank the splat ["*"].  For the ASCII lower-case paths of this table,
    the regular expression's case folding is the comparison of the
    lower-cased strings ([JsString.toLowerCase]).  Before matching,
    react-router (6.22 and later) decodes the pathname segment by segment
    with [decodeURIComponent], escapes a decoded ['/'] again as ["%2F"],
    and matches the raw path when a segment is malformed ([decodePath];
    [JsString.decodeURIComponent] is the ECMAScript algorithm, UTF-8
    validation included).  The earlier 6.x releases decode with
    [decodeURI], which differs only on reserved characters; none of them
    can make a path match this table.

    [Header] computes [currentView] as
    [location.pathname.split("/").filter(Boolean).pop()] ([js_split],
    [segments], [currentView]) and highlights the button whose name it
    equals; its buttons call [navigate("/list")] and [navigate("/add")].

    The browser history is a [Nav] record (entries before, the current
    entry, entries after); [step] is one user action (a header button, a
    typed URL, Back, Forward) followed by the render of [MyRouter], whose
    [Navigate replace] rewrites the current entry.

    The theorems: one redirect always reaches a page; no history entry
    ever holds a redirecting path, so Back and Forward never bounce; the
    header highlights the page shown whenever the path is written in lower
    case without percent escapes, and highlights nothing for ["/LIST"] or
    ["/%6cist"], which show the list (the header reads the raw pathname,
    the routes the decoded and case-folded one). *)

From S2P Require Import Prelude JsString.
From Stdlib Require Import Ascii.

Module Routing.

(** ** Paths *)

(** [String.prototype.split(c)] with a one-character separator. *)
Fixpoint js_split (c : ascii) (s : string) : list string :=
  match s with
  | EmptyString => [EmptyString]
  | String d s' =>
      let r := js_split c s' in
      if Ascii.eqb c d then EmptyString :: r
      else match r with
           | x :: r' => String d x :: r'
           | [] => [String d EmptyString]
           end
  end.

(** [pathname.split("/").filter(Boolean)] *)
Definition segments (pathname : string) : list string :=
  List.filter JsString.truthy (js_split "/" pathname).

(** [... .pop()]: [undefined] for no segment. *)
Definition currentView (pathname : string) : option string := last (segments pathname).

(** ** The route table *)

Inductive Page := ListPage | AddPage.

#[export] Instance Page_eq_dec : EqDecision Page.
Proof. solve_decision. Defined.

Inductive RouteElement :=
  | RNavigate (to : string)   (** [<Navigate to replace />] *)
  | RShow (p : Page).         (** [<ItemList />], [<AddItemForm />] *)

Definition routes : list (string * RouteElement) :=
  [("/", RNavigate "/list"); ("/list", RShow ListPage); ("/add", RShow AddPage)].

(** The splat route [path="*"]. *)
Definition splat : RouteElement := RNavigate "/list".

Definition is_slash (c : ascii) : bool := Ascii.eqb c "/".

(** A static path matches [path] followed by slashes, case-insensitively. *)
Definition path_matches (path pathname : string) : bool :=
  match JsString.strip_prefix (JsString.toLowerCase path) (JsString.toLowerCase pathname) with
  | Some rest => JsString.all_chars is_slash rest
  | None => false
  end.

(** [decodeURIComponent(v).replace(/\//g, "%2F")]: a decoded ['/'] is
    escaped again so that it cannot split a segment. *)
Fixpoint encode_slashes (s : string) : string :=
  match s with
  | EmptyString => EmptyString
  | String c s' => if is_slash c then ("%2F" ++ encode_slashes s')%string else String c (encode_slashes s')
  end.

(** react-router's [decodePath], applied to the pathname before the routes
    are matched: every segment is decoded with [decodeURIComponent]; when
    one of them is malformed the path is matched as it is. *)
Definition decodePath (value : string) : string :=
  match mapM JsString.decodeURIComponent (js_split "/" value) with
  | Some segs => String.concat "/" (map encode_slashes segs)
  | None => value
  end.

Definition resolve (pathname : string) : RouteElement :=
  match List.find (fun r => path_matches r.1 (decodePath pathname)) routes with
  | Some (_, el) => el
  | None => splat
  end.

(** The render of [MyRouter]: a [Navigate replace] rewrites the location. *)
Definition settle (pathname : string) : string :=
  match resolve pathname with
  | RNavigate t => t
  | RShow _ => pathname
  end.

Definition shown (pathname : string) : option Page :=
  match resolve pathname with
  | RShow p => Some p
  | RNavigate _ => None
  end.

(** ** The header *)

Record HeaderView := mkHeaderView { browse_active : bool; add_active : bool }.

Definition header (pathname : string) : HeaderView :=
  mkHeaderView (bool_decide (currentView pathname = Some "list"))
               (bool_decide (currentView pathname = Some "add")).

Definition highlights (h : HeaderView) (p : Page) : Prop :=
  h = mkHeaderView (bool_decide (p = ListPage)) (bool_decide (p = AddPage)).

(** ** Browser history *)

Record Nav := mkNav { past : list string; current : string; future : list string }.

Inductive NavEvent :=
  | ClickBrowse            (** [navigate("/list")] *)
  | ClickAdd               (** [navigate("/add")] *)
  | EnterURL (p : string)  (** the user types an address *)
  | Back
  | Forward.

Definition push (n : Nav) (p : string) : Nav := mkNav (current n :: past n) p [].

(** The user action, before the router renders. *)
Definition browse (n : Nav) (e : NavEvent) : option Nav :=
  match e with
  | ClickBrowse => Some (push n "/list")
  | ClickAdd => Some (push n "/add")
  | EnterURL p => Some (push n p)
  | Back => match past n with
            | p :: ps => Some (mkNav ps p (current n :: future n))
            | [] => None
            end
  | Forward => match future n with
               | p :: fs => Some (mkNav (current n :: past n) p fs)
               | [] => None
               end
  end.

Definition render (n : Nav) : Nav := mkNav (past n) (settle (current n)) (future n).

Definition step : Handler Nav NavEvent unit := fun n e =>
  (fun n' => (render n', [])) <$> browse n e.

(** The application opened at some address. *)
Definition initNav (p : string) : Nav := render (mkNav [] p []).

Definition settled (p : string) : Prop := exists pg, resolve p = RShow pg.

Definition nav_inv (n : Nav) : Prop :=
  Forall settled (past n) /\ settled (current n) /\ Forall settled (future n).

(** A sample history: opened at ["/"], then "Add Item" clicked. *)
Definition add_opened : Nav := mkNav ["/list"] "/add" [].

(** ** Lemmas *)

Lemma resolve_navigate p t : resolve p = RNavigate t -> t = "/list"%string.
Proof. unfold resolve, routes, splat. simpl. repeat case_match; congruence. Qed.

Lemma resolve_list : resolve "/list" = RShow ListPage.
Proof. reflexivity. Qed.

Lemma settle_settled p : settled (settle p).
Proof.
  unfold settle, settled. destruct (resolve p) as [t|pg] eqn:E.
  - apply resolve_navigate in E as ->. by exists ListPage.
  - by exists pg.
Qed.

Lemma settle_id p : settled p -> settle p = p.
Proof. unfold settle. by intros [pg ->]. Qed.

#[export] Hint Resolve settle_settled : lf.

Lemma js_split_not_nil c s : js_split c s <> [].
Proof. destruct s as [|d s]; simpl; [done|]. case_match; [done|]. by destruct (js_split c s). Qed.

Lemma js_split_toLowerCase s :
  js_split "/" (JsString.toLowerCase s) = map JsString.toLowerCase (js_split "/" s).
Proof.
  induction s as [|c s IH]; [done|]. cbn [JsString.toLowerCase js_split].
  rewrite JsString.lower_char_slash, IH. destruct (Ascii.eqb "/" c); [done|].
  by destruct (js_split "/" s).
Qed.

Lemma js_split_no_sep c w s x xs :
  JsString.has_char c w = false -> js_split c s = x :: xs ->
  js_split c (w ++ s) = (w ++ x)%string :: xs.
Proof.
  intros Hw Hs. induction w as [|d w IH]; simpl.
  - by rewrite !JsString.append_nil_l.
  - rewrite !JsString.append_cons. simpl in *. apply orb_false_iff in Hw as [Hd Hw].
    by rewrite Hd, IH.
Qed.

Lemma js_split_slashes r :
  JsString.all_chars is_slash r = true -> Forall (fun x => x = EmptyString) (js_split "/" r).
Proof.
  induction r as [|d r IH]; simpl; [by repeat constructor|].
  intros [Hd Hr]%andb_true_iff. unfold is_slash in Hd. apply Ascii.eqb_eq in Hd as ->.
  simpl. constructor; [done|]. by apply IH.
Qed.

Lemma filter_truthy_empty l :
  Forall (fun x => x = EmptyString) l -> List.filter JsString.truthy l = [].
Proof. induction 1 as [|y ys -> _ IH]; [done|]. exact IH. Qed.

Lemma segments_word w r :
  JsString.has_char "/" w = false -> w <> EmptyString -> JsString.all_chars is_slash r = true ->
  segments ("/" ++ w ++ r) = [w].
Proof.
  intros Hw Hne Hr. unfold segments.
  change (js_split "/" ("/" ++ w ++ r)) with (EmptyString :: js_split "/" (w ++ r)).
  pose proof (js_split_slashes r Hr) as Hs.
  destruct (js_split "/" r) as [|x xs] eqn:E; [by apply js_split_not_nil in E|]. apply Forall_cons in Hs as [-> Hxs].
  rewrite (js_split_no_sep _ _ _ _ _ Hw E). simpl. rewrite JsString.append_nil_r.
  destruct w as [|c w]; [done|]. simpl. f_equal.
  by apply filter_truthy_empty.
Qed.

Lemma matches_currentView w p :
  JsString.has_char "/" w = false -> w <> EmptyString -> JsString.toLowerCase w = w ->
  JsString.toLowerCase p = p -> path_matches ("/" ++ w) p = true -> currentView p = Some w.
Proof.
  intros Hw Hne Hlw Hlp. unfold path_matches. rewrite Hlp, JsString.toLowerCase_append, Hlw.
  change (JsString.toLowerCase "/") with "/"%string.
  destruct (JsString.strip_prefix _ p) as [rest|] eqn:E; [|done]. intros Hr.
  apply JsString.strip_prefix_Some in E as ->. unfold currentView.
  change ("/" ++ w)%string with (String "/" w). rewrite JsString.append_cons.
  change (String "/" (w ++ rest)) with ("/" ++ w ++ rest)%string.
  by rewrite segments_word.
Qed.

(** ** Decoding leaves paths without escapes alone *)

Lemma js_split_has_char c d s :
  JsString.has_char d s = false -> Forall (fun x => JsString.has_char d x = false) (js_split c s).
Proof.
  induction s as [|e s IH]; simpl; [by repeat constructor|].
  intros [Hd Hs]%orb_false_iff. specialize (IH Hs).
  destruct (Ascii.eqb c e); [by constructor|].
  destruct (js_split c s) as [|x r]; [by repeat constructor; simpl; rewrite Hd|].
  apply Forall_cons in IH as [Hx Hr]. constructor; [|done]. simpl. by rewrite Hd, Hx.
Qed.

Lemma js_split_no_sep_in c s : Forall (fun x => JsString.has_char c x = false) (js_split c s).
Proof.
  induction s as [|e s IH]; simpl; [by repeat constructor|].
  destruct (Ascii.eqb c e) eqn:Hce; [by constructor|].
  destruct (js_split c s) as [|x r]; [by repeat constructor; simpl; rewrite Hce|].
  apply Forall_cons in IH as [Hx Hr]. constructor; [|done]. simpl. by rewrite Hce, Hx.
Qed.

Lemma concat_cons_head sep d x r :
  String.concat sep (String d x :: r) = String d (String.concat sep (x :: r)).
Proof. by destruct r. Qed.

Lemma concat_js_split c s : String.concat (String c EmptyString) (js_split c s) = s.
Proof.
  induction s as [|e s IH]; [done|]. cbn [js_split].
  destruct (Ascii.eqb c e) eqn:Hce.
  - apply Ascii.eqb_eq in Hce as ->. pose proof (js_split_not_nil e s) as Hne.
    destruct (js_split e s) as [|x r]; [done|].
    change (String.concat (String e EmptyString) (EmptyString :: x :: r))
      with (String e (String.concat (String e EmptyString) (x :: r))). by rewrite IH.
  - pose proof (js_split_not_nil c s) as Hne.
    destruct (js_split c s) as [|x r]; [done|]. by rewrite concat_cons_head, IH.
Qed.

Lemma encode_slashes_id s : JsString.has_char "/" s = false -> encode_slashes s = s.
Proof.
  induction s as [|c s IH]; [done|]. cbn -[Ascii.eqb]. rewrite Ascii.eqb_sym.
  intros [Hc Hs]%orb_false_iff. unfold is_slash. rewrite Hc. by rewrite IH.
Qed.

Lemma decodePath_no_escape p : JsString.has_char "%" p = false -> decodePath p = p.
Proof.
  intros Hp. unfold decodePath.
  rewrite (mapM_Some_2 _ (js_split "/" p) (js_split "/" p)).
  - rewrite (map_ext_Forall encode_slashes id); [rewrite map_id; apply concat_js_split|].
    eapply Forall_impl; [exact (js_split_no_sep_in "/" p)|]. exact encode_slashes_id.
  - apply Forall_Forall2_diag. eapply Forall_impl; [exact (js_split_has_char "/" "%" p Hp)|].
    intros x Hx. by apply JsString.decodeURIComponent_no_escape.
Qed.

(** ** The segments of the decoded path *)

Lemma encode_slashes_no_slash d : JsString.has_char "/" (encode_slashes d) = false.
Proof.
  induction d as [|c d IH]; [done|]. cbn -[Ascii.eqb]. unfold is_slash.
  destruct (Ascii.eqb c "/") eqn:Hc; [exact IH|].
  cbn -[Ascii.eqb]. rewrite Ascii.eqb_sym, Hc. exact IH.
Qed.

Lemma encode_slashes_empty d : encode_slashes d = EmptyString <-> d = EmptyString.
Proof. destruct d as [|c d]; [done|]. cbn -[Ascii.eqb]. by destruct (is_slash c). Qed.

Lemma js_split_concat c l :
  Forall (fun x => JsString.has_char c x = false) l -> l <> [] ->
  js_split c (String.concat (String c EmptyString) l) = l.
Proof.
  induction 1 as [|x l Hx Hl IH]; [done|]. intros _.
  destruct l as [|y l].
  - simpl. pose proof (js_split_no_sep c x EmptyString EmptyString [] Hx eq_refl) as H.
    by rewrite !JsString.append_nil_r in H.
  - change (String.concat (String c EmptyString) (x :: y :: l))
      with (x ++ String c (String.concat (String c EmptyString) (y :: l)))%string.
    erewrite js_split_no_sep; [|exact Hx|].
    + by rewrite JsString.append_nil_r.
    + cbn [js_split]. rewrite Ascii.eqb_refl, IH; done.
Qed.

(** The path the routes match is the raw path with every segment mapped
    by one function: decoding and re-escaping, or the identity when a
    segment is malformed.  Either keeps empty segments exactly and leaves
    a segment without ['%'] alone. *)
Lemma decodePath_split p :
  exists f, (forall x, f x = EmptyString <-> x = EmptyString) /\
    (forall x, JsString.has_char "%" x = false -> JsString.has_char "/" x = false -> f x = x) /\
    js_split "/" (decodePath p) = map f (js_split "/" p).
Proof.
  unfold decodePath. destruct (mapM _ _) as [segs|] eqn:E.
  - exists (fun x => default x (encode_slashes <$> JsString.decodeURIComponent x)).
    split_and!.
    + intros x. destruct (JsString.decodeURIComponent x) as [d|] eqn:Hd; simpl; [|done].
      rewrite encode_slashes_empty. split; [intros ->; by apply JsString.decodeURIComponent_empty|].
      intros ->. cbv in Hd. by simplify_eq.
    + intros x Hp Hs. rewrite JsString.decodeURIComponent_no_escape by done. simpl.
      by apply encode_slashes_id.
    + apply mapM_Some_1 in E. rewrite js_split_concat.
      * induction E as [|x d l k Hxd _ IH]; [done|]. simpl. rewrite Hxd. simpl. by f_equal.
      * apply Forall_map, Forall_forall. intros d _. apply encode_slashes_no_slash.
      * pose proof (js_split_not_nil "/" p). destruct E; done.
  - exists id. split_and!; [done|done|by rewrite map_id].
Qed.

(** A path the route of ["/" ++ w] matches splits into an empty segment,
    a segment that lower-cases to [w], and empty segments. *)
Lemma matched_split w q :
  JsString.has_char "/" w = false -> JsString.toLowerCase w = w -> path_matches ("/" ++ w) q = true ->
  exists b E, js_split "/" q = EmptyString :: b :: E /\ JsString.toLowerCase b = w /\
              Forall (fun x => x = EmptyString) E.
Proof.
  intros Hw Hlw. unfold path_matches. rewrite JsString.toLowerCase_append, Hlw.
  change (JsString.toLowerCase "/") with "/"%string.
  destruct (JsString.strip_prefix _ _) as [rest|] eqn:Hp; [|done]. intros Hr.
  apply JsString.strip_prefix_Some in Hp.
  pose proof (js_split_slashes rest Hr) as Hs.
  destruct (js_split "/" rest) as [|x xs] eqn:Er; [by apply js_split_not_nil in Er|].
  apply Forall_cons in Hs as [-> Hxs].
  assert (Hl : map JsString.toLowerCase (js_split "/" q) = EmptyString :: w :: xs).
  { rewrite <-js_split_toLowerCase, Hp.
    change (("/" ++ w) ++ rest)%string with (String "/" (w ++ rest)). cbn [js_split].
    rewrite Ascii.eqb_refl, (js_split_no_sep _ _ _ _ _ Hw Er), JsString.append_nil_r. done. }
  destruct (js_split "/" q) as [|a [|b E]]; simpl in Hl; simplify_eq.
  match goal with H : JsString.toLowerCase a = EmptyString |- _ => apply JsString.toLowerCase_empty in H as -> end.
  exists b, E. split_and!; [done|done|].
  apply Forall_map in Hxs. eapply Forall_impl; [exact Hxs|]. intros y Hy. by apply JsString.toLowerCase_empty.
Qed.

(** The segment the header reads is, without escapes, the one the
    matched route names up to case. *)
Lemma matched_currentView w p v :
  JsString.has_char "/" w = false -> JsString.toLowerCase w = w -> w <> EmptyString ->
  path_matches ("/" ++ w) (decodePath p) = true -> currentView p = Some v ->
  JsString.has_char "%" v = false -> JsString.toLowerCase v = w.
Proof.
  intros Hw Hlw Hne Hm Hv Hesc.
  destruct (matched_split w _ Hw Hlw Hm) as (b' & E & Hq & Hb' & HE).
  destruct (decodePath_split p) as (f & Hf0 & Hfid & Hsplit).
  pose proof (js_split_no_sep_in "/" p) as Hns.
  rewrite Hsplit in Hq. unfold currentView, segments in Hv.
  destruct (js_split "/" p) as [|a [|b E2]]; simpl in Hq; [done|done|].
  injection Hq as Ha Hb HE2. apply Hf0 in Ha as ->.
  subst E. apply Forall_map in HE.
  assert (HE2 : Forall (fun x => x = EmptyString) E2).
  { eapply Forall_impl; [exact HE|]. intros y Hy. by apply Hf0. }
  apply Forall_cons in Hns as [_ Hns]. apply Forall_cons in Hns as [Hbs _].
  destruct b as [|c b]; [by rewrite <-Hb', <-Hb, (proj2 (Hf0 _) eq_refl) in Hne|].
  simpl in Hv. rewrite filter_truthy_empty in Hv by done. simpl in Hv. injection Hv as <-.
  by rewrite <-Hb', <-Hb, Hfid.
Qed.

Lemma resolve_shown_segment p pg v :
  resolve p = RShow pg -> currentView p = Some v -> JsString.has_char "%" v = false ->
  (pg = ListPage /\ JsString.toLowerCase v = "list"%string) \/
  (pg = AddPage /\ JsString.toLowerCase v = "add"%string).
Proof.
  unfold resolve, routes. simpl. intros Hres Hv Hesc.
  destruct (path_matches "/" _); [done|].
  destruct (path_matches "/list" _) eqn:E2; [injection Hres as <-; left|].
  - split; [done|]. by apply (matched_currentView "list" p).
  - destruct (path_matches "/add" _) eqn:E3; [injection Hres as <-; right|done].
    split; [done|]. by apply (matched_currentView "add" p).
Qed.

Lemma nav_step_inv n e n' o : nav_inv n -> step n e = Some (n', o) -> nav_inv n'.
Proof.
  intros (Hp & Hc & Hf). unfold step.
  destruct (browse n e) as [m|] eqn:E; [|done]. intros [= <- _]. unfold render.
  split_and!; simpl; [|auto with lf|]; destruct e; simplify_eq/=;
    repeat case_match; simplify_eq/=; auto; by apply Forall_cons in Hp as [? ?] || apply Forall_cons in Hf as [? ?].
Qed.

Lemma nav_reachable_inv p0 n : reachable step (initNav p0) n -> nav_inv n.
Proof.
  apply reachable_ind; [|intros; by eapply nav_step_inv].
  split_and!; simpl; [constructor|auto with lf|constructor].
Qed.

(** ** Properties of the routes and the header *)

(** C29. Routing terminates after at most one redirect: the settled path
    shows a page, settling is idempotent, a path that shows a page is kept,
    and every other path is replaced by ["/list"]. *)
Theorem routing_settles p :
  settled (settle p) /\ settle (settle p) = settle p /\ (settled p -> settle p = p) /\
  (settle p = p \/ settle p = "/list"%string).
Proof.
  split_and!; [apply settle_settled|apply settle_id, settle_settled|apply settle_id|].
  unfold settle. destruct (resolve p) eqn:E; [right; by apply resolve_navigate in E|by left].
Qed.

(** C28. Because the redirects replace the current entry, no entry of the
    browser history ever holds a redirecting path: Back and Forward show
    the neighbouring entry as it is stored, and never bounce. *)
Theorem back_forward_never_redirect p0 n :
  reachable step (initNav p0) n ->
  nav_inv n /\
  (forall n' o, step n Back = Some (n', o) -> Some (current n') = head (past n)) /\
  (forall n' o, step n Forward = Some (n', o) -> Some (current n') = head (future n)).
Proof.
  intros Hr. pose proof (nav_reachable_inv _ _ Hr) as (Hp & Hc & Hf).
  split_and!; [done| |]; intros n' o; unfold step; simpl.
  - destruct (past n) as [|q ps]; [done|]. intros [= <- _]. simpl.
    apply Forall_cons in Hp as [Hq _]. by rewrite settle_id.
  - destruct (future n) as [|q fs]; [done|]. intros [= <- _]. simpl.
    apply Forall_cons in Hf as [Hq _]. by rewrite settle_id.
Qed.

(** C30. For a path written in lower case and without percent escapes,
    the header highlights exactly the button of the page the routes show
    ([/list] and [/add], with any trailing slashes). *)
Theorem header_highlights_shown_page p pg :
  JsString.toLowerCase p = p -> JsString.has_char "%" p = false ->
  shown p = Some pg -> highlights (header p) pg.
Proof.
  unfold shown, resolve, routes. intros Hl Hesc. rewrite (decodePath_no_escape p Hesc). simpl.
  destruct (path_matches "/" p) eqn:E1; [done|].
  destruct (path_matches "/list" p) eqn:E2.
  - intros [= <-]. unfold header, highlights.
    by rewrite (matches_currentView "list" p eq_refl ltac:(done) eq_refl Hl E2).
  - destruct (path_matches "/add" p) eqn:E3; [|done]. intros [= <-]. unfold header, highlights.
    by rewrite (matches_currentView "add" p eq_refl ltac:(done) eq_refl Hl E3).
Qed.

(** C31. Whatever the path (any case, any percent escapes), the header
    never highlights the button of a page other than the one shown: in
    every state the browser history reaches, a highlighted "Browse Items"
    means the list is shown and a highlighted "Add Item" means the form is
    shown. *)
Theorem header_never_highlights_other_page p0 n :
  reachable step (initNav p0) n ->
  (browse_active (header (current n)) = true -> shown (current n) = Some ListPage) /\
  (add_active (header (current n)) = true -> shown (current n) = Some AddPage).
Proof.
  intros Hr. destruct (nav_reachable_inv _ _ Hr) as (_ & [pg Hpg] & _).
  unfold header, shown. simpl. rewrite Hpg.
  split; intros Hv%bool_decide_eq_true;
    (destruct (resolve_shown_segment _ _ _ Hpg Hv eq_refl) as [[-> ?]|[-> ?]]; simplify_eq/=; done).
Qed.

(** The routes match case-insensitively but the header compares
    [currentView] case-sensitively: ["/LIST"] shows the list with neither
    button highlighted. *)
Example uppercase_path_unhighlighted :
  shown "/LIST" = Some ListPage /\ header "/LIST" = mkHeaderView false false.
Proof. split; reflexivity. Qed.

(** The routes are matched against the decoded path, the header reads the
    raw [location.pathname]: ["/%6cist"] shows the list with neither button
    highlighted, and so does ["/lis%74/"]. *)
Example escaped_path_unhighlighted :
  shown "/%6cist" = Some ListPage /\ header "/%6cist" = mkHeaderView false false /\
  shown "/lis%74/" = Some ListPage /\ header "/lis%74/" = mkHeaderView false false.
Proof. split_and!; reflexivity. Qed.

(** ** Witnesses *)

Lemma add_opened_reachable : reachable step (initNav "/") add_opened.
Proof. solve_reachable [ClickAdd]. Qed.

Lemma routing_settles_witness : settled "/add" /\ settle "/add" = "/add"%string.
Proof.
  assert (H : settled "/add") by (exists AddPage; reflexivity).
  split; [exact H|]. exact (proj1 (proj2 (proj2 (routing_settles "/add"))) H).
Defined.

Lemma back_forward_never_redirect_witness :
  step add_opened Back = Some (mkNav [] "/list" ["/add"], []) /\
  Some (current (mkNav [] "/list" ["/add"])) = head (past add_opened).
Proof.
  assert (H : step add_opened Back = Some (mkNav [] "/list" ["/add"], [])) by (vm_compute; reflexivity).
  split; [exact H|].
  exact (proj1 (proj2 (back_forward_never_redirect "/" add_opened add_opened_reachable)) _ _ H).
Defined.

Lemma header_never_highlights_other_page_witness :
  add_active (header (current add_opened)) = true /\ shown (current add_opened) = Some AddPage.
Proof.
  assert (H : add_active (header (current add_opened)) = true) by reflexivity.
  split; [exact H|].
  exact (proj2 (header_never_highlights_other_page "/" add_opened add_opened_reachable) H).
Defined.

Lemma header_highlights_shown_page_witness :
  JsString.toLowerCase "/add/" = "/add/"%string /\ JsString.has_char "%" "/add/" = false /\
  shown "/add/" = Some AddPage /\ highlights (header "/add/") AddPage.
Proof.
  assert (H1 : JsString.toLowerCase "/add/" = "/add/"%string) by reflexivity.
  assert (H2 : JsString.has_char "%" "/add/" = false) by reflexivity.
  assert (H3 : shown "/add/" = Some AddPage) by reflexivity.
  split_and!; [exact H1|exact H2|exact H3|exact (header_highlights_shown_page _ _ H1 H2 H3)].
Defined.

End Routing.
