(* ===== verification/ImageUpload.v ===== *)
(** * The image picker of [pages/img.tsx]

    [ImageUploadSection] keeps [image : { file, url } | null] and
    [error : string | null].  Choosing a file runs [handleImageUpload]:
    no file does nothing, a file that fails [validateFile] sets the error,
    an accepted file gets an object URL ([URL.createObjectURL]) and becomes
    the preview.  [removeImage] revokes the preview's URL, clears the image
    and calls [onImageChange("")].  The effect on [[image]] calls
    [onImageChange(image.url)] for a new image, and its cleanup, run before
    the next effect and at unmount, revokes the URL of the image it was
    created for.

    The browser's object-URL store is the set [live] of URLs created and
    not yet revoked; [createObjectURL] returns ["blob:" ++ n] for a counter
    [n].  The messages of [validateFile] are the UTF-8 encodings of the
    source's strings.  [step] handles the three user actions and the
    unmount, each followed by the effect's cleanup and re-run where the
    image changed; its outputs are the callbacks and revocations in the
    order they happen.

    The theorems: the accepted files are exactly those of at most 5 MiB
    whose type is one of the four listed; the only live URL is the one
    shown, and none is left after unmount (no leak, and the preview is never
    revoked while shown); the last value passed to [onImageChange] is the
    URL shown, or [""] once the image is removed. *)

From S2P Require Import Prelude.
From stdpp Require Import pretty.

Module ImageUpload.

Record File := mkFile { file_name : string; size : Z; file_type : string }.

(** [const MAX_FILE_SIZE = 5 * 1024 * 1024] *)
Definition MAX_FILE_SIZE : Z := 5 * 1024 * 1024.

Definition size_error : string := "Максимальный размер: 5MB".
Definition type_error : string := "Допустимые форматы: JPEG, JPG, PNG, WebP".

(** [file.type.match(/^image\/(jpeg|jpg|png|webp)$/)] *)
Definition type_matches (t : string) : bool :=
  bool_decide (t ∈ ["image/jpeg"; "image/jpg"; "image/png"; "image/webp"]%string).

(** [validateFile] *)
Definition validateFile (file : File) : option string :=
  if (MAX_FILE_SIZE <? size file)%Z then Some size_error
  else if negb (type_matches (file_type file)) then Some type_error
  else None.

Record UState := mkUState {
  image : option (File * string);
  error : option string;
  mounted : bool;
  live : gset string;     (** object URLs created and not revoked *)
  next_url : N
}.

Inductive UEvent :=
  | UChoose (files : list File)   (** the file input's [onChange] *)
  | URemove                       (** the remove button *)
  | UUnmount.

Inductive UOut :=
  | OImageChange (url : string)   (** [onImageChange(url)] *)
  | ORevoke (url : string).       (** [URL.revokeObjectURL(url)] *)

Definition initState : UState := mkUState None None true ∅ 0.

Definition url_of (i : option (File * string)) : option string := snd <$> i.

(** [URL.createObjectURL(file)] *)
Definition createObjectURL (s : UState) : string * UState :=
  let url := ("blob:" ++ pretty (next_url s))%string in
  (url, mkUState (image s) (error s) (mounted s) ({[url]} ∪ live s) (N.succ (next_url s))).

Definition revokeObjectURL (s : UState) (url : string) : UState :=
  mkUState (image s) (error s) (mounted s) (live s ∖ {[url]}) (next_url s).

Definition set_image_error (s : UState) (i : option (File * string)) (e : option string) : UState :=
  mkUState i e (mounted s) (live s) (next_url s).

(** The effect's cleanup for the image it was created with. *)
Definition cleanup (s : UState) (old : option (File * string)) : UState * list UOut :=
  match old with
  | Some (_, u) => (revokeObjectURL s u, [ORevoke u])
  | None => (s, [])
  end.

(** After a render where [image] changed: the old cleanup, then the new
    effect. *)
Definition rerun_effect (s : UState) (old : option (File * string)) : UState * list UOut :=
  let '(s1, o1) := cleanup s old in
  (s1, o1 ++ match image s1 with Some (_, u) => [OImageChange u] | None => [] end).

(** [handleImageUpload] *)
Definition handleImageUpload (s : UState) (files : list File) : UState * list UOut :=
  match files with
  | [] => (s, [])
  | file :: _ =>
      match validateFile file with
      | Some msg => (set_image_error s (image s) (Some msg), [])
      | None =>
          let '(url, s1) := createObjectURL s in
          rerun_effect (set_image_error s1 (Some (file, url)) None) (image s)
      end
  end.

(** [removeImage] *)
Definition removeImage (s : UState) : UState * list UOut :=
  let '(s1, o1) := match image s with
                   | Some (_, u) => (revokeObjectURL s u, [ORevoke u])
                   | None => (s, [])
                   end in
  let s2 := set_image_error s1 None (error s1) in
  let '(s3, o3) := rerun_effect s2 (image s) in
  (s3, o1 ++ [OImageChange ""] ++ o3).

(** Unmount: the last cleanup. *)
Definition unmount (s : UState) : UState * list UOut :=
  let '(s1, o1) := cleanup s (image s) in
  (mkUState (image s1) (error s1) false (live s1) (next_url s1), o1).

(** The input is rendered only without an image, the button only with one. *)
Definition step : Handler UState UEvent UOut := fun s e =>
  if negb (mounted s) then None else
  match e, image s with
  | UChoose files, None => Some (handleImageUpload s files)
  | URemove, Some _ => Some (removeImage s)
  | UUnmount, _ => Some (unmount s)
  | _, _ => None
  end.

Definition image_changes (o : list UOut) : list string :=
  omap (fun x => match x with OImageChange u => Some u | _ => None end) o.

Definition revocations (u : string) (o : list UOut) : nat :=
  length (List.filter (fun x => match x with ORevoke v => bool_decide (v = u) | _ => false end) o).

(** The object-URL store holds exactly the URL shown while mounted, and
    nothing after unmount. *)
Definition inv (s : UState) : Prop :=
  live s = (if mounted s then match url_of (image s) with Some u => {[u]} | None => ∅ end else ∅).

(** A 1 MiB PNG, and the picker right after choosing it. *)
Definition sample_png : File := mkFile "keys.png" 1048576 "image/png".
Definition png_chosen : UState :=
  mkUState (Some (sample_png, "blob:0"%string)) None true {["blob:0"%string]} 1.

(** ** Lemmas *)

Lemma image_changes_app o1 o2 : image_changes (o1 ++ o2) = image_changes o1 ++ image_changes o2.
Proof. apply omap_app. Qed.

Lemma upload_step_cases s e s' o :
  step s e = Some (s', o) ->
  (mounted s = true /\ image s' = image s /\ mounted s' = true /\ live s' = live s /\ o = []) \/
  (exists file url, mounted s = true /\ image s = None /\ image s' = Some (file, url) /\
     mounted s' = true /\ live s' = {[url]} ∪ live s /\ o = [OImageChange url]) \/
  (exists file u, mounted s = true /\ image s = Some (file, u) /\ image s' = None /\
     mounted s' = true /\ live s' = live s ∖ {[u]} ∖ {[u]} /\ o = [ORevoke u; OImageChange ""; ORevoke u]) \/
  (mounted s = true /\ mounted s' = false /\ image s' = image s /\
     live s' = (match url_of (image s) with Some u => live s ∖ {[u]} | None => live s end) /\
     o = match url_of (image s) with Some u => [ORevoke u] | None => [] end).
Proof.
  unfold step. destruct (mounted s) eqn:Hm; [|done]. simpl.
  destruct e as [files| |], (image s) as [[f u]|] eqn:Hi; try done; intros [= Hs].
  - unfold handleImageUpload in Hs. destruct files as [|file fs]; [left; by simplify_eq|].
    destruct (validateFile file); [left; by simplify_eq|].
    right; left. simpl in Hs. rewrite Hi in Hs.
    unfold rerun_effect, cleanup in Hs. simpl in Hs. simplify_eq. simpl. rewrite Hm. naive_solver.
  - right; right; left. unfold removeImage, rerun_effect, cleanup in Hs. rewrite Hi in Hs.
    simpl in Hs. simplify_eq. simpl. rewrite Hm. naive_solver.
  - right; right; right. unfold unmount, cleanup in Hs. rewrite Hi in Hs. simpl in Hs. simplify_eq.
    simpl. rewrite Hi. naive_solver.
  - right; right; right. unfold unmount, cleanup in Hs. rewrite Hi in Hs. simpl in Hs. simplify_eq.
    simpl. rewrite Hi. naive_solver.
Qed.

Lemma upload_step_inv s e s' o : inv s -> step s e = Some (s', o) -> inv s'.
Proof.
  unfold inv. intros Hinv Hs.
  destruct (upload_step_cases _ _ _ _ Hs) as [(Hm & Hi & Hm' & Hl & _)|[(f & u & Hm & Hi & Hi' & Hm' & Hl & _)|
    [(f & u & Hm & Hi & Hi' & Hm' & Hl & _)|(Hm & Hm' & Hi & Hl & _)]]];
    rewrite Hm in Hinv; rewrite Hl, Hm', ?Hi', ?Hi; rewrite ?Hi in Hinv; simpl in *; rewrite Hinv.
  - by destruct (url_of (image s)).
  - set_solver.
  - set_solver.
  - destruct (url_of (image s)); set_solver.
Qed.

Lemma upload_reachable_inv s : reachable step initState s -> inv s.
Proof. apply reachable_ind; [done|]. intros; by eapply upload_step_inv. Qed.

Lemma last_image_changes_app o o' :
  last (image_changes (o ++ o')) =
    match last (image_changes o') with Some u => Some u | None => last (image_changes o) end.
Proof.
  rewrite image_changes_app. destruct (image_changes o') as [|x l] eqn:E using rev_ind.
  - by rewrite app_nil_r.
  - by rewrite app_assoc, !last_snoc.
Qed.

(** ** Properties of the picker *)

(** C27. A file is accepted exactly when it has at most 5 MiB and its MIME
    type is one of the four listed; the size is checked first, so a large
    file of another type reports the size. *)
Theorem validateFile_spec f :
  (validateFile f = None <->
     (size f <= MAX_FILE_SIZE)%Z /\
     file_type f ∈ ["image/jpeg"; "image/jpg"; "image/png"; "image/webp"]%string) /\
  ((MAX_FILE_SIZE < size f)%Z -> validateFile f = Some size_error).
Proof.
  unfold validateFile, type_matches.
  destruct (Z.ltb_spec MAX_FILE_SIZE (size f)); simpl.
  - split; [split; [done|lia]|done].
  - destruct (bool_decide _) eqn:E; simpl;
      [apply bool_decide_eq_true in E|apply bool_decide_eq_false in E]; split; naive_solver lia.
Qed.

(** C25. No object URL leaks: while the picker is mounted the browser holds
    exactly the URL of the preview (so the preview is never revoked while
    shown) and none without a preview, and it holds none after unmount. *)
Theorem no_object_url_leak s :
  reachable step initState s ->
  (mounted s = false -> live s = ∅) /\
  (forall f u, mounted s = true -> image s = Some (f, u) -> live s = {[u]}) /\
  (mounted s = true -> image s = None -> live s = ∅).
Proof.
  intros Hr. pose proof (upload_reachable_inv _ Hr) as Hinv. unfold inv in Hinv.
  split_and!.
  - intros Hm. by rewrite Hm in Hinv.
  - intros f u Hm Hi. by rewrite Hm, Hi in Hinv.
  - intros Hm Hi. by rewrite Hm, Hi in Hinv.
Qed.

(** C26. The parent is kept in step: along any run, the last value passed
    to [onImageChange] is the URL of the preview shown, and without a
    preview it is [""] (or nothing was passed yet). *)
Theorem onImageChange_tracks_image es s o :
  run step initState es = Some (s, o) ->
  (forall f u, image s = Some (f, u) -> last (image_changes o) = Some u) /\
  (image s = None -> last (image_changes o) = None \/ last (image_changes o) = Some ""%string).
Proof.
  revert es s o. apply run_trace_ind; [split; [done|by left]|].
  intros s o e s' o' [Hsome Hnone] Hs. rewrite !last_image_changes_app.
  destruct (upload_step_cases _ _ _ _ Hs) as [(_ & Hi & _ & _ & ->)|[(f & u & _ & _ & Hi & _ & _ & ->)|
    [(f & u & _ & _ & Hi & _ & _ & ->)|(_ & _ & Hi & _ & Ho)]]]; rewrite Hi; simpl.
  - done.
  - split; [by intros ? ? [= _ <-]|done].
  - split; [done|by right].
  - assert (last (image_changes o') = None) as ->
      by (rewrite Ho; by destruct (url_of (image s))).
    done.
Qed.

(** ** Witnesses *)

Lemma png_chosen_run : run step initState [UChoose [sample_png]] = Some (png_chosen, [OImageChange "blob:0"]).
Proof. vm_compute. reflexivity. Qed.

Lemma validateFile_spec_witness :
  let big := mkFile "scan.tiff" (6 * 1024 * 1024) "image/tiff" in
  (MAX_FILE_SIZE < size big)%Z /\ validateFile big = Some size_error.
Proof.
  intros big. assert (H : (MAX_FILE_SIZE < size big)%Z) by (vm_compute; reflexivity).
  split; [exact H|]. exact (proj2 (validateFile_spec big) H).
Defined.

Lemma no_object_url_leak_witness :
  mounted png_chosen = true /\ image png_chosen = Some (sample_png, "blob:0"%string) /\
  live png_chosen = {["blob:0"%string]}.
Proof.
  assert (Hr : reachable step initState png_chosen) by (eexists _, _; apply png_chosen_run).
  split_and!; [reflexivity|reflexivity|].
  exact (proj1 (proj2 (no_object_url_leak _ Hr)) _ _ eq_refl eq_refl).
Defined.

Lemma onImageChange_tracks_image_witness :
  image png_chosen = Some (sample_png, "blob:0"%string) /\
  last (image_changes [OImageChange "blob:0"]) = Some "blob:0"%string.
Proof.
  split; [reflexivity|].
  exact (proj1 (onImageChange_tracks_image _ _ _ png_chosen_run) _ _ eq_refl).
Defined.

End ImageUpload.
